(** * Terraship: the rule engine, drift detection and the validation run

    A shallow embedding of
    - [internal/rules/engine.go]   (package [rules]: the policy rule engine),
    - [internal/cloud]             (the adapter interface, [ResourceStatus],
                                    [ValidationResult], [ValidationRule]),
    - [internal/cloud/aws], [azure], [gcp]  ([GetResourceStatus], [DetectDrift]),
    - [internal/terraform/client.go] (the plan model: [Module], [Resource]),
    - [internal/core/validator.go] (package [core]: the orchestrator),
    together with the properties of the specification that concern them.

    Conventions.
    - A Go [map[string]T] is a [gmap string T].  Go leaves the order of a
      [range] over a map unspecified; every such loop takes a [Seed] that
      stands for the choice of the runtime (see [rangeMap]).
    - A Go [interface{}] holding decoded YAML or JSON is a [Value].
    - A function that appends to [result.Details] through a pointer returns
      the updated [ValidationResult] next to its boolean.
    - Calls that leave the process (terraform, the cloud SDKs, the regexp
      library) are parameters: their outcomes are given by an environment,
      and the calls made are recorded in a trace. *)

From Stdlib Require Import ZArith Ascii String DecimalString.
From stdpp Require Import gmap strings list fin_maps.

Set Warnings "-register-all".
Set Default Proof Using "Type".

Local Open Scope stdpp_scope.

(* ===================================================================== *)
(** * Go's [strings] package (the functions the program calls) *)
(* ===================================================================== *)

Module GoStrings.

(** [strings.HasPrefix(s, prefix)]. *)
Definition HasPrefix (s prefix : string) : bool := String.prefix prefix s.

(** [strings.Contains(s, substr)]: [substr] occurs at some position. *)
Fixpoint Contains (s substr : string) : bool :=
  if String.prefix substr s then true
  else match s with
       | EmptyString => false
       | String _ s' => Contains s' substr
       end.

(** [strings.ReplaceAll(s, old, new)] for a non-empty [old]: the
    non-overlapping occurrences of [old], found from the left, become
    [new].  [skip] counts the characters of an occurrence still to drop. *)
Fixpoint replaceFrom (skip : nat) (s old new : string) : string :=
  match s with
  | EmptyString => EmptyString
  | String c s' =>
      match skip with
      | S k => replaceFrom k s' old new
      | O =>
          if String.prefix old s
          then new +:+ replaceFrom (String.length old - 1) s' old new
          else String c (replaceFrom 0 s' old new)
      end
  end.

Definition ReplaceAll (s old new : string) : string := replaceFrom 0 s old new.

(** [strings.ToLower] on ASCII letters; bytes outside [A-Z] are kept. *)
Definition lowerAscii (c : ascii) : ascii :=
  let n := nat_of_ascii c in
  if (65 <=? n)%nat && (n <=? 90)%nat then ascii_of_nat (n + 32) else c.

Fixpoint ToLower (s : string) : string :=
  match s with
  | EmptyString => EmptyString
  | String c s' => String (lowerAscii c) (ToLower s')
  end.

(** [strings.Split(s, sep)] for a non-empty [sep]; [cur] holds the part
    being read, in reverse. *)
Fixpoint splitFrom (skip : nat) (cur : string) (s sep : string) : list string :=
  match s with
  | EmptyString => [String.rev cur]
  | String c s' =>
      match skip with
      | S k => splitFrom k cur s' sep
      | O =>
          if String.prefix sep s
          then String.rev cur :: splitFrom (String.length sep - 1) EmptyString s' sep
          else splitFrom 0 (String c cur) s' sep
      end
  end.

Definition Split (s sep : string) : list string := splitFrom 0 EmptyString s sep.

(** [strings.Join(elems, sep)]. *)
Fixpoint Join (elems : list string) (sep : string) : string :=
  match elems with
  | [] => EmptyString
  | [e] => e
  | e :: rest => e +:+ sep +:+ Join rest sep
  end.

End GoStrings.

(* ===================================================================== *)
(** * Dynamic values: what an [interface{}] holds after decoding *)
(* ===================================================================== *)

(** The policy is decoded from YAML and the plan from JSON into
    [map[string]interface{}].  A [float64] is only ever printed by the
    program, so it is carried by its [%v] rendering. *)
Inductive Value : Type :=
  | VNil
  | VBool (b : bool)
  | VInt (n : Z)
  | VFloat (shown : string)
  | VStr (s : string)
  | VList (l : list Value)
  | VMap (m : gmap string Value).

(** Type assertions [v.(T)] in their comma-ok form; an absent map entry is
    the nil interface, on which every assertion fails. *)
Definition asBool (v : option Value) : option bool :=
  match v with Some (VBool b) => Some b | _ => None end.

Definition asInt (v : option Value) : option Z :=
  match v with Some (VInt n) => Some n | _ => None end.

Definition asString (v : option Value) : option string :=
  match v with Some (VStr s) => Some s | _ => None end.

Definition asSlice (v : option Value) : option (list Value) :=
  match v with Some (VList l) => Some l | _ => None end.

Definition asMap (v : option Value) : option (gmap string Value) :=
  match v with Some (VMap m) => Some m | _ => None end.

(** [len(m)] of a map. *)
Definition lenMap {A} (m : gmap string A) : nat := size m.

(* ===================================================================== *)
(** * Go's [fmt] package *)
(* ===================================================================== *)

Module GoFmt.

Definition decimal (n : Z) : string := NilZero.string_of_int (Z.to_int n).

(** [fmt] prints a map with its keys sorted. *)
Fixpoint insertByKey (kv : string * string) (l : list (string * string))
  : list (string * string) :=
  match l with
  | [] => [kv]
  | kv' :: rest =>
      if String.leb kv.1 kv'.1 then kv :: l else kv' :: insertByKey kv rest
  end.

Definition sortByKey (l : list (string * string)) : list (string * string) :=
  foldr insertByKey [] l.

(** [fmt.Sprint(v)] of one operand, which is also the verb [%v]. *)
Fixpoint Sprint (v : Value) : string :=
  match v with
  | VNil => "<nil>"
  | VBool b => if b then "true" else "false"
  | VInt n => decimal n
  | VFloat shown => shown
  | VStr s => s
  | VList l => "[" +:+ GoStrings.Join (map Sprint l) " " +:+ "]"
  | VMap m =>
      let shown := map_fold (fun k x acc => (k, Sprint x) :: acc) [] m in
      "map[" +:+
      GoStrings.Join (map (fun kv => kv.1 +:+ ":" +:+ kv.2) (sortByKey shown)) " "
      +:+ "]"
  end.

End GoFmt.

(* ===================================================================== *)
(** * [range] over a map *)
(* ===================================================================== *)

(** The runtime's choice of an iteration order. *)
Definition Seed : Type := list nat.

Fixpoint insertAt {A} (n : nat) (x : A) (l : list A) : list A :=
  match n, l with
  | S k, y :: l' => y :: insertAt k x l'
  | _, _ => x :: l
  end.

(** [shuffle seed l] is a rearrangement of [l], and every rearrangement
    is [shuffle seed l] for some [seed] ([shuffle_Permutation],
    [shuffle_complete]). *)
Fixpoint shuffle {A} (seed : Seed) (l : list A) : list A :=
  match l with
  | [] => []
  | x :: l' =>
      match seed with
      | [] => x :: shuffle [] l'
      | n :: seed' => insertAt n x (shuffle seed' l')
      end
  end.

(** [for k, v := range m], in the order that [seed] selects. *)
Definition rangeMap {A} (seed : Seed) (m : gmap string A) : list (string * A) :=
  shuffle seed (map_to_list m).

(* ===================================================================== *)
(** * Go errors *)
(* ===================================================================== *)

(** An error value: a plain one, or one made by [fmt.Errorf] with [%w],
    which keeps the error it wraps. *)
Inductive error : Type :=
  | errorString (msg : string)
  | wrapError (msg : string) (inner : error).

(** [err.Error()]. *)
Definition Error (e : error) : string :=
  match e with
  | errorString msg => msg
  | wrapError msg _ => msg
  end.

(** [fmt.Errorf(prefix + "%w", inner)]. *)
Definition Errorf_w (prefix : string) (inner : error) : error :=
  wrapError (prefix +:+ Error inner) inner.

(** [errors.Unwrap]. *)
Definition Unwrap (e : error) : option error :=
  match e with
  | errorString _ => None
  | wrapError _ inner => Some inner
  end.

(** [errors.Is(e, target)] for comparable errors: [target] is on the
    chain of [e]. *)
Fixpoint wraps (e target : error) : Prop :=
  e = target \/
  match e with
  | errorString _ => False
  | wrapError _ inner => wraps inner target
  end.

(* ===================================================================== *)
(** * Package [cloud]: the types shared by the engine and the adapters *)
(* ===================================================================== *)

(** [cloud.ResourceStatus]; a nil [Tags] map reads as the empty map. *)
Module ResourceStatus.
Record t : Type := mk {
  ResourceID : string;
  ResourceType : string;
  Exists : bool;
  State : string;
  Tags : gmap string string;
  Properties : gmap string Value;
  DriftDetected : bool;
  DriftDetails : list string
}.
End ResourceStatus.

(** [cloud.ValidationResult]. *)
Module ValidationResult.
Record t : Type := mk {
  ResourceID : string;
  RuleName : string;
  Passed : bool;
  Message : string;
  Severity : string;
  Remediation : string;
  Details : list string
}.

(** [result.Details = append(result.Details, detail)]. *)
Definition appendDetail (result : t) (detail : string) : t :=
  mk (ResourceID result) (RuleName result) (Passed result) (Message result)
     (Severity result) (Remediation result) (Details result ++ [detail]).

(** [result.Passed = b]. *)
Definition setPassed (result : t) (b : bool) : t :=
  mk (ResourceID result) (RuleName result) b (Message result)
     (Severity result) (Remediation result) (Details result).

(** [result.ResourceID = id]. *)
Definition setResourceID (result : t) (id : string) : t :=
  mk id (RuleName result) (Passed result) (Message result)
     (Severity result) (Remediation result) (Details result).
End ValidationResult.

(** [cloud.ValidationRule]. *)
Module ValidationRule.
Record t : Type := mk {
  Name : string;
  Description : string;
  Severity : string;
  Category : string;
  Enabled : bool;
  ResourceTypes : list string;
  Conditions : gmap string Value;
  Message : string;
  Remediation : string
}.
End ValidationRule.

(* ===================================================================== *)
(** * Package [rules]: the rule engine ([internal/rules/engine.go]) *)
(* ===================================================================== *)

(** [rules.Policy]. *)
Module Policy.
Record t : Type := mk {
  Version : string;
  Name : string;
  Description : string;
  Rules : list ValidationRule.t
}.
End Policy.

(** [rules.Engine]. *)
Module Engine.
Record t : Type := mk { policy : Policy.t }.
End Engine.

Definition hasKey {A} (m : gmap string A) (k : string) : bool :=
  match m !! k with Some _ => true | None => false end.

(** The double quote, and the three bytes of a quoted star. *)
Definition dquote : string := String "034"%char EmptyString.
Definition quotedStar : string := dquote +:+ "*" +:+ dquote.

Module rules.
Import GoStrings GoFmt.
Import ValidationResult.

Section WithRegexp.

(** [regexp.MatchString(pattern, s)] of Go's standard library: whether
    [s] contains a match of [pattern], and the error of a pattern that
    does not parse. *)
Variable regexp_MatchString : string -> string -> bool * option error.

(** A checker reads the expected value and the attributes, may append to
    [result.Details], and says whether the condition holds. *)
Definition pass (result : ValidationResult.t) : bool * ValidationResult.t :=
  (true, result).

Definition failWith (result : ValidationResult.t) (detail : string)
  : bool * ValidationResult.t :=
  (false, appendDetail result detail).

(** ** [checkRequiredTags] *)

Fixpoint collectMissing (requiredTags : list Value) (tags : gmap string Value)
    (missingTags : list string) : list string :=
  match requiredTags with
  | [] => missingTags
  | tag :: rest =>
      let tagName := Sprint tag in
      if hasKey tags tagName
      then collectMissing rest tags missingTags
      else collectMissing rest tags (missingTags ++ [tagName])
  end.

Definition checkRequiredTags (expected : Value) (resource : gmap string Value)
    (result : ValidationResult.t) : bool * ValidationResult.t :=
  match asSlice (Some expected) with
  | None => failWith result "Invalid tags.required configuration"
  | Some requiredTags =>
      match asMap (resource !! "tags") with
      | None => failWith result "No tags found on resource"
      | Some tags =>
          let missingTags := collectMissing requiredTags tags [] in
          if (0 <? length missingTags)%nat
          then failWith result
                 ("Missing required tags: " +:+ Join missingTags ", ")
          else pass result
      end
  end.

(** ** The checkers that look for one of several indicator fields *)

(** [shouldBeEnabled, ok := expected.(bool); if !ok || !shouldBeEnabled]. *)
Definition notRequested (expected : Value) : bool :=
  match asBool (Some expected) with
  | Some shouldBeEnabled => negb shouldBeEnabled
  | None => true
  end.

(** A field that is boolean true, or a non-empty mapping. *)
Definition trueOrNonEmptyMap (value : Value) : bool :=
  match value with
  | VBool boolVal => boolVal
  | VMap mapVal => (0 <? lenMap mapVal)%nat
  | _ => false
  end.

(** [for _, field := range fields], returning at the first field that is
    present and satisfies [indicates]. *)
Definition anyField (indicates : Value -> bool) (fields : list string)
    (resource : gmap string Value) : bool :=
  existsb (fun field =>
             match resource !! field with
             | Some value => indicates value
             | None => false
             end) fields.

Definition encryptionFields : list string :=
  ["encryption"; "encrypted"; "encryption_configuration";
   "server_side_encryption_configuration"; "encryption_at_rest"].

Definition checkEncryptionEnabled (expected : Value)
    (resource : gmap string Value) (result : ValidationResult.t)
  : bool * ValidationResult.t :=
  if notRequested expected then pass result
  else if anyField trueOrNonEmptyMap encryptionFields resource then pass result
  else failWith result "Encryption is not enabled".

Definition versioningFields : list string :=
  ["versioning"; "versioning_configuration"; "version_enabled"].

(** Boolean true, or a mapping whose ["enabled"] entry is boolean true. *)
Definition trueOrEnabledMap (value : Value) : bool :=
  match value with
  | VBool boolVal => boolVal
  | VMap mapVal =>
      match asBool (mapVal !! "enabled") with
      | Some enabled => enabled
      | None => false
      end
  | _ => false
  end.

Definition checkVersioningEnabled (expected : Value)
    (resource : gmap string Value) (result : ValidationResult.t)
  : bool * ValidationResult.t :=
  if notRequested expected then pass result
  else if anyField trueOrEnabledMap versioningFields resource then pass result
  else failWith result "Versioning is not enabled".

Definition loggingFields : list string :=
  ["logging"; "logging_configuration"; "log_configuration"; "enable_logging"].

Definition checkLoggingEnabled (expected : Value)
    (resource : gmap string Value) (result : ValidationResult.t)
  : bool * ValidationResult.t :=
  if notRequested expected then pass result
  else if anyField trueOrNonEmptyMap loggingFields resource then pass result
  else failWith result "Logging is not enabled".

Definition backupFields : list string :=
  ["backup"; "backup_configuration"; "backup_enabled"; "backup_retention_period"].

(** Boolean true, a positive [int], or a non-empty mapping. *)
Definition trueOrPositiveOrNonEmptyMap (value : Value) : bool :=
  match value with
  | VBool boolVal => boolVal
  | VInt intVal => (0 <? intVal)%Z
  | VMap mapVal => (0 <? lenMap mapVal)%nat
  | _ => false
  end.

Definition checkBackupEnabled (expected : Value)
    (resource : gmap string Value) (result : ValidationResult.t)
  : bool * ValidationResult.t :=
  if notRequested expected then pass result
  else if anyField trueOrPositiveOrNonEmptyMap backupFields resource
       then pass result
  else failWith result "Backup is not configured".

(** ** [checkPublicAccessBlocked] *)

(** The local map [publicFields]; the loop ranges over it, so the field
    that is reported when several are public depends on the runtime. *)
Definition publicFields : gmap string bool :=
  <["public" := false]> (<["publicly_accessible" := false]>
    (<["public_access_enabled" := false]> (<["acl" := false]> ∅))).

Fixpoint publicLoop (fields : list (string * bool))
    (resource : gmap string Value) (result : ValidationResult.t)
  : bool * ValidationResult.t :=
  match fields with
  | [] => pass result
  | (field, _) :: rest =>
      match resource !! field with
      | Some (VBool true) =>
          failWith result ("Resource has public access via '" +:+ field +:+ "'")
      | Some (VStr strVal) =>
          if Contains (ToLower strVal) "public"
          then failWith result
                 ("Resource has public access via '" +:+ field +:+ "': " +:+ strVal)
          else publicLoop rest resource result
      | _ => publicLoop rest resource result
      end
  end.

Definition checkPublicAccessBlocked (publicSeed : Seed) (expected : Value)
    (resource : gmap string Value) (result : ValidationResult.t)
  : bool * ValidationResult.t :=
  if notRequested expected then pass result
  else publicLoop (rangeMap publicSeed publicFields) resource result.

(** ** [checkNamingPattern] *)

Definition nameFields : list string := ["name"; "id"; "resource_name"].

(** The first name field that holds a string decides; a field that is
    absent or not a string is passed over. *)
Fixpoint namingLoop (fields : list string) (pattern : string)
    (resource : gmap string Value) (result : ValidationResult.t)
  : bool * ValidationResult.t :=
  match fields with
  | [] => pass result
  | field :: rest =>
      match asString (resource !! field) with
      | Some name =>
          match regexp_MatchString pattern name with
          | (_, Some err) =>
              failWith result ("Invalid regex pattern: " +:+ Error err)
          | (false, None) =>
              failWith result
                ("Name '" +:+ name +:+ "' does not match pattern '" +:+ pattern +:+ "'")
          | (true, None) => pass result
          end
      | None => namingLoop rest pattern resource result
      end
  end.

Definition checkNamingPattern (expected : Value)
    (resource : gmap string Value) (result : ValidationResult.t)
  : bool * ValidationResult.t :=
  match asString (Some expected) with
  | None => pass result
  | Some pattern => namingLoop nameFields pattern resource result
  end.

(** ** [checkLeastPrivilege] *)

Definition policyFields : list string := ["policy"; "policy_document"; "policy_arn"].

Fixpoint privilegeLoop (fields : list string)
    (resource : gmap string Value) (result : ValidationResult.t)
  : bool * ValidationResult.t :=
  match fields with
  | [] => pass result
  | field :: rest =>
      match asString (resource !! field) with
      | Some strVal =>
          if Contains strVal "*:*" || Contains strVal quotedStar
          then failWith result "Policy contains wildcard permissions"
          else privilegeLoop rest resource result
      | None => privilegeLoop rest resource result
      end
  end.

Definition checkLeastPrivilege (expected : Value)
    (resource : gmap string Value) (result : ValidationResult.t)
  : bool * ValidationResult.t :=
  privilegeLoop policyFields resource result.

(** ** [checkPrivateSubnet] *)

Definition checkPrivateSubnet (expected : Value)
    (resource : gmap string Value) (result : ValidationResult.t)
  : bool * ValidationResult.t :=
  if notRequested expected then pass result
  else match asString (resource !! "subnet_id") with
       | Some strVal =>
           if Contains strVal "public"
           then failWith result "Resource is in a public subnet"
           else pass result
       | None => pass result
       end.

(** ** [checkProperty]: the generic dotted-path check *)

Fixpoint navigate (parts : list string) (propertyPath : string)
    (expected : Value) (current : gmap string Value)
    (result : ValidationResult.t) : bool * ValidationResult.t :=
  match parts with
  | [] => pass result
  | part :: rest =>
      match current !! part with
      | None =>
          failWith result ("Property '" +:+ propertyPath +:+ "' not found")
      | Some value =>
          match rest with
          | [] =>
              if String.eqb (Sprint value) (Sprint expected) then pass result
              else failWith result
                     ("Property '" +:+ propertyPath +:+ "' has value '"
                      +:+ Sprint value +:+ "', expected '"
                      +:+ Sprint expected +:+ "'")
          | _ :: _ =>
              match value with
              | VMap nested => navigate rest propertyPath expected nested result
              | _ =>
                  failWith result
                    ("Cannot navigate property path '" +:+ propertyPath +:+ "'")
              end
          end
      end
  end.

Definition checkProperty (propertyPath : string) (expected : Value)
    (resource : gmap string Value) (result : ValidationResult.t)
  : bool * ValidationResult.t :=
  navigate (Split propertyPath ".") propertyPath expected resource result.

(** ** [evaluateCondition] *)

Definition evaluateCondition (publicSeed : Seed) (condition : string)
    (expected : Value) (resource : gmap string Value)
    (result : ValidationResult.t) : bool * ValidationResult.t :=
  if String.eqb condition "tags.required" then
    checkRequiredTags expected resource result
  else if String.eqb condition "encryption.enabled" then
    checkEncryptionEnabled expected resource result
  else if String.eqb condition "public_access.blocked" then
    checkPublicAccessBlocked publicSeed expected resource result
  else if String.eqb condition "versioning.enabled" then
    checkVersioningEnabled expected resource result
  else if String.eqb condition "logging.enabled" then
    checkLoggingEnabled expected resource result
  else if String.eqb condition "backup.enabled" then
    checkBackupEnabled expected resource result
  else if String.eqb condition "naming.pattern" then
    checkNamingPattern expected resource result
  else if String.eqb condition "iam.least_privilege" then
    checkLeastPrivilege expected resource result
  else if String.eqb condition "network.private_subnet" then
    checkPrivateSubnet expected resource result
  else
    checkProperty condition expected resource result.

(** ** [EvaluateRule] *)

(** The two [range] statements over maps that one evaluation can reach:
    over [rule.Conditions], and over [publicFields]. *)
Record RuleSeed : Type := mkRuleSeed {
  conditionSeed : Seed;
  publicSeed : Seed
}.

(** The loop over the conditions, in the order the runtime hands them
    out: the first condition that fails clears [Passed] and ends it. *)
Fixpoint conditionsLoop (pSeed : Seed) (conditions : list (string * Value))
    (resource : gmap string Value) (result : ValidationResult.t)
  : ValidationResult.t :=
  match conditions with
  | [] => result
  | (condition, expected) :: rest =>
      let '(ok, result') :=
        evaluateCondition pSeed condition expected resource result in
      if ok then conditionsLoop pSeed rest resource result'
      else setPassed result' false
  end.

Definition EvaluateRule (seed : RuleSeed) (rule : ValidationRule.t)
    (resource : gmap string Value) : ValidationResult.t :=
  let result :=
    ValidationResult.mk "" (ValidationRule.Name rule) true
      (ValidationRule.Message rule) (ValidationRule.Severity rule)
      (ValidationRule.Remediation rule) [] in
  conditionsLoop (publicSeed seed)
    (rangeMap (conditionSeed seed) (ValidationRule.Conditions rule))
    resource result.

(** ** [matchResourceType] and [GetRulesForResource] *)

(** The error of [regexp.MatchString] is dropped: [matched, _ := ...]. *)
Definition matchResourceType (pattern resourceType : string) : bool :=
  let pattern := ReplaceAll pattern "*" ".*" in
  (regexp_MatchString ("^" +:+ pattern +:+ "$") resourceType).1.

Fixpoint rulesLoop (rules : list ValidationRule.t) (resourceType : string)
    (applicable : list ValidationRule.t) : list ValidationRule.t :=
  match rules with
  | [] => applicable
  | rule :: rest =>
      if negb (ValidationRule.Enabled rule) then
        rulesLoop rest resourceType applicable
      else if (length (ValidationRule.ResourceTypes rule) =? 0)%nat then
        rulesLoop rest resourceType (applicable ++ [rule])
      else if existsb (fun rt => matchResourceType rt resourceType)
                      (ValidationRule.ResourceTypes rule) then
        rulesLoop rest resourceType (applicable ++ [rule])
      else
        rulesLoop rest resourceType applicable
  end.

Definition GetRulesForResource (e : Engine.t) (resourceType : string)
  : list ValidationRule.t :=
  rulesLoop (Policy.Rules (Engine.policy e)) resourceType [].

End WithRegexp.
End rules.

(* ===================================================================== *)
(** * The cloud adapters ([internal/cloud], [aws], [azure], [gcp]) *)
(* ===================================================================== *)

Module cloud.
Import GoStrings GoFmt.

(** [cloud.CloudConfig]. *)
Record CloudConfig : Type := mkCloudConfig {
  Provider : string;
  Region : string;
  AWSProfile : string;
  AWSRoleARN : string;
  AWSRegion : string;
  AzureSubscriptionID : string;
  AzureTenantID : string;
  AzureClientID : string;
  AzureClientSecret : string;
  GCPProject : string;
  GCPCredentialsFile : string;
  GCPServiceAccountJSON : string
}.

(** What [GetResourceStatus] returns: [(status, nil)], or an error next
    to a status that may be nil.  No adapter returns [(nil, nil)]. *)
Inductive StatusResult : Type :=
  | Found (status : ResourceStatus.t)
  | Failed (status : option ResourceStatus.t) (err : error).

(** A helper that asks the provider's SDK about one kind of resource
    returns [(status, nil)] or [(nil, err)]. *)
Definition fromSDK (r : ResourceStatus.t + error) : StatusResult :=
  match r with
  | inl status => Found status
  | inr err => Failed None err
  end.

(** The status the [default] branch builds before it reports the type
    as unsupported. *)
Definition blankStatus (resourceType resourceID : string) : ResourceStatus.t :=
  ResourceStatus.mk resourceID resourceType false "" ∅ ∅ false [].

Definition unsupported (resourceType resourceID : string) : StatusResult :=
  Failed (Some (blankStatus resourceType resourceID))
         (errorString ("unsupported resource type: " +:+ resourceType)).

(** [actualStatus.DriftDetected = true; actualStatus.DriftDetails = d]. *)
Definition markDrift (actualStatus : ResourceStatus.t) (details : list string)
  : ResourceStatus.t :=
  ResourceStatus.mk
    (ResourceStatus.ResourceID actualStatus)
    (ResourceStatus.ResourceType actualStatus)
    (ResourceStatus.Exists actualStatus)
    (ResourceStatus.State actualStatus)
    (ResourceStatus.Tags actualStatus)
    (ResourceStatus.Properties actualStatus)
    true details.

(** ** [DetectDrift]

    The three adapters carry the same function up to the provider's name
    in the message, the attribute compared (["tags"], or ["labels"] on
    GCP) and the word used for it. *)
Section DetectDrift.
Variable providerName : string.
Variable attribute : string.
Variable word : string.
Variable GetResourceStatus : string -> string -> StatusResult.

(** The loop over the planned tags, in the runtime's order. *)
Fixpoint compareTags (planned : list (string * Value))
    (actual : gmap string string) (driftDetails : list string)
  : list string :=
  match planned with
  | [] => driftDetails
  | (key, value) :: rest =>
      match actual !! key with
      | None =>
          compareTags rest actual
            (driftDetails ++ [word +:+ " '" +:+ key +:+ "' missing"])
      | Some actualValue =>
          if negb (String.eqb (Sprint value) actualValue)
          then compareTags rest actual
                 (driftDetails ++
                    [word +:+ " '" +:+ key +:+ "' differs: planned="
                     +:+ Sprint value +:+ ", actual=" +:+ actualValue])
          else compareTags rest actual driftDetails
      end
  end.

Definition DetectDrift (seed : Seed) (plannedState : gmap string Value)
    (resourceType resourceID : string) : ResourceStatus.t + error :=
  match GetResourceStatus resourceType resourceID with
  | Failed _ err => inr err
  | Found actualStatus =>
      if negb (ResourceStatus.Exists actualStatus) then
        inl (markDrift actualStatus
               ["Resource does not exist in " +:+ providerName])
      else
        let driftDetails :=
          match asMap (plannedState !! attribute) with
          | Some plannedTags =>
              compareTags (rangeMap seed plannedTags)
                (ResourceStatus.Tags actualStatus) []
          | None => []
          end in
        if (0 <? length driftDetails)%nat
        then inl (markDrift actualStatus driftDetails)
        else inl actualStatus
  end.
End DetectDrift.

(** [cloud.Adapter], the interface, with the methods the orchestrator
    calls.  [Initialize] and [ValidateCredentials] reach the provider:
    their outcome is the adapter's to give. *)
Record Adapter : Type := mkAdapter {
  Name : string;
  Initialize : CloudConfig -> option error;
  ValidateCredentials : option error;
  AdapterDetectDrift :
    Seed -> gmap string Value -> string -> string -> ResourceStatus.t + error
}.

End cloud.

(** ** AWS *)
Module aws.
Import GoStrings cloud.

(** What the provider answers, through the SDK, to the methods and
    helpers that call it. *)
Record SDK : Type := mkSDK {
  Initialize : CloudConfig -> option error;
  ValidateCredentials : option error;
  getEC2InstanceStatus : string -> ResourceStatus.t + error;
  getS3BucketStatus : string -> ResourceStatus.t + error;
  getIAMRoleStatus : string -> ResourceStatus.t + error
}.

Definition GetResourceStatus (sdk : SDK) (resourceType resourceID : string)
  : StatusResult :=
  if HasPrefix resourceType "aws_instance" then
    fromSDK (getEC2InstanceStatus sdk resourceID)
  else if HasPrefix resourceType "aws_s3_bucket" then
    fromSDK (getS3BucketStatus sdk resourceID)
  else if HasPrefix resourceType "aws_iam_role" then
    fromSDK (getIAMRoleStatus sdk resourceID)
  else unsupported resourceType resourceID.

Definition DetectDrift (sdk : SDK) :=
  cloud.DetectDrift "AWS" "tags" "Tag" (GetResourceStatus sdk).

Definition NewAdapter (sdk : SDK) : Adapter :=
  mkAdapter "aws" (Initialize sdk) (ValidateCredentials sdk) (DetectDrift sdk).
End aws.

(** ** Azure *)
Module azure.
Import GoStrings cloud.

Record SDK : Type := mkSDK {
  Initialize : CloudConfig -> option error;
  ValidateCredentials : option error;
  getVMStatus : string -> ResourceStatus.t + error;
  getStorageAccountStatus : string -> ResourceStatus.t + error;
  getResourceGroupStatus : string -> ResourceStatus.t + error
}.

Definition GetResourceStatus (sdk : SDK) (resourceType resourceID : string)
  : StatusResult :=
  if HasPrefix resourceType "azurerm_virtual_machine" then
    fromSDK (getVMStatus sdk resourceID)
  else if HasPrefix resourceType "azurerm_storage_account" then
    fromSDK (getStorageAccountStatus sdk resourceID)
  else if HasPrefix resourceType "azurerm_resource_group" then
    fromSDK (getResourceGroupStatus sdk resourceID)
  else unsupported resourceType resourceID.

Definition DetectDrift (sdk : SDK) :=
  cloud.DetectDrift "Azure" "tags" "Tag" (GetResourceStatus sdk).

Definition NewAdapter (sdk : SDK) : Adapter :=
  mkAdapter "azure" (Initialize sdk) (ValidateCredentials sdk) (DetectDrift sdk).
End azure.

(** ** GCP *)
Module gcp.
Import GoStrings cloud.

Record SDK : Type := mkSDK {
  Initialize : CloudConfig -> option error;
  ValidateCredentials : option error;
  getComputeInstanceStatus : string -> ResourceStatus.t + error;
  getStorageBucketStatus : string -> ResourceStatus.t + error
}.

Definition GetResourceStatus (sdk : SDK) (resourceType resourceID : string)
  : StatusResult :=
  if HasPrefix resourceType "google_compute_instance" then
    fromSDK (getComputeInstanceStatus sdk resourceID)
  else if HasPrefix resourceType "google_storage_bucket" then
    fromSDK (getStorageBucketStatus sdk resourceID)
  else unsupported resourceType resourceID.

Definition DetectDrift (sdk : SDK) :=
  cloud.DetectDrift "GCP" "labels" "Label" (GetResourceStatus sdk).

Definition NewAdapter (sdk : SDK) : Adapter :=
  mkAdapter "gcp" (Initialize sdk) (ValidateCredentials sdk) (DetectDrift sdk).
End gcp.

(* ===================================================================== *)
(** * Package [terraform]: the plan model and the client *)
(* ===================================================================== *)

Module terraform.

(** [terraform.Resource]. *)
Module Resource.
Record t : Type := mk {
  Address : string;
  Mode : string;
  Type_ : string;
  Name : string;
  ProviderName : string;
  SchemaVersion : Z;
  Values : gmap string Value
}.
End Resource.

(** [terraform.Module]: resources and child modules, a tree. *)
Inductive Module_ : Type :=
  mkModule (Resources : list Resource.t) (ChildModules : list Module_)
           (Address : string).

Definition Resources (m : Module_) : list Resource.t :=
  match m with mkModule rs _ _ => rs end.

Definition ChildModules (m : Module_) : list Module_ :=
  match m with mkModule _ cs _ => cs end.

(** [terraform.StateValues] and the part of [terraform.PlanOutput] the
    orchestrator reads; a nil pointer is [None]. *)
Record StateValues : Type := mkStateValues { RootModule : option Module_ }.

Record PlanOutput : Type := mkPlanOutput {
  FormatVersion : string;
  TerraformVersion : string;
  PlannedValues : option StateValues
}.

(** [terraform.Client]: each method runs the terraform binary (or, for
    [GetProvider], reads the working directory); the record gives what
    each of them returns in the run under study. *)
Record Client : Type := mkClient {
  Init : bool -> option error;
  Validate : option error;
  GetProvider : string + error;
  Plan : string -> option error;
  ShowJSON : string -> PlanOutput + error;
  Apply : string -> option error;
  Destroy : bool -> option error
}.

End terraform.

(* ===================================================================== *)
(** * Package [core]: the orchestrator ([internal/core/validator.go]) *)
(* ===================================================================== *)

Module core.
Import GoStrings.

Definition ModeValidateExisting : string := "validate-existing".
Definition ModeEphemeralSandbox : string := "ephemeral-sandbox".

(** [core.ValidatorConfig]. *)
Record ValidatorConfig : Type := mkValidatorConfig {
  Mode : string;
  WorkingDir : string;
  PolicyPath : string;
  CloudProvider : string;
  OutputFormat : string;
  OutputFile : string;
  NoDestroy : bool;
  Verbose : bool
}.

(** [core.ValidationReport]; a nil [DriftStatus] is [None]. *)
Module ValidationReport.
Record t : Type := mk {
  ResourceAddress : string;
  ResourceType : string;
  Provider : string;
  Status : string;
  RuleResults : list ValidationResult.t;
  DriftStatus : option ResourceStatus.t;
  Errors : list string
}.

Definition setStatus (report : t) (status : string) : t :=
  mk (ResourceAddress report) (ResourceType report) (Provider report)
     status (RuleResults report) (DriftStatus report) (Errors report).

Definition appendRuleResult (report : t) (result : ValidationResult.t) : t :=
  mk (ResourceAddress report) (ResourceType report) (Provider report)
     (Status report) (RuleResults report ++ [result]) (DriftStatus report)
     (Errors report).

Definition setDriftStatus (report : t) (status : ResourceStatus.t) : t :=
  mk (ResourceAddress report) (ResourceType report) (Provider report)
     (Status report) (RuleResults report) (Some status) (Errors report).

Definition appendError (report : t) (msg : string) : t :=
  mk (ResourceAddress report) (ResourceType report) (Provider report)
     (Status report) (RuleResults report) (DriftStatus report)
     (Errors report ++ [msg]).
End ValidationReport.

(** [core.Summary]; the counters count reports, and are naturals. *)
Module Summary.
Record t : Type := mk {
  TotalResources : nat;
  PassedResources : nat;
  FailedResources : nat;
  WarningResources : nat;
  ErrorResources : nat;
  DriftDetected : nat;
  Reports : list ValidationReport.t
}.
End Summary.

(** [core.Validator]. *)
Module Validator.
Record t : Type := mk {
  config : ValidatorConfig;
  tfClient : terraform.Client;
  cloudAdapter : option cloud.Adapter;
  rulesEngine : Engine.t;
  results : list ValidationReport.t
}.

Definition setCloudAdapter (v : t) (adapter : cloud.Adapter) : t :=
  mk (config v) (tfClient v) (Some adapter) (rulesEngine v) (results v).

Definition appendResult (v : t) (report : ValidationReport.t) : t :=
  mk (config v) (tfClient v) (cloudAdapter v) (rulesEngine v)
     (results v ++ [report]).
End Validator.

(** What a run finds around it: the clouds behind the three adapter
    constructors, the temporary directory, the regexp library, and the
    order the runtime picks for each [range] over a map (the rule loop
    of resource [i] at rule [j], the tag loop of resource [i]). *)
Record Env : Type := mkEnv {
  awsSDK : aws.SDK;
  azureSDK : azure.SDK;
  gcpSDK : gcp.SDK;
  TempDir : string;
  regexp_MatchString : string -> string -> bool * option error;
  ruleSeeds : nat -> nat -> rules.RuleSeed;
  driftSeeds : nat -> Seed
}.

(** ** [collectResources]: the module's resources, then each child's. *)
Fixpoint collectResources (module : terraform.Module_)
  : list terraform.Resource.t :=
  match module with
  | terraform.mkModule resources children _ =>
      resources ++ flat_map collectResources children
  end.

(** ** [extractResourceID] *)
Definition nonEmptyString (v : option Value) : option string :=
  match asString v with
  | Some s => if String.eqb s "" then None else Some s
  | None => None
  end.

Definition extractResourceID (resource : terraform.Resource.t) : string :=
  let values := terraform.Resource.Values resource in
  match nonEmptyString (values !! "id") with
  | Some id => id
  | None =>
      match nonEmptyString (values !! "name") with
      | Some name => name
      | None =>
          match nonEmptyString (values !! "arn") with
          | Some arn => arn
          | None => ""
          end
      end
  end.

(** ** [validateResource] *)

Import ValidationReport.

(** The status update after one rule result. *)
Definition escalate (report : ValidationReport.t)
    (result : ValidationResult.t) : ValidationReport.t :=
  if negb (ValidationResult.Passed result) then
    if String.eqb (ValidationResult.Severity result) "error" then
      setStatus report "fail"
    else if String.eqb (ValidationResult.Severity result) "warning"
            && negb (String.eqb (Status report) "fail") then
      setStatus report "warning"
    else report
  else report.

(** The loop over the applicable rules; [j] is the index of the rule. *)
Fixpoint evaluateRules (env : Env) (seeds : nat -> rules.RuleSeed)
    (j : nat) (applicableRules : list ValidationRule.t)
    (resource : terraform.Resource.t) (report : ValidationReport.t)
  : ValidationReport.t :=
  match applicableRules with
  | [] => report
  | rule :: rest =>
      let result :=
        rules.EvaluateRule (regexp_MatchString env) (seeds j) rule
          (terraform.Resource.Values resource) in
      let result :=
        ValidationResult.setResourceID result
          (terraform.Resource.Address resource) in
      let report := appendRuleResult report result in
      evaluateRules env seeds (S j) rest resource (escalate report result)
  end.

(** The drift check that follows the rules. *)
Definition checkDrift (v : Validator.t) (seed : Seed)
    (resource : terraform.Resource.t) (report : ValidationReport.t)
  : ValidationReport.t :=
  match Validator.cloudAdapter v with
  | Some adapter =>
      if String.eqb (Mode (Validator.config v)) ModeValidateExisting then
        let resourceID := extractResourceID resource in
        if negb (String.eqb resourceID "") then
          match cloud.AdapterDetectDrift adapter seed
                  (terraform.Resource.Values resource)
                  (terraform.Resource.Type_ resource) resourceID with
          | inr err =>
              appendError report ("Drift detection failed: " +:+ Error err)
          | inl driftStatus =>
              let report := setDriftStatus report driftStatus in
              if ResourceStatus.DriftDetected driftStatus
                 && String.eqb (Status report) "pass"
              then setStatus report "warning"
              else report
          end
        else report
      else report
  | None => report
  end.

(** [validateResource] of the resource at index [i] of the plan. *)
Definition validateResource (env : Env) (v : Validator.t) (i : nat)
    (resource : terraform.Resource.t) : ValidationReport.t :=
  let report :=
    ValidationReport.mk
      (terraform.Resource.Address resource)
      (terraform.Resource.Type_ resource)
      (terraform.Resource.ProviderName resource)
      "pass" [] None [] in
  let applicableRules :=
    rules.GetRulesForResource (regexp_MatchString env)
      (Validator.rulesEngine v) (terraform.Resource.Type_ resource) in
  let report :=
    evaluateRules env (ruleSeeds env i) 0 applicableRules resource report in
  checkDrift v (driftSeeds env i) resource report.

(** ** The run: state, trace and errors *)

(** The calls that leave the process, as the run makes them. *)
Inductive Call : Type :=
  | tfInit (upgrade : bool)
  | tfValidate
  | tfGetProvider
  | tfPlan (planFile : string)
  | tfShowJSON (planFile : string)
  | tfApply (planFile : string)
  | tfDestroy (autoApprove : bool)
  | adapterInitialize (provider : string)
  | adapterValidateCredentials (provider : string)
  | osRemove (file : string).

(** The validator's fields, the calls made so far, and what was written
    to standard error. *)
Record State : Type := mkState {
  validator : Validator.t;
  calls : list Call;
  stderr : list string
}.

(** A step of the run returns a value or an error, and a new state. *)
Definition M (A : Type) : Type := State -> (A + error) * State.

Definition ret {A} (a : A) : M A := fun s => (inl a, s).

Definition throw {A} (err : error) : M A := fun s => (inr err, s).

Definition bind {A B} (m : M A) (k : A -> M B) : M B :=
  fun s =>
    match m s with
    | (inl a, s') => k a s'
    | (inr err, s') => (inr err, s')
    end.

Notation "x <- m ;; k" := (bind m (fun x => k))
  (at level 100, m at next level, right associativity).
Notation "m ;;; k" := (bind m (fun _ => k))
  (at level 100, right associativity).

(** [if err := m; err != nil { return fmt.Errorf(prefix + "%w", err) }]. *)
Definition orWrap {A} (prefix : string) (m : M A) : M A :=
  fun s =>
    match m s with
    | (inr err, s') => (inr (Errorf_w prefix err), s')
    | r => r
    end.

(** The error of a step, as a value: [err := m]. *)
Definition try (m : M unit) : M (option error) :=
  fun s =>
    match m s with
    | (inl _, s') => (inl None, s')
    | (inr err, s') => (inl (Some err), s')
    end.

(** [defer cleanup] around [body]: [cleanup] runs when [body] is left,
    whatever it returns. *)
Definition defer {A} (cleanup : M unit) (body : M A) : M A :=
  fun s =>
    let '(r, s') := body s in
    let '(_, s'') := cleanup s' in
    (r, s'').

Definition getValidator : M Validator.t := fun s => (inl (validator s), s).

Definition setValidator (v : Validator.t) : M unit :=
  fun s => (inl tt, mkState v (calls s) (stderr s)).

(** A call that leaves the process: it is recorded, and its outcome is
    the one given. *)
Definition external {A} (c : Call) (outcome : A + error) : M A :=
  fun s => (outcome, mkState (validator s) (calls s ++ [c]) (stderr s)).

Definition outcomeOf (r : option error) : unit + error :=
  match r with
  | None => inl tt
  | Some err => inr err
  end.

(** [fmt.Fprintf(os.Stderr, ...)]. *)
Definition printStderr (line : string) : M unit :=
  fun s => (inl tt, mkState (validator s) (calls s) (stderr s ++ [line])).

Definition newline : string := String "010"%char EmptyString.

(** ** [initializeCloudAdapter] *)
Definition initializeCloudAdapter (env : Env) (provider : string) : M unit :=
  adapter <-
    (if String.eqb provider "aws" then ret (aws.NewAdapter (awsSDK env))
     else if String.eqb provider "azure" then ret (azure.NewAdapter (azureSDK env))
     else if String.eqb provider "gcp" then ret (gcp.NewAdapter (gcpSDK env))
     else throw (errorString ("unsupported cloud provider: " +:+ provider)));;
  let config := cloud.mkCloudConfig provider "" "" "" "" "" "" "" "" "" "" "" in
  orWrap ("failed to initialize " +:+ provider +:+ " adapter: ")
    (external (adapterInitialize provider)
       (outcomeOf (cloud.Initialize adapter config)));;;
  orWrap "cloud credentials validation failed: "
    (external (adapterValidateCredentials provider)
       (outcomeOf (cloud.ValidateCredentials adapter)));;;
  v <- getValidator;;
  setValidator (Validator.setCloudAdapter v adapter).

(** ** [validateResources] *)

(** The loop over the flattened resources; [i] is the index. *)
Fixpoint resourcesLoop (env : Env) (i : nat)
    (resources : list terraform.Resource.t) (v : Validator.t) : Validator.t :=
  match resources with
  | [] => v
  | resource :: rest =>
      let report := validateResource env v i resource in
      resourcesLoop env (S i) rest (Validator.appendResult v report)
  end.

Definition validateResources (env : Env) (plan : terraform.PlanOutput) : M unit :=
  match terraform.PlannedValues plan with
  | None => throw (errorString "no resources found in plan")
  | Some planned =>
      match terraform.RootModule planned with
      | None => throw (errorString "no resources found in plan")
      | Some root =>
          let resources := collectResources root in
          v <- getValidator;;
          setValidator (resourcesLoop env 0 resources v)
      end
  end.

(** ** [runEphemeralMode] *)
Definition runEphemeralMode (planFile : string) : M unit :=
  v <- getValidator;;
  applyErr <-
    try (external (tfApply planFile)
           (outcomeOf (terraform.Apply (Validator.tfClient v) planFile)));;
  (if negb (NoDestroy (Validator.config v)) then
     err <-
       try (external (tfDestroy true)
              (outcomeOf (terraform.Destroy (Validator.tfClient v) true)));;
     match err with
     | Some err =>
         if Verbose (Validator.config v)
         then printStderr
                ("Warning: terraform destroy encountered issues: "
                 +:+ Error err +:+ newline)
         else ret tt
     | None => ret tt
     end
   else ret tt);;;
  match applyErr with
  | Some applyErr => throw (Errorf_w "terraform apply failed: " applyErr)
  | None => ret tt
  end.

(** ** [generateSummary] *)

Definition countReport (summary : Summary.t) (report : ValidationReport.t)
  : Summary.t :=
  let status := Status report in
  let bump (name : string) (n : nat) : nat :=
    if String.eqb status name then S n else n in
  let drifted :=
    match DriftStatus report with
    | Some d => ResourceStatus.DriftDetected d
    | None => false
    end in
  Summary.mk
    (Summary.TotalResources summary)
    (bump "pass" (Summary.PassedResources summary))
    (bump "fail" (Summary.FailedResources summary))
    (bump "warning" (Summary.WarningResources summary))
    (bump "error" (Summary.ErrorResources summary))
    (if drifted then S (Summary.DriftDetected summary)
     else Summary.DriftDetected summary)
    (Summary.Reports summary).

Definition generateSummary (v : Validator.t) : Summary.t :=
  let summary :=
    Summary.mk (length (Validator.results v)) 0 0 0 0 0 (Validator.results v) in
  foldl countReport summary (Validator.results v).

(** ** [Validate] *)

Definition planFilePath (env : Env) : string :=
  TempDir env +:+ "/terraship-plan.tfplan".

Definition Validate (env : Env) : M Summary.t :=
  v <- getValidator;;
  let tf := Validator.tfClient v in
  orWrap "terraform init failed: "
    (external (tfInit false) (outcomeOf (terraform.Init tf false)));;;
  orWrap "terraform validate failed: "
    (external tfValidate (outcomeOf (terraform.Validate tf)));;;
  provider <-
    (if String.eqb (CloudProvider (Validator.config v)) "" then
       orWrap "failed to detect cloud provider: "
         (external tfGetProvider (terraform.GetProvider tf))
     else ret (CloudProvider (Validator.config v)));;
  orWrap "failed to initialize cloud adapter: "
    (initializeCloudAdapter env provider);;;
  let planFile := planFilePath env in
  defer (external (osRemove planFile) (inl tt))
    (orWrap "terraform plan failed: "
       (external (tfPlan planFile) (outcomeOf (terraform.Plan tf planFile)));;;
     plan <-
       orWrap "failed to parse plan: "
         (external (tfShowJSON planFile) (terraform.ShowJSON tf planFile));;
     orWrap "resource validation failed: " (validateResources env plan);;;
     (if String.eqb (Mode (Validator.config v)) ModeEphemeralSandbox then
        orWrap "ephemeral mode failed: " (runEphemeralMode planFile)
      else ret tt);;;
     v' <- getValidator;;
     ret (generateSummary v')).

(** [NewValidator], once the configuration is accepted, the terraform
    binary found and the policy file decoded into [policy]. *)
Definition NewValidator (config : ValidatorConfig) (tf : terraform.Client)
    (policy : Policy.t) : Validator.t :=
  Validator.mk config tf None (Engine.mk policy) [].

(** The state a run starts from. *)
Definition start (v : Validator.t) : State := mkState v [] [].

End core.

(* ===================================================================== *)
(** * The [validate] command ([cmd/terraship/commands/validate.go]) *)
(* ===================================================================== *)

Module commands.

(** [summary.FailedResources > 0 || summary.ErrorResources > 0]: whether
    [runValidate] leaves with exit code 1 after printing the summary. *)
Definition exitsWithFailure (summary : core.Summary.t) : bool :=
  (0 <? core.Summary.FailedResources summary)%nat
  || (0 <? core.Summary.ErrorResources summary)%nat.

End commands.

(* ===================================================================== *)
(** * Go's [regexp] on the expressions [matchResourceType] builds *)
(* ===================================================================== *)

(** [matchResourceType] hands [regexp.MatchString] the pattern between
    [^] and [$], each [*] replaced by [.*].  For a pattern without other
    RE2 operators the expression is a sequence of literal characters, [.]
    and [.*].  This module gives the RE2 reading of such expressions; the
    engine itself is stated for any [regexp_MatchString]. *)
Module regexp.

Inductive Item : Type :=
  | Lit (c : ascii)   (* a character that stands for itself *)
  | AnyChar           (* [.]  : one character other than a line feed *)
  | AnyStar.          (* [.*] : any run of such characters *)

Definition lineFeed : ascii := "010"%char.

(** The characters RE2 reads as operators. *)
Definition metaChars : list ascii :=
  ["\"; "."; "+"; "*"; "?"; "("; ")"; "|"; "["; "]"; "{"; "}"; "^"; "$"]%char.

Definition isMeta (c : ascii) : bool :=
  existsb (Ascii.eqb c) metaChars.

(** Go reads patterns and subjects as UTF-8; on bytes below 128 a
    character is a byte, and this reading is kept to those. *)
Definition isAscii (c : ascii) : bool := (nat_of_ascii c <? 128)%nat.

Fixpoint asciiOnly (s : string) : bool :=
  match s with
  | EmptyString => true
  | String c rest => isAscii c && asciiOnly rest
  end.

(** The items between the anchors, up to the closing [$]. *)
Fixpoint parseBody (s : string) : option (list Item) :=
  match s with
  | EmptyString => None
  | String c rest =>
      if Ascii.eqb c "$" then
        match rest with EmptyString => Some [] | _ => None end
      else if Ascii.eqb c "." then
        match rest with
        | String c' rest' =>
            if Ascii.eqb c' "*" then cons AnyStar <$> parseBody rest'
            else cons AnyChar <$> parseBody rest
        | EmptyString => None
        end
      else if isMeta c || negb (isAscii c) then None
      else cons (Lit c) <$> parseBody rest
  end.

(** An expression [^ item ... item $]. *)
Definition parse (pattern : string) : option (list Item) :=
  match pattern with
  | String c body => if Ascii.eqb c "^" then parseBody body else None
  | EmptyString => None
  end.

(** Whether the items match the whole of [s]. *)
Fixpoint matchItems (items : list Item) (s : string) : bool :=
  match items with
  | [] => match s with EmptyString => true | _ => false end
  | Lit c :: rest =>
      match s with
      | String d s' => Ascii.eqb c d && matchItems rest s'
      | EmptyString => false
      end
  | AnyChar :: rest =>
      match s with
      | String d s' => negb (Ascii.eqb d lineFeed) && matchItems rest s'
      | EmptyString => false
      end
  | AnyStar :: rest =>
      (fix star (s : string) : bool :=
         matchItems rest s ||
         match s with
         | String d s' => negb (Ascii.eqb d lineFeed) && star s'
         | EmptyString => false
         end) s
  end.

(** [regexp_MatchString] follows RE2 on the expressions of this form
    and subjects of bytes below 128. *)
Definition RE2 (regexp_MatchString : string -> string -> bool * option error)
  : Prop :=
  forall pattern items s,
    parse pattern = Some items ->
    asciiOnly s = true ->
    regexp_MatchString pattern s = (matchItems items s, None).

(** A matcher that does, and gives up with an error on every other
    expression; it serves as the instance in the examples. *)
Definition MatchString (pattern s : string) : bool * option error :=
  match parse pattern with
  | Some items => (matchItems items s, None)
  | None => (false, Some (errorString "expression outside the fragment"))
  end.

End regexp.

(* ===================================================================== *)
(** * The specification's readings, to compare the code with *)
(* ===================================================================== *)

Module spec.

(** ** Type patterns: [*] is a wildcard, every other character stands
    for itself, and the whole type must be matched. *)
Fixpoint wildcardMatch (pattern s : string) : bool :=
  match pattern with
  | EmptyString => match s with EmptyString => true | _ => false end
  | String c pattern' =>
      if Ascii.eqb c "*" then
        (fix skip (s : string) : bool :=
           wildcardMatch pattern' s ||
           match s with
           | String _ s' => skip s'
           | EmptyString => false
           end) s
      else
        match s with
        | String d s' => Ascii.eqb c d && wildcardMatch pattern' s'
        | EmptyString => false
        end
  end.

(** A rule applies to a type if it is enabled and has no pattern, or a
    pattern that matches. *)
Definition applies (resourceType : string) (rule : ValidationRule.t) : bool :=
  ValidationRule.Enabled rule &&
  (match ValidationRule.ResourceTypes rule with [] => true | _ => false end
   || existsb (fun pattern => wildcardMatch pattern resourceType)
        (ValidationRule.ResourceTypes rule)).

(** ** The escalation rule of a report. *)
Definition failedWith (severity : string) (result : ValidationResult.t) : bool :=
  negb (ValidationResult.Passed result)
  && String.eqb (ValidationResult.Severity result) severity.

Definition driftDetected (drift : option ResourceStatus.t) : bool :=
  match drift with
  | Some status => ResourceStatus.DriftDetected status
  | None => false
  end.

Definition deriveStatus (results : list ValidationResult.t)
    (drift : option ResourceStatus.t) : string :=
  if existsb (failedWith "error") results then "fail"
  else if existsb (failedWith "warning") results || driftDetected drift
       then "warning"
  else "pass".

End spec.

(* ===================================================================== *)
(** * Notions used to state the properties *)
(* ===================================================================== *)

(** How a checker ends: it passes and leaves the result as it is, or it
    fails and appends one detail. *)
Definition finish (verdict : option string) (result : ValidationResult.t)
  : bool * ValidationResult.t :=
  match verdict with
  | None => (true, result)
  | Some detail => (false, ValidationResult.appendDetail result detail)
  end.

(** The result [EvaluateRule] starts from. *)
Definition initialResult (rule : ValidationRule.t) : ValidationResult.t :=
  ValidationResult.mk "" (ValidationRule.Name rule) true
    (ValidationRule.Message rule) (ValidationRule.Severity rule)
    (ValidationRule.Remediation rule) [].

(** A result with nothing in it, to run a checker on. *)
Definition blankResult : ValidationResult.t :=
  ValidationResult.mk "" "" true "" "" "" [].

(** Whether a condition holds of the attributes. *)
Definition holds (regexp_MatchString : string -> string -> bool * option error)
    (condition : string) (expected : Value) (resource : gmap string Value)
  : bool :=
  (rules.evaluateCondition regexp_MatchString [] condition expected resource
     blankResult).1.


(** The condition keys with a checker of their own. *)
Definition namedConditions : list string :=
  ["tags.required"; "encryption.enabled"; "public_access.blocked";
   "versioning.enabled"; "logging.enabled"; "backup.enabled";
   "naming.pattern"; "iam.least_privilege"; "network.private_subnet"].

(** A type pattern of literal characters below 128 and [*]: no other
    RE2 operator in it. *)
Fixpoint plainPattern (pattern : string) : bool :=
  match pattern with
  | EmptyString => true
  | String c rest =>
      (Ascii.eqb c "*" || negb (regexp.isMeta c) && regexp.isAscii c)
      && plainPattern rest
  end.

Fixpoint noLineFeed (s : string) : bool :=
  match s with
  | EmptyString => true
  | String c rest => negb (Ascii.eqb c regexp.lineFeed) && noLineFeed rest
  end.

(** A resource type the reading covers: bytes below 128, no line feed. *)
Definition plainType (resourceType : string) : bool :=
  regexp.asciiOnly resourceType && noLineFeed resourceType.


(** The expression a plain pattern becomes, item by item. *)
Fixpoint itemsOf (pattern : string) : list regexp.Item :=
  match pattern with
  | EmptyString => []
  | String c rest =>
      (if Ascii.eqb c "*" then regexp.AnyStar else regexp.Lit c) :: itemsOf rest
  end.

(** The value a dotted path leads to: each part but the last must name
    a nested mapping. *)
Fixpoint lookupPath (parts : list string) (current : gmap string Value)
  : option Value :=
  match parts with
  | [] => None
  | part :: rest =>
      match current !! part with
      | None => None
      | Some value =>
          match rest with
          | [] => Some value
          | _ :: _ =>
              match value with
              | VMap nested => lookupPath rest nested
              | _ => None
              end
          end
      end
  end.

(** A string in which a policy field shows wildcard permissions. *)
Definition wildcardPermissions (strVal : string) : bool :=
  GoStrings.Contains strVal "*:*" || GoStrings.Contains strVal quotedStar.

(** The calls of a run that come before the plan is made. *)
Definition preparation (c : core.Call) : bool :=
  match c with
  | core.tfInit _ | core.tfValidate | core.tfGetProvider
  | core.adapterInitialize _ | core.adapterValidateCredentials _ => true
  | _ => false
  end.

(** The calls that create or remove infrastructure. *)
Definition changesInfrastructure (c : core.Call) : bool :=
  match c with
  | core.tfApply _ | core.tfDestroy _ => true
  | _ => false
  end.

(** A resource occurs in a module, or in a module below it. *)
Inductive inModule (resource : terraform.Resource.t)
  : terraform.Module_ -> Prop :=
  | inModule_here resources children address :
      resource ∈ resources ->
      inModule resource (terraform.mkModule resources children address)
  | inModule_below resources children address child :
      child ∈ children -> inModule resource child ->
      inModule resource (terraform.mkModule resources children address).

(** The number of reports with a given status, and with drift. *)
Definition withStatus (status : string)
    (reports : list core.ValidationReport.t) : nat :=
  length (List.filter
            (fun report => String.eqb (core.ValidationReport.Status report) status)
            reports).

Definition withDrift (reports : list core.ValidationReport.t) : nat :=
  length (List.filter
            (fun report => spec.driftDetected (core.ValidationReport.DriftStatus report))
            reports).

(** A field through which [checkPublicAccessBlocked] finds the resource
    public. *)
Definition exposes (resource : gmap string Value) (field : string) : bool :=
  match resource !! field with
  | Some (VBool boolVal) => boolVal
  | Some (VStr strVal) => GoStrings.Contains (GoStrings.ToLower strVal) "public"
  | _ => false
  end.

(** [result.Details = details]. *)
Definition withDetails (result : ValidationResult.t) (details : list string)
  : ValidationResult.t :=
  ValidationResult.mk
    (ValidationResult.ResourceID result) (ValidationResult.RuleName result)
    (ValidationResult.Passed result) (ValidationResult.Message result)
    (ValidationResult.Severity result) (ValidationResult.Remediation result)
    details.

(* ===================================================================== *)
(** * Sample policies, resources and environments *)
(* ===================================================================== *)

Module examples.

(** The rule of [TestRulesEngine_RequiredTags], on a provider-neutral
    type pattern. *)
Definition requiredTags : ValidationRule.t :=
  ValidationRule.mk "required-tags" "" "error" "compliance" true ["provider_*"]
    (<["tags.required" := VList [VStr "Environment"; VStr "Owner"]]> ∅)
    "Required tags missing" "".

(** A resource tagged with [Environment] only. *)
Definition taggedEnvironment : gmap string Value :=
  <["tags" := VMap (<["Environment" := VStr "prod"]> ∅)]> ∅.

(** A rule with two conditions, neither of which an empty resource meets. *)
Definition encryptedAndVersioned : ValidationRule.t :=
  ValidationRule.mk "storage-hardening" "" "warning" "security" true []
    (<["encryption.enabled" := VBool true]>
       (<["versioning.enabled" := VBool true]> ∅))
    "Storage must be encrypted and versioned" "".

(** A rule whose only condition asks for encryption. *)
Definition encrypted : ValidationRule.t :=
  ValidationRule.mk "encryption-enabled" "" "error" "security" true
    ["aws_s3_bucket"]
    (<["encryption.enabled" := VBool true]> ∅)
    "Encryption must be enabled" "".

(** A rule whose pattern holds a dot. *)
Definition dotted : ValidationRule.t :=
  ValidationRule.mk "dotted" "" "error" "security" true ["aws.instance"] ∅ "" "".

(** A disabled rule, and one without patterns. *)
Definition disabled : ValidationRule.t :=
  ValidationRule.mk "disabled" "" "error" "security" false [] ∅ "" "".

Definition everywhere : ValidationRule.t :=
  ValidationRule.mk "everywhere" "" "info" "cost" true [] ∅ "" "".

Definition policy : Policy.t :=
  Policy.mk "1.0" "sample" "" [requiredTags; disabled; encrypted; everywhere].

Definition dottedPolicy : Policy.t := Policy.mk "1.0" "dotted" "" [dotted].

(** An account in which nothing exists: every lookup of the SDK ends in
    the status the helpers build when the provider knows no such
    resource. *)
Definition absent (resourceType resourceID : string)
  : ResourceStatus.t + error :=
  inl (cloud.blankStatus resourceType resourceID).

Definition emptyAccount : aws.SDK :=
  aws.mkSDK (fun _ => None) None
    (absent "aws_instance") (absent "aws_s3_bucket") (absent "aws_iam_role").

Definition noSubscription : azure.SDK :=
  azure.mkSDK (fun _ => Some (errorString "no subscription")) None
    (absent "azurerm_virtual_machine") (absent "azurerm_storage_account")
    (absent "azurerm_resource_group").

Definition noProject : gcp.SDK :=
  gcp.mkSDK (fun _ => Some (errorString "no project")) None
    (absent "google_compute_instance") (absent "google_storage_bucket").

(** A plan: a bucket in the root module, an instance in a child module. *)
Definition bucket : terraform.Resource.t :=
  terraform.Resource.mk "aws_s3_bucket.logs" "managed" "aws_s3_bucket" "logs"
    "registry.terraform.io/hashicorp/aws" 0
    (<["id" := VStr "logs"]> taggedEnvironment).

Definition instance : terraform.Resource.t :=
  terraform.Resource.mk "module.app.aws_instance.web" "managed" "aws_instance"
    "web" "registry.terraform.io/hashicorp/aws" 1 ∅.

Definition rootModule : terraform.Module_ :=
  terraform.mkModule [bucket]
    [terraform.mkModule [instance] [] "module.app"] "".

Definition plan : terraform.PlanOutput :=
  terraform.mkPlanOutput "1.2" "1.6.0"
    (Some (terraform.mkStateValues (Some rootModule))).

(** A terraform binary on which everything succeeds but, possibly,
    [apply] and [destroy]. *)
Definition client (apply destroy : option error) : terraform.Client :=
  terraform.mkClient (fun _ => None) None (inl "aws") (fun _ => None)
    (fun _ => inl plan) (fun _ => apply) (fun _ => destroy).

Definition env : core.Env :=
  core.mkEnv emptyAccount noSubscription noProject "/tmp" regexp.MatchString
    (fun _ _ => rules.mkRuleSeed [] []) (fun _ => []).

Definition config (mode : string) (verbose : bool) : core.ValidatorConfig :=
  core.mkValidatorConfig mode "." "policy.yaml" "aws" "human" "policy.yaml"
    false verbose.

Definition applyFailure : error := errorString "terraform apply failed: exit 1".
Definition destroyFailure : error := errorString "terraform destroy failed: exit 1".

End examples.
Lemma insertAt_Permutation {A} (n : nat) (x : A) (l : list A) :
  insertAt n x l ≡ₚ x :: l.
Proof.
  revert n; induction l as [|y l IH]; intros [|n]; simpl; try reflexivity.
  rewrite IH. apply Permutation_swap.
Qed.

Lemma shuffle_Permutation {A} (seed : Seed) (l : list A) :
  shuffle seed l ≡ₚ l.
Proof.
  revert seed; induction l as [|x l IH]; intros seed; simpl; [reflexivity|].
  destruct seed as [|n seed].
  - by rewrite IH.
  - by rewrite insertAt_Permutation, IH.
Qed.

Lemma insertAt_app {A} (x : A) (l1 l2 : list A) :
  insertAt (length l1) x (l1 ++ l2) = l1 ++ x :: l2.
Proof. induction l1 as [|y l1 IH]; simpl; [by destruct l2|by rewrite IH]. Qed.

Lemma shuffle_complete {A} (l l' : list A) :
  l' ≡ₚ l -> exists seed, shuffle seed l = l'.
Proof.
  revert l'; induction l as [|x l IH]; intros l' Hp.
  - apply Permutation_nil_r in Hp as ->. by exists [].
  - assert (Hin : x ∈ l') by (rewrite Hp; left).
    apply list_elem_of_split in Hin as (l1 & l2 & ->).
    symmetry in Hp. apply Permutation_cons_app_inv in Hp. symmetry in Hp.
    destruct (IH _ Hp) as [seed Hs].
    exists (length l1 :: seed). simpl. rewrite Hs. apply insertAt_app.
Qed.

Lemma rangeMap_Permutation {A} (seed : Seed) (m : gmap string A) :
  rangeMap seed m ≡ₚ map_to_list m.
Proof. apply shuffle_Permutation. Qed.

(** * The rule engine *)

Section RulesFacts.
Import rules ValidationResult.
Variable RE : string -> string -> bool * option error.

(** ** Every checker passes untouched or fails with one detail *)

Lemma finish_pass result : pass result = finish None result.
Proof. reflexivity. Qed.

Lemma finish_fail result detail : failWith result detail = finish (Some detail) result.
Proof. reflexivity. Qed.

Ltac finished :=
  repeat match goal with
    | |- context [match ?x with _ => _ end] => destruct x
    end;
  solve [ exists None; reflexivity | eexists (Some _); reflexivity ].

Lemma publicLoop_finish fields resource :
  exists v, forall result, publicLoop fields resource result = finish v result.
Proof.
  induction fields as [|[field b] rest IH]; simpl.
  - by exists None.
  - destruct (resource !! field) as [[| [] | | | strVal | |]|]; try exact IH.
    + by eexists (Some _).
    + destruct (GoStrings.Contains _ _); [by eexists (Some _)|exact IH].
Qed.

Lemma namingLoop_finish fields pattern resource :
  exists v, forall result, namingLoop RE fields pattern resource result = finish v result.
Proof.
  induction fields as [|field rest IH]; simpl.
  - by exists None.
  - destruct (asString (resource !! field)) as [name|]; [|exact IH].
    destruct (RE pattern name) as [[] [err|]];
      solve [by exists None | by eexists (Some _)].
Qed.

Lemma privilegeLoop_finish fields resource :
  exists v, forall result, privilegeLoop fields resource result = finish v result.
Proof.
  induction fields as [|field rest IH]; simpl.
  - by exists None.
  - destruct (asString (resource !! field)) as [strVal|]; [|exact IH].
    destruct (_ || _); [by eexists (Some _)|exact IH].
Qed.

Lemma navigate_finish parts propertyPath expected current :
  exists v, forall result,
    navigate parts propertyPath expected current result = finish v result.
Proof.
  revert current; induction parts as [|part rest IH]; intros current; simpl.
  - by exists None.
  - destruct (current !! part) as [value|]; [|by eexists (Some _)].
    destruct rest as [|part' rest].
    + destruct (String.eqb _ _); [by exists None|by eexists (Some _)].
    + destruct value; try (by eexists (Some _)). apply IH.
Qed.

Lemma evaluateCondition_finish pSeed condition expected resource :
  exists v, forall result,
    evaluateCondition RE pSeed condition expected resource result = finish v result.
Proof.
  unfold evaluateCondition.
  repeat match goal with
    | |- context [if String.eqb condition ?k then _ else _] =>
        destruct (String.eqb condition k)
    end.
  - unfold checkRequiredTags. finished.
  - unfold checkEncryptionEnabled. finished.
  - unfold checkPublicAccessBlocked.
    destruct (notRequested expected); [by exists None|apply publicLoop_finish].
  - unfold checkVersioningEnabled. finished.
  - unfold checkLoggingEnabled. finished.
  - unfold checkBackupEnabled. finished.
  - unfold checkNamingPattern.
    destruct (asString (Some expected)); [apply namingLoop_finish|by exists None].
  - apply privilegeLoop_finish.
  - unfold checkPrivateSubnet. finished.
  - apply navigate_finish.
Qed.

(** ** Whether a condition holds does not depend on the runtime *)

Lemma forallb_Permutation {A} (f : A -> bool) (l l' : list A) :
  l ≡ₚ l' -> forallb f l = forallb f l'.
Proof.
  induction 1; simpl; try congruence.
  by destruct (f x), (f y).
Qed.

Lemma publicLoop_fst fields resource result :
  (publicLoop fields resource result).1
  = forallb (fun kv => negb (exposes resource kv.1)) fields.
Proof.
  induction fields as [|[field b] rest IH]; simpl; [done|].
  unfold exposes at 1; simpl.
  destruct (resource !! field) as [[| [] | | | strVal | |]|]; simpl; try exact IH; try done.
  destruct (GoStrings.Contains _ _); simpl; [done|exact IH].
Qed.

Lemma finish_fst v result result' : (finish v result).1 = (finish v result').1.
Proof. by destruct v. Qed.

Lemma evaluateCondition_seed p p' condition expected resource result :
  condition <> "public_access.blocked" ->
  evaluateCondition RE p condition expected resource result
  = evaluateCondition RE p' condition expected resource result.
Proof.
  intros Hne. unfold evaluateCondition.
  destruct (String.eqb_spec condition "public_access.blocked"); [done|].
  reflexivity.
Qed.

Lemma evaluateCondition_holds p condition expected resource result :
  (evaluateCondition RE p condition expected resource result).1
  = holds RE condition expected resource.
Proof.
  unfold holds.
  destruct (evaluateCondition_finish p condition expected resource) as [v Hv].
  rewrite Hv, (finish_fst v result blankResult), <- Hv.
  destruct (String.eqb_spec condition "public_access.blocked") as [->|Hne].
  - unfold evaluateCondition; simpl. unfold checkPublicAccessBlocked.
    destruct (notRequested expected); [done|].
    rewrite !publicLoop_fst. apply forallb_Permutation.
    by rewrite !rangeMap_Permutation.
  - by rewrite (evaluateCondition_seed p []).
Qed.

Lemma evaluateCondition_pass p condition expected resource result :
  holds RE condition expected resource = true ->
  evaluateCondition RE p condition expected resource result = (true, result).
Proof.
  rewrite <- (evaluateCondition_holds p condition expected resource result).
  destruct (evaluateCondition_finish p condition expected resource) as [[d|] Hv];
    rewrite Hv; simpl; [discriminate|done].
Qed.

Lemma evaluateCondition_fail p condition expected resource result :
  holds RE condition expected resource = false ->
  exists detail,
    evaluateCondition RE p condition expected resource result
    = (false, appendDetail result detail).
Proof.
  rewrite <- (evaluateCondition_holds p condition expected resource result).
  destruct (evaluateCondition_finish p condition expected resource) as [[d|] Hv];
    rewrite Hv; simpl; [by exists d|discriminate].
Qed.

(** ** The loop over the conditions *)

Lemma conditionsLoop_all p conditions resource result :
  Forall (fun ce => holds RE ce.1 ce.2 resource = true) conditions ->
  conditionsLoop RE p conditions resource result = result.
Proof.
  induction 1 as [|[c e] rest Hc _ IH]; simpl; [done|].
  by rewrite (evaluateCondition_pass _ _ _ _ _ Hc).
Qed.

Lemma conditionsLoop_first p before condition expected after resource result :
  Forall (fun ce => holds RE ce.1 ce.2 resource = true) before ->
  holds RE condition expected resource = false ->
  conditionsLoop RE p (before ++ (condition, expected) :: after) resource result
  = setPassed (evaluateCondition RE p condition expected resource result).2 false.
Proof.
  intros Hb Hc. induction Hb as [|[c e] rest Hce _ IH]; simpl.
  - destruct (evaluateCondition_fail p _ _ _ result Hc) as [d ->]. done.
  - by rewrite (evaluateCondition_pass _ _ _ _ _ Hce).
Qed.

(** A list of conditions either holds throughout, or splits at the first
    one that fails. *)
Lemma first_failing resource (conditions : list (string * Value)) :
  Forall (fun ce => holds RE ce.1 ce.2 resource = true) conditions \/
  exists before condition expected after,
    conditions = before ++ (condition, expected) :: after /\
    Forall (fun ce => holds RE ce.1 ce.2 resource = true) before /\
    holds RE condition expected resource = false.
Proof.
  induction conditions as [|[c e] rest IH]; [by left|].
  destruct (holds RE c e resource) eqn:Hc.
  - destruct IH as [IH|(before & c' & e' & after & -> & Hb & Hf)].
    + left. by constructor.
    + right. exists ((c, e) :: before), c', e', after. repeat split; [|done].
      by constructor.
  - right. by exists [], c, e, rest.
Qed.

Lemma elem_of_rangeMap {A} seed (m : gmap string A) k x :
  (k, x) ∈ rangeMap seed m <-> m !! k = Some x.
Proof. by rewrite rangeMap_Permutation, elem_of_map_to_list. Qed.

Lemma Forall_rangeMap {A} (P : string * A -> Prop) seed seed' (m : gmap string A) :
  Forall P (rangeMap seed m) -> Forall P (rangeMap seed' m).
Proof. by rewrite !rangeMap_Permutation. Qed.

Lemma EvaluateRule_unfold s rule resource :
  EvaluateRule RE s rule resource
  = conditionsLoop RE (publicSeed s)
      (rangeMap (conditionSeed s) (ValidationRule.Conditions rule))
      resource (initialResult rule).
Proof. reflexivity. Qed.

(** The two ways an evaluation ends. *)
Lemma EvaluateRule_cases s rule resource :
  let conditions := rangeMap (conditionSeed s) (ValidationRule.Conditions rule) in
  (Forall (fun ce => holds RE ce.1 ce.2 resource = true) conditions /\
   EvaluateRule RE s rule resource = initialResult rule) \/
  (exists before condition expected after detail,
     conditions = before ++ (condition, expected) :: after /\
     Forall (fun ce => holds RE ce.1 ce.2 resource = true) before /\
     holds RE condition expected resource = false /\
     evaluateCondition RE (publicSeed s) condition expected resource
       (initialResult rule)
     = (false, appendDetail (initialResult rule) detail) /\
     EvaluateRule RE s rule resource
     = setPassed (appendDetail (initialResult rule) detail) false).
Proof.
  intros conditions. rewrite EvaluateRule_unfold. fold conditions.
  destruct (first_failing resource conditions)
    as [Hall|(before & c & e & after & Heq & Hb & Hf)].
  - left. split; [done|]. by apply conditionsLoop_all.
  - right.
    destruct (evaluateCondition_fail (publicSeed s) c e resource
                (initialResult rule) Hf) as [d Hd].
    exists before, c, e, after, d. repeat split; try done.
    rewrite Heq, (conditionsLoop_first _ _ _ _ _ _ _ Hb Hf), Hd. done.
Qed.

End RulesFacts.

(** C4 (as amended).  Two evaluations of the same rule on the same
    attributes agree on every field but [Details]: [Passed] is true exactly
    when every condition of the rule holds, whatever order the runtime
    ranges over [rule.Conditions] in.  The conditions are tried in that
    order, and the first one that fails ends the evaluation, so that
    [Details] holds the one detail of that condition.  The two results are
    identical when the orders are the same, and also when at most one
    condition of the rule fails and [public_access.blocked] is not it. *)
Theorem EvaluateRule_up_to_range_order
    (RE : string -> string -> bool * option error)
    (rule : ValidationRule.t) (resource : gmap string Value)
    (s1 s2 : rules.RuleSeed) :
  let r1 := rules.EvaluateRule RE s1 rule resource in
  let r2 := rules.EvaluateRule RE s2 rule resource in
  let conditions := ValidationRule.Conditions rule in
  withDetails r1 [] = withDetails r2 [] /\
  (ValidationResult.Passed r1 = true <->
   forall c e, conditions !! c = Some e -> holds RE c e resource = true) /\
  (ValidationResult.Passed r1 = true -> r1 = initialResult rule) /\
  (forall before c e after,
     rangeMap (rules.conditionSeed s1) conditions = before ++ (c, e) :: after ->
     Forall (fun ce => holds RE ce.1 ce.2 resource = true) before ->
     holds RE c e resource = false ->
     r1 = ValidationResult.setPassed
            (rules.evaluateCondition RE (rules.publicSeed s1) c e resource
               (initialResult rule)).2 false /\
     exists detail, ValidationResult.Details r1 = [detail]) /\
  (rules.conditionSeed s1 = rules.conditionSeed s2 ->
   rules.publicSeed s1 = rules.publicSeed s2 -> r1 = r2) /\
  ((forall c e c' e',
      conditions !! c = Some e -> conditions !! c' = Some e' ->
      holds RE c e resource = false -> holds RE c' e' resource = false ->
      c = c') ->
   (forall e, conditions !! "public_access.blocked" = Some e ->
              holds RE "public_access.blocked" e resource = true) ->
   r1 = r2).
Proof.
  intros r1 r2 conditions.
  pose proof (EvaluateRule_cases RE s1 rule resource) as C1.
  pose proof (EvaluateRule_cases RE s2 rule resource) as C2.
  cbv zeta in C1, C2. fold r1 in C1. fold r2 in C2. fold conditions in C1, C2.
  assert (Hmix : forall sa sb before c e after,
             Forall (fun ce => holds RE ce.1 ce.2 resource = true)
               (rangeMap sa conditions) ->
             rangeMap sb conditions = before ++ (c, e) :: after ->
             holds RE c e resource = false -> False).
  { intros sa sb before c e after Hall Heq Hf.
    apply (Forall_rangeMap _ sa sb) in Hall. rewrite Heq in Hall.
    apply Forall_app in Hall as [_ Hall]. inversion Hall; subst.
    simpl in *. congruence. }
  split; [|split; [split|split; [|split; [|split]]]].
  - destruct C1 as [[H1 ->]|(b1 & c1 & e1 & a1 & d1 & Q1 & B1 & F1 & _ & ->)],
             C2 as [[H2 ->]|(b2 & c2 & e2 & a2 & d2 & Q2 & B2 & F2 & _ & ->)];
      try reflexivity; exfalso; eauto.
  - intros Hp c e Hce.
    destruct C1 as [[H1 _]|(b1 & c1 & e1 & a1 & d1 & _ & _ & _ & _ & E1)].
    + rewrite Forall_forall in H1.
      apply (H1 (c, e)). by apply elem_of_rangeMap.
    + rewrite E1 in Hp. discriminate.
  - intros Hall.
    destruct C1 as [[H1 ->]|(b1 & c1 & e1 & a1 & d1 & Q1 & B1 & F1 & _ & E1)];
      [done|].
    assert ((c1, e1) ∈ rangeMap (rules.conditionSeed s1) conditions) as Hin.
    { rewrite Q1. apply elem_of_app. right. left. }
    apply elem_of_rangeMap in Hin. rewrite (Hall _ _ Hin) in F1. discriminate.
  - intros Hp.
    destruct C1 as [[H1 E1]|(b1 & c1 & e1 & a1 & d1 & _ & _ & _ & _ & E1)];
      [done|].
    rewrite E1 in Hp. discriminate.
  - intros before c e after Heq Hb Hf.
    destruct C1 as [[H1 E1]|(b1 & c1 & e1 & a1 & d1 & Q1 & B1 & F1 & _ & E1)].
    { exfalso. eauto. }
    split.
    + subst r1. rewrite EvaluateRule_unfold.
      fold conditions. rewrite Heq.
      by apply conditionsLoop_first.
    + rewrite E1. by exists d1.
  - intros Hc Hp. subst r1 r2. destruct s1, s2; simpl in *. by subst.
  - intros Hone Hpub.
    destruct C1 as [[H1 ->]|(b1 & c1 & e1 & a1 & d1 & Q1 & B1 & F1 & D1 & ->)],
             C2 as [[H2 ->]|(b2 & c2 & e2 & a2 & d2 & Q2 & B2 & F2 & D2 & ->)];
      try reflexivity; try (exfalso; eauto; fail).
    assert (conditions !! c1 = Some e1) as L1.
    { apply (elem_of_rangeMap (rules.conditionSeed s1)). rewrite Q1.
      apply elem_of_app. right. left. }
    assert (conditions !! c2 = Some e2) as L2.
    { apply (elem_of_rangeMap (rules.conditionSeed s2)). rewrite Q2.
      apply elem_of_app. right. left. }
    assert (c1 = c2) as <- by eauto.
    assert (e1 = e2) as <- by congruence.
    assert (c1 <> "public_access.blocked") as Hne.
    { intros ->. rewrite (Hpub _ L1) in F1. discriminate. }
    rewrite (evaluateCondition_seed RE _ (rules.publicSeed s2) _ _ _ _ Hne) in D1.
    congruence.
Qed.

(** C4, as stated, fails: the rule [examples.encryptedAndVersioned] has
    two conditions that an empty resource both fails, and the detail
    reported is that of the condition the runtime hands out first. *)
Lemma EvaluateRule_details_follow_range_order :
  ValidationResult.Details
    (rules.EvaluateRule regexp.MatchString (rules.mkRuleSeed [] [])
       examples.encryptedAndVersioned ∅)
  = ["Encryption is not enabled"] /\
  ValidationResult.Details
    (rules.EvaluateRule regexp.MatchString (rules.mkRuleSeed [1] [])
       examples.encryptedAndVersioned ∅)
  = ["Versioning is not enabled"] /\
  rules.EvaluateRule regexp.MatchString (rules.mkRuleSeed [] [])
    examples.encryptedAndVersioned ∅
  <> rules.EvaluateRule regexp.MatchString (rules.mkRuleSeed [1] [])
       examples.encryptedAndVersioned ∅.
Proof.
  assert (H1 : ValidationResult.Details
    (rules.EvaluateRule regexp.MatchString (rules.mkRuleSeed [] [])
       examples.encryptedAndVersioned ∅) = ["Encryption is not enabled"])
    by (vm_compute; reflexivity).
  assert (H2 : ValidationResult.Details
    (rules.EvaluateRule regexp.MatchString (rules.mkRuleSeed [1] [])
       examples.encryptedAndVersioned ∅) = ["Versioning is not enabled"])
    by (vm_compute; reflexivity).
  split; [exact H1|split; [exact H2|]].
  intros Heq. rewrite Heq, H2 in H1. clear Heq. discriminate H1.
Qed.

(** The amended C4 at the rule [examples.encrypted]: its one condition
    fails on an empty resource, so any two evaluations agree. *)
Lemma EvaluateRule_up_to_range_order_witness :
  rules.EvaluateRule regexp.MatchString (rules.mkRuleSeed [] [])
    examples.encrypted ∅
  = rules.EvaluateRule regexp.MatchString (rules.mkRuleSeed [3; 1] [2])
      examples.encrypted ∅.
Proof.
  apply (EvaluateRule_up_to_range_order regexp.MatchString examples.encrypted ∅
           (rules.mkRuleSeed [] []) (rules.mkRuleSeed [3; 1] [2])).
  - intros c e c' e' Hc Hc' _ _.
    change (ValidationRule.Conditions examples.encrypted)
      with (<["encryption.enabled" := VBool true]> (∅ : gmap string Value))
      in Hc, Hc'.
    apply lookup_insert_Some in Hc as [[<- _]|[_ Hc]];
      [|by rewrite lookup_empty in Hc].
    apply lookup_insert_Some in Hc' as [[<- _]|[_ Hc']];
      [|by rewrite lookup_empty in Hc'].
    reflexivity.
  - intros e He.
    change (ValidationRule.Conditions examples.encrypted)
      with (<["encryption.enabled" := VBool true]> (∅ : gmap string Value))
      in He.
    apply lookup_insert_Some in He as [[He _]|[_ He]];
      [discriminate He|by rewrite lookup_empty in He].
Defined.

(** * The checkers, one by one *)

Section Checkers.
Import rules ValidationResult.
Variable RE : string -> string -> bool * option error.

Lemma notRequested_spec expected :
  expected <> VBool true -> notRequested expected = true.
Proof.
  destruct expected as [|[]| | | | |]; intros H; try reflexivity.
  by destruct H.
Qed.





Lemma splitFrom_cons skip cur s sep :
  exists part parts, GoStrings.splitFrom skip cur s sep = part :: parts.
Proof.
  revert skip cur; induction s as [|c s IH]; intros skip cur;
    cbn [GoStrings.splitFrom]; [by eexists _, _|].
  destruct skip; [|apply IH].
  destruct (String.prefix sep (String c s)); [by eexists _, _|apply IH].
Qed.

End Checkers.

(** C10.  For [encryption.enabled], [public_access.blocked],
    [versioning.enabled], [logging.enabled], [backup.enabled] and
    [network.private_subnet]: when the expected value of the policy is
    anything but the boolean [true], the condition passes on every
    resource and the result is left as it was, no detail appended.  This
    holds of the checker of each key, and of [evaluateCondition] on it. *)
Theorem unrequested_condition_passes
    (RE : string -> string -> bool * option error) (pSeed : Seed)
    (condition : string) (expected : Value) (resource : gmap string Value)
    (result : ValidationResult.t) :
  condition ∈ ["encryption.enabled"; "public_access.blocked";
               "versioning.enabled"; "logging.enabled"; "backup.enabled";
               "network.private_subnet"] ->
  expected <> VBool true ->
  rules.evaluateCondition RE pSeed condition expected resource result
  = (true, result) /\
  rules.checkEncryptionEnabled expected resource result = (true, result) /\
  rules.checkPublicAccessBlocked pSeed expected resource result = (true, result) /\
  rules.checkVersioningEnabled expected resource result = (true, result) /\
  rules.checkLoggingEnabled expected resource result = (true, result) /\
  rules.checkBackupEnabled expected resource result = (true, result) /\
  rules.checkPrivateSubnet expected resource result = (true, result).
Proof.
  intros Hin Hne. apply notRequested_spec in Hne.
  assert (rules.checkEncryptionEnabled expected resource result = (true, result)
          /\ rules.checkPublicAccessBlocked pSeed expected resource result = (true, result)
          /\ rules.checkVersioningEnabled expected resource result = (true, result)
          /\ rules.checkLoggingEnabled expected resource result = (true, result)
          /\ rules.checkBackupEnabled expected resource result = (true, result)
          /\ rules.checkPrivateSubnet expected resource result = (true, result))
    as Hall.
  { unfold rules.checkEncryptionEnabled, rules.checkPublicAccessBlocked,
      rules.checkVersioningEnabled, rules.checkLoggingEnabled,
      rules.checkBackupEnabled, rules.checkPrivateSubnet.
    rewrite Hne. done. }
  split; [|exact Hall].
  destruct Hall as (He & Hp & Hv & Hl & Hb & Hs).
  repeat (apply elem_of_cons in Hin as [->|Hin]; [done|]).
  by apply elem_of_nil in Hin.
Qed.

(** C10 at a policy that writes the expected value as the string "true". *)
Lemma unrequested_condition_passes_witness :
  rules.evaluateCondition regexp.MatchString [] "encryption.enabled"
    (VStr "true") ∅ blankResult = (true, blankResult).
Proof.
  apply (unrequested_condition_passes regexp.MatchString [] "encryption.enabled"
           (VStr "true") ∅ blankResult).
  - by left.
  - discriminate.
Defined.





(** * [tags.required] *)

Section RequiredTags.
Import rules ValidationResult GoStrings GoFmt.

Lemma prefix_append (s t : string) : String.prefix s (s +:+ t) = true.
Proof.
  induction s as [|c s IH]; simpl; [by destruct t|].
  by destruct (ascii_dec c c).
Qed.

Lemma Contains_unfold (s substr : string) :
  Contains s substr
  = if String.prefix substr s then true
    else match s with
         | EmptyString => false
         | String _ s' => Contains s' substr
         end.
Proof. by destruct s. Qed.

Lemma Contains_append_r (pre s substr : string) :
  Contains s substr = true -> Contains (pre +:+ s) substr = true.
Proof.
  intros H. induction pre as [|c pre IH]; [done|].
  change (String c pre +:+ s) with (String c (pre +:+ s)).
  rewrite Contains_unfold, IH. by destruct (String.prefix substr _).
Qed.

Lemma Contains_middle (pre substr post : string) :
  Contains (pre +:+ substr +:+ post) substr = true.
Proof.
  apply Contains_append_r. rewrite Contains_unfold. by rewrite prefix_append.
Qed.

Lemma append_cons (x : ascii) (a b : string) :
  String x a +:+ b = String x (a +:+ b).
Proof. reflexivity. Qed.

Lemma append_assoc (a b c : string) : (a +:+ b) +:+ c = a +:+ b +:+ c.
Proof.
  induction a as [|x a IH]; [done|]. by rewrite !append_cons, IH.
Qed.

Lemma append_empty_r (a : string) : a +:+ EmptyString = a.
Proof.
  induction a as [|x a IH]; [done|]. by rewrite append_cons, IH.
Qed.

Lemma Join_elem (elems : list string) (sep e : string) :
  e ∈ elems -> exists pre post, Join elems sep = pre +:+ e +:+ post.
Proof.
  induction elems as [|x rest IH]; intros Hin; [by apply elem_of_nil in Hin|].
  apply elem_of_cons in Hin as [->|Hin].
  - exists "". destruct rest; simpl; [exists ""; by rewrite append_empty_r|by eexists].
  - destruct (IH Hin) as (pre & post & Heq).
    destruct rest as [|y rest]; [by apply elem_of_nil in Hin|].
    exists (x +:+ sep +:+ pre), post.
    change (Join (x :: y :: rest) sep) with (x +:+ sep +:+ Join (y :: rest) sep).
    by rewrite Heq, !append_assoc.
Qed.

Lemma Contains_Join (prefix : string) (elems : list string) (sep e : string) :
  e ∈ elems -> Contains (prefix +:+ Join elems sep) e = true.
Proof.
  intros Hin. destruct (Join_elem elems sep e Hin) as (pre & post & ->).
  apply Contains_append_r, Contains_middle.
Qed.

Lemma collectMissing_filter requiredTags tags missingTags :
  collectMissing requiredTags tags missingTags
  = missingTags
    ++ List.filter (fun name => negb (hasKey tags name)) (map Sprint requiredTags).
Proof.
  revert missingTags; induction requiredTags as [|tag rest IH];
    intros missingTags; simpl.
  - by rewrite app_nil_r.
  - destruct (hasKey tags (Sprint tag)); simpl; rewrite IH; [done|].
    by rewrite <- app_assoc.
Qed.

Lemma filter_missing_nil (tags : gmap string Value) (names : list string) :
  List.filter (fun name => negb (hasKey tags name)) names = []
  <-> forall name, name ∈ names -> is_Some (tags !! name).
Proof.
  unfold hasKey. induction names as [|name rest IH]; simpl.
  - split; [|done]. intros _ name Hin. by apply elem_of_nil in Hin.
  - destruct (tags !! name) as [v|] eqn:Hl; simpl.
    + rewrite IH. split.
      * intros H n Hin. apply elem_of_cons in Hin as [->|Hin]; [by rewrite Hl|auto].
      * intros H n Hin. apply H. by right.
    + split; [discriminate|].
      intros H. destruct (H name) as [v Hv]; [by left|congruence].
Qed.

Lemma checkRequiredTags_list requiredTags resource result :
  checkRequiredTags (VList requiredTags) resource result
  = match asMap (resource !! "tags") with
    | None => failWith result "No tags found on resource"
    | Some tags =>
        match List.filter (fun name => negb (hasKey tags name))
                (map Sprint requiredTags) with
        | [] => pass result
        | missing =>
            failWith result ("Missing required tags: " +:+ Join missing ", ")
        end
    end.
Proof.
  unfold checkRequiredTags. cbn [asSlice].
  destruct (asMap (resource !! "tags")) as [tags|]; [|done].
  cbv zeta. rewrite collectMissing_filter. cbn [app].
  destruct (List.filter _ _); reflexivity.
Qed.

Lemma rangeMap_singleton {A} seed (k : string) (x : A) :
  rangeMap seed (<[k := x]> ∅) = [(k, x)].
Proof.
  unfold rangeMap. rewrite insert_empty, map_to_list_singleton.
  destruct seed as [|[|n] seed]; reflexivity.
Qed.

End RequiredTags.

(** C7.  With the listed keys [requiredTags], the [tags.required]
    condition passes exactly when the attributes hold a mapping under
    [tags] in which every listed key (in its printed form) is present, and
    then it leaves the result as it was.  When [tags] is a mapping and some
    keys are missing, the condition fails with one detail, which names
    every missing key.  When there is no [tags] entry the condition fails
    (with the detail "No tags found on resource").  On the scenario of the
    specification ([Environment] and [Owner] required, only [Environment]
    present) the rule fails and the detail names [Owner]. *)
Theorem required_tags_condition
    (RE : string -> string -> bool * option error) (pSeed : Seed)
    (requiredTags : list Value) (resource : gmap string Value)
    (result : ValidationResult.t) :
  let outcome :=
    rules.evaluateCondition RE pSeed "tags.required" (VList requiredTags)
      resource result in
  let missing := fun tags : gmap string Value =>
    List.filter (fun name => negb (hasKey tags name))
      (map GoFmt.Sprint requiredTags) in
  (outcome.1 = true <->
   exists tags, resource !! "tags" = Some (VMap tags) /\
     forall tag, tag ∈ requiredTags -> is_Some (tags !! GoFmt.Sprint tag)) /\
  (outcome.1 = true -> outcome.2 = result) /\
  (forall tags,
     resource !! "tags" = Some (VMap tags) -> missing tags <> [] ->
     let detail :=
       "Missing required tags: " +:+ GoStrings.Join (missing tags) ", " in
     outcome = (false, ValidationResult.appendDetail result detail) /\
     forall name, name ∈ missing tags -> GoStrings.Contains detail name = true) /\
  (resource !! "tags" = None ->
   outcome = (false, ValidationResult.appendDetail result "No tags found on resource")) /\
  (let scenario :=
     rules.EvaluateRule RE (rules.mkRuleSeed pSeed pSeed) examples.requiredTags
       examples.taggedEnvironment in
   ValidationResult.Passed scenario = false /\
   ValidationResult.Details scenario = ["Missing required tags: Owner"] /\
   ValidationResult.Passed
     (rules.EvaluateRule RE (rules.mkRuleSeed pSeed pSeed) examples.requiredTags ∅)
   = false).
Proof.
  intros outcome missing.
  assert (outcome
          = match asMap (resource !! "tags") with
            | None => rules.failWith result "No tags found on resource"
            | Some tags =>
                match missing tags with
                | [] => rules.pass result
                | names =>
                    rules.failWith result
                      ("Missing required tags: " +:+ GoStrings.Join names ", ")
                end
            end) as Hout.
  { subst outcome missing. apply checkRequiredTags_list. }
  clearbody outcome. subst outcome.
  split; [|split; [|split; [|split]]].
  - split.
    + destruct (resource !! "tags") as [[| | | | | |tags]|] eqn:Ht;
        cbn [asMap]; try discriminate.
      destruct (missing tags) as [|name rest] eqn:Hm; [|discriminate].
      intros _. exists tags. split; [done|].
      intros tag Hin. apply (proj1 (filter_missing_nil tags _) Hm).
      apply list_elem_of_fmap. by exists tag.
    + intros (tags & -> & Hall). cbn [asMap].
      assert (missing tags = []) as ->; [|done].
      apply filter_missing_nil. intros name Hin.
      apply list_elem_of_fmap in Hin as (tag & -> & Hin). auto.
  - destruct (resource !! "tags") as [[| | | | | |tags]|];
      cbn [asMap]; try discriminate.
    by destruct (missing tags).
  - intros tags -> Hm. cbn [asMap]. cbv zeta.
    split.
    + by destruct (missing tags).
    + intros name Hin. by apply Contains_Join.
  - by intros ->.
  - cbv zeta. unfold rules.EvaluateRule.
    change (ValidationRule.Conditions examples.requiredTags)
      with (<["tags.required" := VList [VStr "Environment"; VStr "Owner"]]>
              (∅ : gmap string Value)).
    rewrite rangeMap_singleton. cbn [rules.conditionsLoop].
    change (rules.evaluateCondition RE ?p "tags.required" ?e ?r ?res)
      with (rules.checkRequiredTags e r res).
    rewrite !checkRequiredTags_list.
    repeat split; vm_compute; reflexivity.
Qed.

(** C7 at the scenario of the specification. *)
Lemma required_tags_condition_witness :
  rules.evaluateCondition regexp.MatchString [] "tags.required"
    (VList [VStr "Environment"; VStr "Owner"]) examples.taggedEnvironment
    blankResult
  = (false,
     ValidationResult.appendDetail blankResult "Missing required tags: Owner") /\
  GoStrings.Contains "Missing required tags: Owner" "Owner" = true.
Proof.
  pose proof (required_tags_condition regexp.MatchString []
                [VStr "Environment"; VStr "Owner"] examples.taggedEnvironment
                blankResult) as (_ & _ & H & _).
  specialize (H (<["Environment" := VStr "prod"]> ∅)).
  destruct H as [Hd Hn].
  - vm_compute; reflexivity.
  - vm_compute; discriminate.
  - split.
    + exact Hd.
    + apply (Hn "Owner"). vm_compute. left.
Defined.

(** * The status of a report *)

Section ReportStatus.
Import core ValidationReport.

Lemma escalate_status report result :
  Status report = spec.deriveStatus (RuleResults report) None ->
  let report' := escalate (appendRuleResult report result) result in
  Status report' = spec.deriveStatus (RuleResults report') None /\
  RuleResults report' = RuleResults report ++ [result] /\
  DriftStatus report' = DriftStatus report /\
  Errors report' = Errors report /\
  ResourceAddress report' = ResourceAddress report /\
  ResourceType report' = ResourceType report /\
  Provider report' = Provider report.
Proof.
  destruct report as [address type provider status results drift errors].
  destruct result as [id name passed message severity remediation details].
  cbn [Status RuleResults DriftStatus Errors ResourceAddress ResourceType Provider].
  intros ->. unfold escalate, appendRuleResult, setStatus, spec.deriveStatus.
  cbn [Status RuleResults DriftStatus Errors ResourceAddress ResourceType Provider
       ValidationResult.Passed ValidationResult.Severity].
  assert (forall s, existsb (spec.failedWith s)
                      (results ++ [ValidationResult.mk id name passed message
                                     severity remediation details])
                    = existsb (spec.failedWith s) results
                      || (negb passed && String.eqb severity s)) as Hx.
  { intros s. rewrite existsb_app. cbn [existsb]. by rewrite orb_false_r. }
  destruct passed, (String.eqb severity "error") eqn:He,
    (String.eqb severity "warning") eqn:Hw,
    (existsb (spec.failedWith "error") results) eqn:Ee,
    (existsb (spec.failedWith "warning") results) eqn:Ew;
    cbn [negb andb orb Status RuleResults DriftStatus Errors ResourceAddress
         ResourceType Provider spec.driftDetected];
    rewrite ?Hx, ?He, ?Hw, ?Ee, ?Ew;
    cbn [negb andb orb String.eqb Ascii.eqb Bool.eqb];
    repeat split; reflexivity.
Qed.

Lemma evaluateRules_status env seeds j applicableRules resource report :
  Status report = spec.deriveStatus (RuleResults report) None ->
  let report' := evaluateRules env seeds j applicableRules resource report in
  Status report' = spec.deriveStatus (RuleResults report') None /\
  length (RuleResults report')
  = (length (RuleResults report) + length applicableRules)%nat /\
  DriftStatus report' = DriftStatus report /\
  Errors report' = Errors report /\
  ResourceAddress report' = ResourceAddress report /\
  ResourceType report' = ResourceType report /\
  Provider report' = Provider report.
Proof.
  revert j report.
  induction applicableRules as [|rule rest IH]; intros j report Hs.
  - cbn [evaluateRules length]. rewrite Nat.add_0_r. by repeat split.
  - cbn [evaluateRules]. cbv zeta.
    match goal with
    | |- context [escalate (appendRuleResult report ?r) ?r] =>
        destruct (escalate_status report r Hs)
          as (Hs' & Hr & Hd & He & Ha & Ht & Hp);
        destruct (IH (S j) _ Hs') as (IH1 & IH2 & IH3 & IH4 & IH5 & IH6 & IH7)
    end.
    split; [exact IH1|].
    split; [rewrite IH2, Hr, length_app; cbn [length]; lia|].
    repeat split; congruence.
Qed.

Lemma checkDrift_status v seed resource report :
  DriftStatus report = None ->
  Status report = spec.deriveStatus (RuleResults report) None ->
  let report' := checkDrift v seed resource report in
  Status report' = spec.deriveStatus (RuleResults report') (DriftStatus report') /\
  RuleResults report' = RuleResults report /\
  ResourceAddress report' = ResourceAddress report /\
  ResourceType report' = ResourceType report /\
  Provider report' = Provider report.
Proof.
  destruct report as [address type provider status results drift errors].
  cbn [Status RuleResults DriftStatus]. intros -> ->.
  unfold checkDrift.
  destruct (Validator.cloudAdapter v) as [adapter|]; [|by repeat split].
  destruct (String.eqb (Mode (Validator.config v)) ModeValidateExisting);
    [|by repeat split].
  destruct (negb (String.eqb (extractResourceID resource) ""));
    [|by repeat split].
  destruct (cloud.AdapterDetectDrift adapter seed _ _ _) as [driftStatus|err];
    [|by repeat split].
  unfold setDriftStatus, setStatus, spec.deriveStatus, spec.driftDetected.
  cbn [Status RuleResults DriftStatus Errors ResourceAddress ResourceType Provider].
  destruct (ResourceStatus.DriftDetected driftStatus) eqn:Hd,
    (existsb (spec.failedWith "error") results) eqn:Ee,
    (existsb (spec.failedWith "warning") results) eqn:Ew;
    cbn [negb andb orb String.eqb Ascii.eqb Bool.eqb Status RuleResults
         DriftStatus Errors ResourceAddress ResourceType Provider];
    rewrite ?Hd, ?Ee, ?Ew; repeat split; reflexivity.
Qed.

(** The report of a resource: its status is the one derived from its
    rule results and its drift status, it holds one result per applicable
    rule, and it is labelled with the resource. *)
Lemma validateResource_report env v i resource :
  let report := validateResource env v i resource in
  Status report = spec.deriveStatus (RuleResults report) (DriftStatus report) /\
  length (RuleResults report)
  = length (rules.GetRulesForResource (regexp_MatchString env)
              (Validator.rulesEngine v) (terraform.Resource.Type_ resource)) /\
  ResourceAddress report = terraform.Resource.Address resource /\
  ResourceType report = terraform.Resource.Type_ resource /\
  Provider report = terraform.Resource.ProviderName resource.
Proof.
  unfold validateResource. cbv zeta.
  match goal with
  | |- context [evaluateRules env ?seeds 0 ?rs resource ?r0] =>
      destruct (evaluateRules_status env seeds 0 rs resource r0 eq_refl)
        as (Hs & Hl & Hd & _ & Ha & Ht & Hp);
      destruct (checkDrift_status v (driftSeeds env i) resource _ Hd Hs)
        as (Hs' & Hr' & Ha' & Ht' & Hp')
  end.
  split; [exact Hs'|].
  rewrite Hr', Hl, Ha', Ht', Hp', Ha, Ht, Hp. by repeat split.
Qed.

Lemma existsb_Permutation {A} (f : A -> bool) (l l' : list A) :
  l ≡ₚ l' -> existsb f l = existsb f l'.
Proof.
  induction 1 as [|x l l' _ IH|x y l|l l' l'' _ IH1 _ IH2]; cbn [existsb].
  - reflexivity.
  - by rewrite IH.
  - by destruct (f x), (f y).
  - by rewrite IH1.
Qed.

Lemma deriveStatus_Permutation results results' drift :
  results ≡ₚ results' ->
  spec.deriveStatus results drift = spec.deriveStatus results' drift.
Proof.
  intros Hp. unfold spec.deriveStatus.
  by rewrite !(existsb_Permutation _ _ _ Hp).
Qed.

Lemma existsb_failedWith severity results :
  existsb (spec.failedWith severity) results = true
  <-> exists r, r ∈ results /\ ValidationResult.Passed r = false
                /\ ValidationResult.Severity r = severity.
Proof.
  rewrite existsb_exists. unfold spec.failedWith.
  split; intros (r & Hin & H).
  - exists r. apply andb_true_iff in H as [Hp Hs].
    apply negb_true_iff in Hp. apply String.eqb_eq in Hs.
    split; [by apply list_elem_of_In|done].
  - destruct H as [Hp Hs]. exists r. split; [by apply list_elem_of_In|].
    rewrite Hp, Hs, String.eqb_refl. reflexivity.
Qed.

End ReportStatus.

(** C3.  The status of the report that [validateResource] returns is the
    status derived from the report's own rule results and drift status:
    ["fail"] exactly when some result failed with severity ["error"];
    otherwise ["warning"] exactly when some result failed with severity
    ["warning"] or drift was detected; otherwise ["pass"].  The derived
    status does not depend on the order of the results. *)
Theorem report_status_is_derived
    (env : core.Env) (v : core.Validator.t) (i : nat)
    (resource : terraform.Resource.t) :
  let report := core.validateResource env v i resource in
  let results := core.ValidationReport.RuleResults report in
  let drift := core.ValidationReport.DriftStatus report in
  let status := core.ValidationReport.Status report in
  let failed := fun severity =>
    exists r, r ∈ results /\ ValidationResult.Passed r = false
              /\ ValidationResult.Severity r = severity in
  status = spec.deriveStatus results drift /\
  (forall results', results' ≡ₚ results ->
     spec.deriveStatus results' drift = status) /\
  (status = "fail" <-> failed "error") /\
  (status = "warning" <->
   ~ failed "error" /\ (failed "warning" \/ spec.driftDetected drift = true)) /\
  (status = "pass" <->
   ~ failed "error" /\ ~ failed "warning" /\ spec.driftDetected drift = false).
Proof.
  intros report results drift status failed.
  destruct (validateResource_report env v i resource) as (Hs & _).
  fold report in Hs. fold results drift status in Hs.
  assert (forall severity,
            existsb (spec.failedWith severity) results = true <-> failed severity)
    as Hf by (intros; apply existsb_failedWith).
  clearbody status drift results. clear report.
  split; [exact Hs|]. split.
  { intros results' Hp. rewrite Hs. by apply deriveStatus_Permutation. }
  rewrite Hs. unfold spec.deriveStatus. rewrite <- !Hf.
  destruct (existsb (spec.failedWith "error") results),
    (existsb (spec.failedWith "warning") results),
    (spec.driftDetected drift); cbn [orb];
    (split; [|split]); split; try discriminate; try tauto;
    try (intros [H1 H2]; try destruct H2; try tauto; try discriminate);
    try (intros; repeat split; try discriminate; auto).
Qed.

(** * The ephemeral sandbox *)

Lemma wraps_refl (e : error) : wraps e e.
Proof. destruct e; by left. Qed.

Lemma wraps_Errorf_w (prefix : string) (e : error) : wraps (Errorf_w prefix e) e.
Proof. right. apply wraps_refl. Qed.

Section Ephemeral.
Import core.

(** What [runEphemeralMode] does when destroy is not switched off, by the
    outcomes of [Apply] and [Destroy]. *)
Lemma runEphemeralMode_run planFile s :
  NoDestroy (Validator.config (validator s)) = false ->
  let v := validator s in
  let tf := Validator.tfClient v in
  runEphemeralMode planFile s
  = (match terraform.Apply tf planFile with
     | Some applyErr => inr (Errorf_w "terraform apply failed: " applyErr)
     | None => inl tt
     end,
     mkState v (calls s ++ [tfApply planFile; tfDestroy true])
       (match terraform.Destroy tf true with
        | Some err =>
            if Verbose (Validator.config v)
            then stderr s ++ ["Warning: terraform destroy encountered issues: "
                              +:+ Error err +:+ newline]
            else stderr s
        | None => stderr s
        end)).
Proof.
  intros Hn v tf. subst v tf. destruct s as [v cs es].
  cbn [validator calls stderr] in *.
  unfold runEphemeralMode, bind, getValidator, try, external, printStderr, ret,
    throw, outcomeOf.
  cbn [validator calls stderr]. rewrite Hn. cbn [negb].
  destruct (terraform.Apply (Validator.tfClient v) planFile) as [applyErr|],
    (terraform.Destroy (Validator.tfClient v) true) as [err|],
    (Verbose (Validator.config v));
    cbn [validator calls stderr]; by rewrite <- app_assoc.
Qed.

(** With [NoDestroy] set, [Apply] is the only call. *)
Lemma runEphemeralMode_no_destroy planFile s :
  NoDestroy (Validator.config (validator s)) = true ->
  let v := validator s in
  runEphemeralMode planFile s
  = (match terraform.Apply (Validator.tfClient v) planFile with
     | Some applyErr => inr (Errorf_w "terraform apply failed: " applyErr)
     | None => inl tt
     end,
     mkState v (calls s ++ [tfApply planFile]) (stderr s)).
Proof.
  intros Hn v. subst v. destruct s as [v cs es].
  cbn [validator calls stderr] in *.
  unfold runEphemeralMode, bind, getValidator, try, external, printStderr, ret,
    throw, outcomeOf.
  cbn [validator calls stderr]. rewrite Hn. cbn [negb].
  by destruct (terraform.Apply (Validator.tfClient v) planFile) as [applyErr|].
Qed.

End Ephemeral.

(** C1.  In [runEphemeralMode], with [NoDestroy] unset: whatever [Apply]
    returns, the calls made are [Apply] on the plan file and then
    [Destroy] with auto-approve, in this order and nothing else.  When
    [Apply] failed, the error returned is the one that wraps the apply
    failure ("terraform apply failed: ..."), whatever [Destroy] returned;
    when [Apply] succeeded, no error is returned. *)
Theorem ephemeral_destroy_follows_apply (planFile : string) (s : core.State) :
  core.NoDestroy (core.Validator.config (core.validator s)) = false ->
  let tf := core.Validator.tfClient (core.validator s) in
  let outcome := core.runEphemeralMode planFile s in
  core.calls outcome.2
  = core.calls s ++ [core.tfApply planFile; core.tfDestroy true] /\
  (forall applyErr,
     terraform.Apply tf planFile = Some applyErr ->
     outcome.1 = inr (Errorf_w "terraform apply failed: " applyErr) /\
     wraps (Errorf_w "terraform apply failed: " applyErr) applyErr /\
     Error (Errorf_w "terraform apply failed: " applyErr)
     = "terraform apply failed: " +:+ Error applyErr) /\
  (terraform.Apply tf planFile = None -> outcome.1 = inl tt) /\
  core.validator outcome.2 = core.validator s.
Proof.
  intros Hn tf outcome. subst outcome.
  rewrite (runEphemeralMode_run planFile s Hn). fold tf.
  cbn [fst snd core.calls core.validator].
  split; [done|]. split; [|split; [|done]].
  - intros applyErr ->. split; [done|]. split; [|done].
    apply wraps_Errorf_w.
  - by intros ->.
Qed.

(** C1 on a run in which both [apply] and [destroy] fail. *)
Lemma ephemeral_destroy_follows_apply_witness :
  let s :=
    core.start
      (core.NewValidator (examples.config core.ModeEphemeralSandbox true)
         (examples.client (Some examples.applyFailure)
            (Some examples.destroyFailure))
         examples.policy) in
  core.calls (core.runEphemeralMode "/tmp/terraship-plan.tfplan" s).2
  = [core.tfApply "/tmp/terraship-plan.tfplan"; core.tfDestroy true] /\
  (core.runEphemeralMode "/tmp/terraship-plan.tfplan" s).1
  = inr (Errorf_w "terraform apply failed: " examples.applyFailure).
Proof.
  intros s.
  destruct (ephemeral_destroy_follows_apply "/tmp/terraship-plan.tfplan" s
              eq_refl) as (Hc & Ha & _).
  split; [exact Hc|]. by apply Ha.
Defined.

(** C2, as stated, fails: [apply] succeeds, [destroy] fails and the run
    is not verbose.  [runEphemeralMode] returns no error, writes nothing
    to standard error and leaves the validator, hence the summary, as it
    would be had [destroy] succeeded. *)
Lemma destroy_failure_is_dropped :
  let failing :=
    core.start
      (core.NewValidator (examples.config core.ModeEphemeralSandbox false)
         (examples.client None (Some examples.destroyFailure))
         examples.policy) in
  let succeeding :=
    core.start
      (core.NewValidator (examples.config core.ModeEphemeralSandbox false)
         (examples.client None None) examples.policy) in
  let outcome := core.runEphemeralMode "/tmp/terraship-plan.tfplan" failing in
  outcome.1 = inl tt /\
  core.stderr outcome.2 = [] /\
  core.generateSummary (core.validator outcome.2)
  = core.generateSummary
      (core.validator
         (core.runEphemeralMode "/tmp/terraship-plan.tfplan" succeeding).2) /\
  (core.Validate examples.env failing).1
  = (core.Validate examples.env succeeding).1 /\
  core.stderr (core.Validate examples.env failing).2 = [] /\
  exists summary, (core.Validate examples.env failing).1 = inl summary.
Proof.
  cbv zeta. rewrite !runEphemeralMode_run by reflexivity.
  cbn [fst snd core.stderr core.validator].
  split; [reflexivity|]. split; [reflexivity|]. split; [reflexivity|].
  assert ((core.Validate examples.env
             (core.start
                (core.NewValidator (examples.config core.ModeEphemeralSandbox false)
                   (examples.client None (Some examples.destroyFailure))
                   examples.policy))).1
          = (core.Validate examples.env
               (core.start
                  (core.NewValidator
                     (examples.config core.ModeEphemeralSandbox false)
                     (examples.client None None) examples.policy))).1) as Heq
    by (vm_compute; reflexivity).
  split; [exact Heq|].
  split; [vm_compute; reflexivity|].
  rewrite Heq. vm_compute. eexists. reflexivity.
Qed.

(** C2 (as amended).  When [Apply] succeeds and [Destroy] fails,
    [runEphemeralMode] returns no error and leaves the validator, with the
    reports the summary is made of, untouched: the failure of [Destroy]
    reaches neither the caller nor the summary.  It is written to standard
    error, as a warning, when the run is verbose, and not at all
    otherwise. *)
Theorem destroy_failure_is_only_logged
    (planFile : string) (s : core.State) (err : error) :
  core.NoDestroy (core.Validator.config (core.validator s)) = false ->
  terraform.Apply (core.Validator.tfClient (core.validator s)) planFile = None ->
  terraform.Destroy (core.Validator.tfClient (core.validator s)) true = Some err ->
  let outcome := core.runEphemeralMode planFile s in
  outcome.1 = inl tt /\
  core.validator outcome.2 = core.validator s /\
  core.generateSummary (core.validator outcome.2)
  = core.generateSummary (core.validator s) /\
  core.stderr outcome.2
  = core.stderr s ++
    (if core.Verbose (core.Validator.config (core.validator s))
     then ["Warning: terraform destroy encountered issues: "
           +:+ Error err +:+ core.newline]
     else []).
Proof.
  intros Hn Ha Hd outcome. subst outcome.
  rewrite (runEphemeralMode_run planFile s Hn), Ha, Hd.
  cbn [fst snd core.stderr core.validator].
  repeat split.
  destruct (core.Verbose _); [done|by rewrite app_nil_r].
Qed.

(** The amended C2 on a verbose run. *)
Lemma destroy_failure_is_only_logged_witness :
  let s :=
    core.start
      (core.NewValidator (examples.config core.ModeEphemeralSandbox true)
         (examples.client None (Some examples.destroyFailure))
         examples.policy) in
  (core.runEphemeralMode "/tmp/terraship-plan.tfplan" s).1 = inl tt /\
  core.stderr (core.runEphemeralMode "/tmp/terraship-plan.tfplan" s).2
  = ["Warning: terraform destroy encountered issues: "
     +:+ "terraform destroy failed: exit 1" +:+ core.newline].
Proof.
  intros s.
  destruct (destroy_failure_is_only_logged "/tmp/terraship-plan.tfplan" s
              examples.destroyFailure eq_refl eq_refl eq_refl)
    as (H1 & _ & _ & H2).
  split; [exact H1|exact H2].
Defined.

(** * Type patterns *)

Section Wildcards.
Import GoStrings.
Variable RE : string -> string -> bool * option error.
Hypothesis RE_RE2 : regexp.RE2 RE.

Lemma ReplaceAll_star c pattern :
  ReplaceAll (String c pattern) "*" ".*"
  = if Ascii.eqb c "*" then String "." (String "*" (ReplaceAll pattern "*" ".*"))
    else String c (ReplaceAll pattern "*" ".*").
Proof.
  unfold ReplaceAll. cbn [replaceFrom String.prefix String.length Nat.sub].
  destruct (Ascii.eqb_spec c "*") as [->|Hne].
  - destruct (ascii_dec "*" "*") as [_|Hn]; [|by destruct Hn].
    by destruct pattern.
  - destruct (ascii_dec "*" c) as [<-|_]; [by destruct Hne|done].
Qed.

Lemma isMeta_false c :
  regexp.isMeta c = false ->
  Ascii.eqb c "$" = false /\ Ascii.eqb c "." = false.
Proof.
  unfold regexp.isMeta, regexp.metaChars. cbn [existsb].
  rewrite !orb_false_iff. tauto.
Qed.

Lemma parseBody_plain pattern :
  plainPattern pattern = true ->
  regexp.parseBody (ReplaceAll pattern "*" ".*" +:+ "$") = Some (itemsOf pattern).
Proof.
  induction pattern as [|c pattern IH]; [reflexivity|].
  cbn [plainPattern itemsOf]. intros H.
  apply andb_true_iff in H as [Hc Hp]. specialize (IH Hp).
  rewrite ReplaceAll_star.
  destruct (Ascii.eqb c "*") eqn:Hstar.
  - change (regexp.parseBody
              (String "." (String "*" (ReplaceAll pattern "*" ".*" +:+ "$")))
            = Some (regexp.AnyStar :: itemsOf pattern)).
    cbn [regexp.parseBody Ascii.eqb Bool.eqb]. by rewrite IH.
  - cbn [orb] in Hc. apply andb_true_iff in Hc as [Hm Ha].
    apply negb_true_iff in Hm.
    destruct (isMeta_false c Hm) as [Hd Hdot].
    change (regexp.parseBody
              (String c (ReplaceAll pattern "*" ".*" +:+ "$"))
            = Some (regexp.Lit c :: itemsOf pattern)).
    cbn [regexp.parseBody]. rewrite Hd, Hdot, Hm, Ha. cbn [orb negb].
    by rewrite IH.
Qed.

Lemma matchItems_itemsOf pattern s :
  noLineFeed s = true ->
  regexp.matchItems (itemsOf pattern) s = spec.wildcardMatch pattern s.
Proof.
  revert s. induction pattern as [|c pattern IH]; intros s Hs; [reflexivity|].
  cbn [itemsOf spec.wildcardMatch].
  destruct (Ascii.eqb c "*").
  - cbn [regexp.matchItems].
    induction s as [|d s IHs].
    + by rewrite (IH "" Hs).
    + cbn [noLineFeed] in Hs. apply andb_true_iff in Hs as [Hd Hs'].
      rewrite (IH (String d s)) by (cbn [noLineFeed]; by rewrite Hd, Hs').
      rewrite Hd. cbn [andb]. by rewrite (IHs Hs').
  - cbn [regexp.matchItems]. destruct s as [|d s]; [reflexivity|].
    cbn [noLineFeed] in Hs. apply andb_true_iff in Hs as [_ Hs'].
    by rewrite (IH s Hs').
Qed.

Lemma matchResourceType_plain pattern resourceType :
  plainPattern pattern = true -> plainType resourceType = true ->
  rules.matchResourceType RE pattern resourceType
  = spec.wildcardMatch pattern resourceType.
Proof using RE_RE2.
  intros Hp Ht. apply andb_true_iff in Ht as [Ha Hl].
  unfold rules.matchResourceType. cbv zeta.
  rewrite (RE_RE2 _ (itemsOf pattern) resourceType).
  - cbn [fst]. by apply matchItems_itemsOf.
  - change (regexp.parseBody (ReplaceAll pattern "*" ".*" +:+ "$")
            = Some (itemsOf pattern)).
    by apply parseBody_plain.
  - exact Ha.
Qed.

Lemma existsb_ext_Forall {A} (f g : A -> bool) (l : list A) :
  Forall (fun x => f x = g x) l -> existsb f l = existsb g l.
Proof. induction 1 as [|x l Hx _ IH]; cbn [existsb]; [done|]. by rewrite Hx, IH. Qed.

Lemma rulesLoop_filter rules resourceType applicable :
  Forall (fun rule =>
            Forall (fun pattern => plainPattern pattern = true)
              (ValidationRule.ResourceTypes rule)) rules ->
  plainType resourceType = true ->
  rules.rulesLoop RE rules resourceType applicable
  = applicable ++ List.filter (spec.applies resourceType) rules.
Proof using RE_RE2.
  intros Hplain Ht. revert applicable.
  induction Hplain as [|rule rest Hrule _ IH]; intros applicable.
  - cbn [rules.rulesLoop List.filter]. by rewrite app_nil_r.
  - cbn [rules.rulesLoop List.filter]. unfold spec.applies at 1.
    rewrite (existsb_ext_Forall
               (fun rt => rules.matchResourceType RE rt resourceType)
               (fun pattern => spec.wildcardMatch pattern resourceType)).
    2:{ eapply Forall_impl; [exact Hrule|].
        intros pattern Hp. by apply matchResourceType_plain. }
    destruct (ValidationRule.Enabled rule); cbn [negb andb]; [|apply IH].
    destruct (ValidationRule.ResourceTypes rule) as [|pattern patterns].
    + cbn [length Nat.eqb orb]. rewrite IH. by rewrite <- app_assoc.
    + cbn [length Nat.eqb orb].
      destruct (existsb _ (pattern :: patterns)); [|apply IH].
      rewrite IH. by rewrite <- app_assoc.
Qed.

End Wildcards.

Lemma RE2_MatchString : regexp.RE2 regexp.MatchString.
Proof. intros pattern items s Hp _. unfold regexp.MatchString. by rewrite Hp. Qed.

(** C6, as stated, fails: the pattern is handed to the regexp library
    with only [*] rewritten, so the other RE2 operators keep their
    meaning.  The pattern [aws.instance] does not match the type
    [aws_instance] as a wildcard pattern, yet under every matcher that
    follows RE2 the rule is returned for that type. *)
Lemma matchResourceType_reads_regexp_operators :
  spec.wildcardMatch "aws.instance" "aws_instance" = false /\
  spec.applies "aws_instance" examples.dotted = false /\
  regexp.RE2 regexp.MatchString /\
  rules.GetRulesForResource regexp.MatchString
    (Engine.mk examples.dottedPolicy) "aws_instance" = [examples.dotted] /\
  ~ exists RE, regexp.RE2 RE /\
      rules.GetRulesForResource RE (Engine.mk examples.dottedPolicy)
        "aws_instance" <> [examples.dotted].
Proof.
  split; [vm_compute; reflexivity|]. split; [vm_compute; reflexivity|].
  split; [exact RE2_MatchString|].
  assert (forall RE, regexp.RE2 RE ->
            rules.GetRulesForResource RE (Engine.mk examples.dottedPolicy)
              "aws_instance" = [examples.dotted]) as H.
  { intros RE HRE.
    unfold rules.GetRulesForResource, examples.dottedPolicy.
    cbn [Engine.policy Policy.Rules rules.rulesLoop].
    change (ValidationRule.Enabled examples.dotted) with true.
    change (ValidationRule.ResourceTypes examples.dotted) with ["aws.instance"].
    cbn [negb length Nat.eqb existsb]. unfold rules.matchResourceType.
    cbv zeta.
    rewrite (HRE _ (itemsOf "aws" ++ [regexp.AnyChar] ++ itemsOf "instance")
               "aws_instance"); [reflexivity|vm_compute; reflexivity|reflexivity]. }
  split; [apply H, RE2_MatchString|].
  intros (RE & HRE & Hne). by apply Hne, H.
Qed.

(** C6 (as amended).  For type patterns made of [*] and of characters
    that are no RE2 operators, and a resource type of plain characters:
    [GetRulesForResource] returns the enabled rules, in the order of the
    policy, that have no pattern or a pattern that matches; a pattern
    matches when it equals the whole type, case-sensitively, each [*]
    standing for any run of characters.  So [provider_*] matches
    [provider_bucket] and [provider_instance], and neither
    [otherprovider_bucket] nor [Provider_bucket]. *)
Theorem GetRulesForResource_plain_patterns
    (RE : string -> string -> bool * option error)
    (e : Engine.t) (resourceType : string) :
  regexp.RE2 RE ->
  Forall (fun rule =>
            Forall (fun pattern => plainPattern pattern = true)
              (ValidationRule.ResourceTypes rule))
    (Policy.Rules (Engine.policy e)) ->
  plainType resourceType = true ->
  rules.GetRulesForResource RE e resourceType
  = List.filter (spec.applies resourceType) (Policy.Rules (Engine.policy e)) /\
  (forall pattern,
     plainPattern pattern = true ->
     rules.matchResourceType RE pattern resourceType
     = spec.wildcardMatch pattern resourceType) /\
  rules.matchResourceType RE "provider_*" "provider_bucket" = true /\
  rules.matchResourceType RE "provider_*" "provider_instance" = true /\
  rules.matchResourceType RE "provider_*" "otherprovider_bucket" = false /\
  rules.matchResourceType RE "provider_*" "Provider_bucket" = false.
Proof.
  intros HRE Hplain Ht.
  split.
  { unfold rules.GetRulesForResource. by rewrite rulesLoop_filter. }
  split.
  { intros pattern Hp. by apply matchResourceType_plain. }
  repeat split; by rewrite matchResourceType_plain.
Qed.

(** The amended C6 on the sample policy and a type of the provider. *)
Lemma GetRulesForResource_plain_patterns_witness :
  rules.GetRulesForResource regexp.MatchString (Engine.mk examples.policy)
    "provider_bucket"
  = [examples.requiredTags; examples.everywhere].
Proof.
  destruct (GetRulesForResource_plain_patterns regexp.MatchString
              (Engine.mk examples.policy) "provider_bucket" RE2_MatchString)
    as (H & _).
  - unfold examples.policy. cbn [Engine.policy Policy.Rules].
    repeat constructor.
  - reflexivity.
  - rewrite H. reflexivity.
Defined.

(** * Drift detection *)

Section Drift.
Variables providerName attribute word : string.
Variable GetResourceStatus : string -> string -> cloud.StatusResult.

Lemma compareTags_app planned actual driftDetails :
  cloud.compareTags word planned actual driftDetails
  = driftDetails ++ cloud.compareTags word planned actual [].
Proof.
  revert driftDetails.
  induction planned as [|[key value] rest IH]; intros driftDetails;
    cbn [cloud.compareTags].
  - by rewrite app_nil_r.
  - destruct (actual !! key) as [actualValue|].
    + destruct (negb (String.eqb (GoFmt.Sprint value) actualValue)).
      * rewrite IH, (IH ([] ++ _)). by rewrite <- app_assoc.
      * apply IH.
    + rewrite IH, (IH ([] ++ _)). by rewrite <- app_assoc.
Qed.

Lemma DetectDrift_absent seed plannedState resourceType resourceID actualStatus :
  GetResourceStatus resourceType resourceID = cloud.Found actualStatus ->
  ResourceStatus.Exists actualStatus = false ->
  cloud.DetectDrift providerName attribute word GetResourceStatus seed
    plannedState resourceType resourceID
  = inl (cloud.markDrift actualStatus
           ["Resource does not exist in " +:+ providerName]).
Proof.
  intros Hg He. unfold cloud.DetectDrift. by rewrite Hg, He.
Qed.

End Drift.

(** C8.  When [GetResourceStatus] answers without error with a status
    whose [Exists] is false, [DetectDrift] returns that status with
    [DriftDetected] set and exactly one detail, which says that the
    resource does not exist; [Exists] stays false and the other fields are
    those the provider reported.  The planned attributes are not looked at:
    the answer is the same for every planned state and every order of its
    tags.  This holds of the function shared by the AWS, Azure and GCP
    adapters, whatever the provider's name and tag attribute. *)
Theorem DetectDrift_of_absent_resource
    (providerName attribute word : string)
    (GetResourceStatus : string -> string -> cloud.StatusResult)
    (seed : Seed) (plannedState : gmap string Value)
    (resourceType resourceID : string) (actualStatus : ResourceStatus.t) :
  GetResourceStatus resourceType resourceID = cloud.Found actualStatus ->
  ResourceStatus.Exists actualStatus = false ->
  exists driftStatus,
    cloud.DetectDrift providerName attribute word GetResourceStatus seed
      plannedState resourceType resourceID = inl driftStatus /\
    ResourceStatus.Exists driftStatus = false /\
    ResourceStatus.DriftDetected driftStatus = true /\
    ResourceStatus.DriftDetails driftStatus
    = ["Resource does not exist in " +:+ providerName] /\
    length (ResourceStatus.DriftDetails driftStatus) = 1%nat /\
    ResourceStatus.ResourceID driftStatus = ResourceStatus.ResourceID actualStatus /\
    ResourceStatus.ResourceType driftStatus
    = ResourceStatus.ResourceType actualStatus /\
    ResourceStatus.State driftStatus = ResourceStatus.State actualStatus /\
    ResourceStatus.Tags driftStatus = ResourceStatus.Tags actualStatus /\
    ResourceStatus.Properties driftStatus = ResourceStatus.Properties actualStatus /\
    forall seed' plannedState',
      cloud.DetectDrift providerName attribute word GetResourceStatus seed'
        plannedState' resourceType resourceID = inl driftStatus.
Proof.
  intros Hg He.
  exists (cloud.markDrift actualStatus
            ["Resource does not exist in " +:+ providerName]).
  split; [by apply DetectDrift_absent|].
  repeat split; try done.
  intros seed' plannedState'. by apply DetectDrift_absent.
Qed.

(** C8 on the AWS adapter, for a bucket that the account does not hold,
    planned with tags. *)
Lemma DetectDrift_of_absent_resource_witness :
  exists driftStatus,
    aws.DetectDrift examples.emptyAccount []
      examples.taggedEnvironment "aws_s3_bucket" "logs" = inl driftStatus /\
    ResourceStatus.Exists driftStatus = false /\
    ResourceStatus.DriftDetected driftStatus = true /\
    ResourceStatus.DriftDetails driftStatus = ["Resource does not exist in AWS"].
Proof.
  destruct (DetectDrift_of_absent_resource "AWS" "tags" "Tag"
              (aws.GetResourceStatus examples.emptyAccount) []
              examples.taggedEnvironment "aws_s3_bucket" "logs"
              (cloud.blankStatus "aws_s3_bucket" "logs") eq_refl eq_refl)
    as (driftStatus & H1 & H2 & H3 & H4 & _).
  exists driftStatus. by repeat split.
Defined.

(** * The run *)

Section Run.
Import core.

Lemma bind_inl {A B} (m : M A) (k : A -> M B) s b s'' :
  bind m k s = (inl b, s'') ->
  exists a s', m s = (inl a, s') /\ k a s' = (inl b, s'').
Proof. unfold bind. destruct (m s) as [[a|err] s']; [eauto|discriminate]. Qed.

Lemma orWrap_inl {A} prefix (m : M A) s a s' :
  orWrap prefix m s = (inl a, s') -> m s = (inl a, s').
Proof. unfold orWrap. destruct (m s) as [[a'|err] s1]; [done|discriminate]. Qed.

Lemma defer_inv {A} cleanup (body : M A) s r s'' :
  defer cleanup body s = (r, s'') ->
  exists s', body s = (r, s') /\ (cleanup s').2 = s''.
Proof.
  unfold defer. destruct (body s) as [r' s'], (cleanup s') as [u s1] eqn:Hc.
  intros [= <- <-]. exists s'. by rewrite Hc.
Qed.

Lemma external_inl {A} c (outcome : A + error) s a s' :
  external c outcome s = (inl a, s') ->
  outcome = inl a /\ s' = mkState (validator s) (calls s ++ [c]) (stderr s).
Proof. unfold external. by intros [= -> <-]. Qed.

Lemma outcomeOf_inl r u : outcomeOf r = inl u -> r = None.
Proof. by destruct r. Qed.

(** [validateResource] reads the configuration, the adapter and the
    engine of the validator, not the reports gathered so far. *)
Lemma validateResource_frame env v v' i resource :
  Validator.config v = Validator.config v' ->
  Validator.cloudAdapter v = Validator.cloudAdapter v' ->
  Validator.rulesEngine v = Validator.rulesEngine v' ->
  validateResource env v i resource = validateResource env v' i resource.
Proof.
  intros Hc Ha He. unfold validateResource, checkDrift. by rewrite Hc, Ha, He.
Qed.

Lemma resourcesLoop_results env i resources v :
  let v' := resourcesLoop env i resources v in
  Validator.results v'
  = Validator.results v
    ++ imap (fun k resource => validateResource env v (i + k) resource) resources /\
  Validator.config v' = Validator.config v /\
  Validator.tfClient v' = Validator.tfClient v /\
  Validator.cloudAdapter v' = Validator.cloudAdapter v /\
  Validator.rulesEngine v' = Validator.rulesEngine v.
Proof.
  revert i v. induction resources as [|resource rest IH]; intros i v.
  - cbn [resourcesLoop imap]. by rewrite app_nil_r.
  - cbn [resourcesLoop]. cbv zeta.
    destruct (IH (S i) (Validator.appendResult v (validateResource env v i resource)))
      as (Hr & Hc & Ht & Ha & He).
    cbn [Validator.appendResult Validator.results Validator.config
         Validator.tfClient Validator.cloudAdapter Validator.rulesEngine] in *.
    split; [|done].
    rewrite Hr, <- app_assoc. f_equal. rewrite imap_cons, Nat.add_0_r.
    cbn [app]. f_equal. apply imap_ext. intros k r _. cbn.
    rewrite <- Nat.add_succ_comm. by apply validateResource_frame.
Qed.

Lemma countReport_frame reports summary :
  Summary.TotalResources (foldl countReport summary reports)
  = Summary.TotalResources summary /\
  Summary.Reports (foldl countReport summary reports) = Summary.Reports summary.
Proof.
  revert summary. induction reports as [|report rest IH]; intros summary; [done|].
  cbn [foldl]. destruct (IH (countReport summary report)) as [-> ->]. done.
Qed.

Lemma generateSummary_reports v :
  Summary.Reports (generateSummary v) = Validator.results v /\
  Summary.TotalResources (generateSummary v) = length (Validator.results v).
Proof.
  unfold generateSummary. cbv zeta.
  match goal with
  | |- context [foldl countReport ?s ?rs] =>
      destruct (countReport_frame rs s) as [-> ->]
  end. done.
Qed.

Lemma runEphemeralMode_validator planFile s :
  validator (runEphemeralMode planFile s).2 = validator s.
Proof.
  destruct (NoDestroy (Validator.config (validator s))) eqn:Hn.
  - by rewrite (runEphemeralMode_no_destroy planFile s Hn).
  - by rewrite (runEphemeralMode_run planFile s Hn).
Qed.

Lemma initializeCloudAdapter_inl env provider s u s' :
  initializeCloudAdapter env provider s = (inl u, s') ->
  exists adapter,
    validator s' = Validator.setCloudAdapter (validator s) adapter /\
    adapter ∈ [aws.NewAdapter (awsSDK env); azure.NewAdapter (azureSDK env);
               gcp.NewAdapter (gcpSDK env)] /\
    cloud.Name adapter = provider /\
    cloud.Initialize adapter
      (cloud.mkCloudConfig provider "" "" "" "" "" "" "" "" "" "" "") = None /\
    cloud.ValidateCredentials adapter = None /\
    calls s' = calls s ++ [adapterInitialize provider;
                           adapterValidateCredentials provider] /\
    stderr s' = stderr s.
Proof.
  unfold initializeCloudAdapter. destruct u. intros H.
  apply bind_inl in H as (adapter & s1 & Hpick & H). cbv zeta in H.
  apply bind_inl in H as ([] & s2 & Hinit & H).
  apply orWrap_inl, external_inl in Hinit as [Hinit ->].
  apply bind_inl in H as ([] & s3 & Hcred & H).
  apply orWrap_inl, external_inl in Hcred as [Hcred ->].
  apply bind_inl in H as (v & s4 & Hget & H).
  unfold getValidator in Hget. injection Hget as <- <-.
  unfold setValidator in H. injection H as <-.
  cbn [validator calls stderr].
  apply outcomeOf_inl in Hinit, Hcred.
  assert (s1 = s /\ cloud.Name adapter = provider /\
          adapter ∈ [aws.NewAdapter (awsSDK env); azure.NewAdapter (azureSDK env);
                     gcp.NewAdapter (gcpSDK env)]) as (-> & Hname & Hin).
  { destruct (String.eqb_spec provider "aws") as [->|_].
    { injection Hpick as <- <-. split; [done|]. split; [done|]. by left. }
    destruct (String.eqb_spec provider "azure") as [->|_].
    { injection Hpick as <- <-. split; [done|]. split; [done|]. right. by left. }
    destruct (String.eqb_spec provider "gcp") as [->|_].
    { injection Hpick as <- <-. split; [done|]. split; [done|].
      right. right. by left. }
    discriminate Hpick. }
  exists adapter. rewrite <- app_assoc. by repeat split.
Qed.

Lemma validateResources_inl env plan s u s' :
  validateResources env plan s = (inl u, s') ->
  exists planned root,
    terraform.PlannedValues plan = Some planned /\
    terraform.RootModule planned = Some root /\
    s' = mkState (resourcesLoop env 0 (collectResources root) (validator s))
           (calls s) (stderr s).
Proof.
  unfold validateResources. destruct u.
  destruct (terraform.PlannedValues plan) as [planned|]; [|discriminate].
  destruct (terraform.RootModule planned) as [root|] eqn:Hroot; [|discriminate].
  cbv zeta. unfold bind, getValidator, setValidator. intros [= <-].
  by exists planned, root.
Qed.

(** A run that returns a summary went through every step, and the
    summary is the one of the reports of the plan's resources, appended
    to those the validator held. *)
Lemma Validate_inl env s summary s_end :
  Validate env s = (inl summary, s_end) ->
  exists plan planned root adapter,
    terraform.ShowJSON (Validator.tfClient (validator s)) (planFilePath env)
    = inl plan /\
    terraform.PlannedValues plan = Some planned /\
    terraform.RootModule planned = Some root /\
    summary
    = generateSummary
        (resourcesLoop env 0 (collectResources root)
           (Validator.setCloudAdapter (validator s) adapter)).
Proof.
  unfold Validate. intros H.
  apply bind_inl in H as (v & s1 & Hv & H).
  unfold getValidator in Hv. injection Hv as <- <-. cbv zeta in H.
  apply bind_inl in H as ([] & s2 & H1 & H).
  apply orWrap_inl, external_inl in H1 as [_ ->].
  apply bind_inl in H as ([] & s3 & H2 & H).
  apply orWrap_inl, external_inl in H2 as [_ ->].
  apply bind_inl in H as (provider & s4 & H3 & H).
  assert (validator s4 = validator s) as Hv4.
  { destruct (String.eqb _ _).
    - apply orWrap_inl, external_inl in H3 as [_ ->]. done.
    - injection H3 as <- <-. done. }
  clear H3.
  apply bind_inl in H as ([] & s5 & H4 & H).
  apply orWrap_inl, initializeCloudAdapter_inl in H4 as (adapter & Hv5 & _).
  rewrite Hv4 in Hv5.
  apply defer_inv in H as (s6 & H & _).
  apply bind_inl in H as ([] & s7 & H5 & H).
  apply orWrap_inl, external_inl in H5 as [_ ->].
  apply bind_inl in H as (plan & s8 & H6 & H).
  apply orWrap_inl, external_inl in H6 as [Hshow ->].
  apply bind_inl in H as ([] & s9 & H7 & H).
  apply orWrap_inl, validateResources_inl in H7 as (planned & root & Hp & Hr & ->).
  cbn [validator calls stderr] in H.
  apply bind_inl in H as ([] & s10 & H8 & H).
  assert (validator s10
          = resourcesLoop env 0 (collectResources root) (validator s5)) as Hv10.
  { destruct (String.eqb _ _).
    - apply orWrap_inl in H8.
      pose proof (runEphemeralMode_validator (planFilePath env)
                    {| validator := resourcesLoop env 0 (collectResources root)
                                      (validator s5);
                       calls := calls s5 ++ [tfPlan (planFilePath env)]
                                ++ [tfShowJSON (planFilePath env)];
                       stderr := stderr s5 |}) as Hk.
      rewrite <- app_assoc in H8. rewrite H8 in Hk. exact Hk.
    - injection H8 as <-. done. }
  clear H8.
  apply bind_inl in H as (v' & s11 & H9 & H).
  unfold getValidator in H9. injection H9 as <- <-.
  unfold ret in H. injection H as <- _.
  exists plan, planned, root, adapter.
  rewrite Hv10, Hv5. by repeat split.
Qed.

End Run.

(** C9, as stated, fails: [Validate] appends to [v.results] and never
    resets it.  On the sample plan, which holds two resources, a second
    run on the same validator returns a summary with four reports, two
    per resource, and [TotalResources] is four. *)
Lemma second_run_repeats_reports :
  let s :=
    core.start
      (core.NewValidator (examples.config core.ModeValidateExisting false)
         (examples.client None None) examples.policy) in
  let first := core.Validate examples.env s in
  let second := core.Validate examples.env first.2 in
  length (core.collectResources examples.rootModule) = 2%nat /\
  exists summary1 summary2,
    first.1 = inl summary1 /\ second.1 = inl summary2 /\
    core.Summary.TotalResources summary1 = 2%nat /\
    core.Summary.TotalResources summary2 = 4%nat /\
    map core.ValidationReport.ResourceAddress (core.Summary.Reports summary2)
    = ["aws_s3_bucket.logs"; "module.app.aws_instance.web";
       "aws_s3_bucket.logs"; "module.app.aws_instance.web"].
Proof.
  cbv zeta. split; [reflexivity|].
  eexists _, _.
  split; [vm_compute; reflexivity|].
  split; [vm_compute; reflexivity|].
  split; [vm_compute; reflexivity|].
  split; vm_compute; reflexivity.
Qed.

(** C9 (as amended).  A run that returns a summary has read the plan,
    which has a root module, and has appended to the reports the
    validator held before the run exactly one report per resource that
    [collectResources] gathers from it (the resources of a module, then
    those of each child module in turn), in that order, each labelled
    with the address of its resource; the status of each of these reports
    is the one derived from its own rule results and drift status;
    [TotalResources] is the number of reports of the summary.  For a
    validator that held no report, as [NewValidator] returns it, the
    summary has exactly one report per resource. *)
Theorem run_appends_one_report_per_resource
    (env : core.Env) (s : core.State) (summary : core.Summary.t) :
  (core.Validate env s).1 = inl summary ->
  exists plan planned root v,
    terraform.ShowJSON (core.Validator.tfClient (core.validator s))
      (core.planFilePath env) = inl plan /\
    terraform.PlannedValues plan = Some planned /\
    terraform.RootModule planned = Some root /\
    let added :=
      imap (fun i resource => core.validateResource env v i resource)
        (core.collectResources root) in
    core.Summary.Reports summary
    = core.Validator.results (core.validator s) ++ added /\
    length added = length (core.collectResources root) /\
    core.Summary.TotalResources summary = length (core.Summary.Reports summary) /\
    map core.ValidationReport.ResourceAddress added
    = map terraform.Resource.Address (core.collectResources root) /\
    Forall (fun report =>
              core.ValidationReport.Status report
              = spec.deriveStatus (core.ValidationReport.RuleResults report)
                  (core.ValidationReport.DriftStatus report))
      added /\
    (core.Validator.results (core.validator s) = [] ->
     core.Summary.Reports summary = added /\
     core.Summary.TotalResources summary = length (core.collectResources root)).
Proof.
  intros Hrun.
  destruct (core.Validate env s) as [r s_end] eqn:Hv. cbn [fst] in Hrun. subst r.
  apply Validate_inl in Hv as (plan & planned & root & adapter & Hshow & Hp & Hr & ->).
  exists plan, planned, root,
    (core.Validator.setCloudAdapter (core.validator s) adapter).
  split; [exact Hshow|]. split; [exact Hp|]. split; [exact Hr|].
  destruct (generateSummary_reports
              (core.resourcesLoop env 0 (core.collectResources root)
                 (core.Validator.setCloudAdapter (core.validator s) adapter)))
    as [HR HT].
  destruct (resourcesLoop_results env 0 (core.collectResources root)
              (core.Validator.setCloudAdapter (core.validator s) adapter))
    as (Hres & _).
  cbn [core.Validator.setCloudAdapter core.Validator.results] in Hres.
  cbn [Nat.add] in Hres. cbv zeta.
  rewrite HT, HR, Hres.
  split; [reflexivity|]. split; [apply length_imap|]. split; [reflexivity|].
  split; [|split].
  - apply list_eq. intros k. rewrite !list_lookup_fmap, list_lookup_imap.
    destruct (core.collectResources root !! k) as [resource|]; [|done].
    cbn. f_equal.
    by destruct (validateResource_report env
                   (core.Validator.setCloudAdapter (core.validator s) adapter)
                   k resource) as (_ & _ & Ha & _).
  - apply Forall_forall. intros report Hin.
    apply elem_of_lookup_imap in Hin as (k & resource & -> & _).
    by destruct (validateResource_report env
                   (core.Validator.setCloudAdapter (core.validator s) adapter)
                   k resource) as (Hs & _).
  - intros ->. cbn [app]. split; [reflexivity|apply length_imap].
Qed.

(** The amended C9 on the sample plan, at a fresh validator: a bucket in
    the root module and an instance in a child module. *)
Lemma run_appends_one_report_per_resource_witness :
  let s :=
    core.start
      (core.NewValidator (examples.config core.ModeValidateExisting false)
         (examples.client None None) examples.policy) in
  exists summary,
    (core.Validate examples.env s).1 = inl summary /\
    core.Summary.TotalResources summary = 2%nat /\
    map core.ValidationReport.ResourceAddress (core.Summary.Reports summary)
    = ["aws_s3_bucket.logs"; "module.app.aws_instance.web"].
Proof.
  intros s.
  destruct ((core.Validate examples.env s).1) as [summary|err] eqn:Hrun;
    [|vm_compute in Hrun; discriminate Hrun].
  exists summary. split; [reflexivity|].
  destruct (run_appends_one_report_per_resource examples.env s summary Hrun)
    as (plan & planned & root & v & Hshow & Hp & Hr & _ & _ & _ & Haddr & _ & Hfresh).
  injection Hshow as <-. injection Hp as <-. injection Hr as <-.
  destruct (Hfresh eq_refl) as [Hreports Htotal].
  rewrite Htotal, Hreports, Haddr. split; reflexivity.
Defined.

(** * Further properties of the rule engine *)

Section EngineFacts.
Import rules ValidationResult.
Variable RE : string -> string -> bool * option error.

Lemma filter_sublist {A} (f : A -> bool) (l : list A) :
  sublist (List.filter f l) l.
Proof.
  induction l as [|x l IH]; cbn [List.filter]; [constructor|].
  destruct (f x); by constructor.
Qed.

(** [GetRulesForResource] as a filter, whatever the regexp library does. *)
Lemma rulesLoop_selects rules resourceType applicable :
  rulesLoop RE rules resourceType applicable
  = applicable
    ++ List.filter
         (fun rule =>
            ValidationRule.Enabled rule
            && ((length (ValidationRule.ResourceTypes rule) =? 0)%nat
                || existsb (fun rt => matchResourceType RE rt resourceType)
                     (ValidationRule.ResourceTypes rule)))
         rules.
Proof.
  revert applicable. induction rules as [|rule rest IH]; intros applicable.
  - cbn [rulesLoop List.filter]. by rewrite app_nil_r.
  - cbn [rulesLoop List.filter].
    destruct (ValidationRule.Enabled rule); cbn [negb andb]; [|apply IH].
    destruct (length (ValidationRule.ResourceTypes rule) =? 0)%nat; cbn [orb].
    + rewrite IH. by rewrite <- app_assoc.
    + destruct (existsb _ _); [|apply IH].
      rewrite IH. by rewrite <- app_assoc.
Qed.

Lemma publicLoop_detail fields resource result :
  (publicLoop fields resource result).1 = false ->
  exists field b,
    (field, b) ∈ fields /\ exposes resource field = true /\
    ((publicLoop fields resource result).2
     = appendDetail result ("Resource has public access via '" +:+ field +:+ "'")
     \/ exists strVal,
          resource !! field = Some (VStr strVal) /\
          (publicLoop fields resource result).2
          = appendDetail result
              ("Resource has public access via '" +:+ field +:+ "': " +:+ strVal)).
Proof.
  induction fields as [|[field b] rest IH]; cbn [publicLoop]; [discriminate|].
  assert ((publicLoop rest resource result).1 = false ->
          exists field0 b0,
            (field0, b0) ∈ (field, b) :: rest /\ exposes resource field0 = true /\
            ((publicLoop rest resource result).2
             = appendDetail result
                 ("Resource has public access via '" +:+ field0 +:+ "'")
             \/ exists strVal,
                  resource !! field0 = Some (VStr strVal) /\
                  (publicLoop rest resource result).2
                  = appendDetail result
                      ("Resource has public access via '" +:+ field0 +:+ "': "
                       +:+ strVal))) as IH'.
  { intros H. destruct (IH H) as (f & b' & Hin & He & Hd).
    exists f, b'. split; [by right|done]. }
  destruct (resource !! field) as [[| [] | | | strVal | |]|] eqn:Hf;
    try exact IH'.
  - intros _. exists field, b. split; [by left|]. split; [|by left].
    unfold exposes. by rewrite Hf.
  - destruct (GoStrings.Contains (GoStrings.ToLower strVal) "public") eqn:Hc;
      [|exact IH'].
    intros _. exists field, b. split; [by left|]. split.
    + unfold exposes. by rewrite Hf.
    + right. by exists strVal.
Qed.

Lemma privilegeLoop_verdict fields resource result :
  privilegeLoop fields resource result
  = if existsb (fun field =>
                  match asString (resource !! field) with
                  | Some strVal => wildcardPermissions strVal
                  | None => false
                  end) fields
    then failWith result "Policy contains wildcard permissions"
    else pass result.
Proof.
  induction fields as [|field rest IH]; cbn [privilegeLoop existsb]; [done|].
  destruct (asString (resource !! field)) as [strVal|]; [|exact IH].
  unfold wildcardPermissions at 1.
  destruct (GoStrings.Contains strVal "*:*" || GoStrings.Contains strVal quotedStar);
    [done|exact IH].
Qed.

Lemma namingLoop_first before field after pattern name resource result :
  Forall (fun f => asString (resource !! f) = None) before ->
  resource !! field = Some (VStr name) ->
  namingLoop RE (before ++ field :: after) pattern resource result
  = match RE pattern name with
    | (_, Some err) => failWith result ("Invalid regex pattern: " +:+ Error err)
    | (false, None) =>
        failWith result
          ("Name '" +:+ name +:+ "' does not match pattern '" +:+ pattern +:+ "'")
    | (true, None) => pass result
    end.
Proof.
  intros Hb Hf. induction Hb as [|f rest Hn _ IH].
  - cbn [app namingLoop]. rewrite Hf. reflexivity.
  - cbn [app namingLoop]. by rewrite Hn.
Qed.

Lemma navigate_lookupPath parts propertyPath expected current result :
  (navigate parts propertyPath expected current result).1 = true
  <-> parts = [] \/
      exists value, lookupPath parts current = Some value /\
                    GoFmt.Sprint value = GoFmt.Sprint expected.
Proof.
  revert current. induction parts as [|part rest IH]; intros current.
  - cbn [navigate]. split; [by left|done].
  - cbn [navigate lookupPath].
    destruct (current !! part) as [value|].
    2:{ split; [discriminate|]. intros [H|(v & H & _)]; discriminate. }
    destruct rest as [|part' rest].
    + destruct (String.eqb_spec (GoFmt.Sprint value) (GoFmt.Sprint expected))
        as [Heq|Hne].
      * split; [|done]. intros _. right. by exists value.
      * split; [discriminate|].
        intros [H|(v & [= <-] & H)]; [discriminate|by destruct Hne].
    + destruct value as [| | | | | |nested];
        try (split; [discriminate|intros [H|(v & H & _)]; discriminate]).
      rewrite IH. split.
      * intros [H|H]; [discriminate|by right].
      * intros [H|H]; [discriminate|by right].
Qed.

Lemma EvaluateRule_RuleName seed rule resource :
  RuleName (EvaluateRule RE seed rule resource) = ValidationRule.Name rule.
Proof.
  destruct (EvaluateRule_cases RE seed rule resource)
    as [[_ ->]|(b & c & e & a & d & _ & _ & _ & _ & ->)]; reflexivity.
Qed.

End EngineFacts.

(** [GetRulesForResource], whatever the regexp library answers, returns
    rules of the policy in the order of the policy, each at most once as
    it occurs there; every rule returned is enabled, and has no pattern or
    a pattern that [matchResourceType] accepts; every enabled rule
    without patterns is returned. *)
Theorem GetRulesForResource_selects_enabled_rules
    (RE : string -> string -> bool * option error)
    (e : Engine.t) (resourceType : string) :
  let applicable := rules.GetRulesForResource RE e resourceType in
  let policyRules := Policy.Rules (Engine.policy e) in
  sublist applicable policyRules /\
  (forall rule, rule ∈ applicable ->
     ValidationRule.Enabled rule = true /\
     (ValidationRule.ResourceTypes rule = [] \/
      exists pattern, pattern ∈ ValidationRule.ResourceTypes rule /\
        rules.matchResourceType RE pattern resourceType = true)) /\
  (forall rule, rule ∈ policyRules ->
     ValidationRule.Enabled rule = true ->
     ValidationRule.ResourceTypes rule = [] ->
     rule ∈ applicable) /\
  (forall rule, rule ∈ policyRules ->
     ValidationRule.Enabled rule = false -> rule ∉ applicable).
Proof.
  intros applicable policyRules. subst applicable.
  unfold rules.GetRulesForResource. fold policyRules.
  rewrite rulesLoop_selects. cbn [app].
  split; [apply filter_sublist|].
  split; [|split].
  - intros rule Hin. apply list_elem_of_In, filter_In in Hin as [_ H].
    apply andb_true_iff in H as [He H]. split; [exact He|].
    apply orb_true_iff in H as [H|H].
    + left. apply Nat.eqb_eq in H. by destruct (ValidationRule.ResourceTypes rule).
    + right. apply existsb_exists in H as (pattern & Hin & Hm).
      exists pattern. split; [by apply list_elem_of_In|exact Hm].
  - intros rule Hin He Ht. apply list_elem_of_In, filter_In.
    split; [by apply list_elem_of_In|]. by rewrite He, Ht.
  - intros rule Hin He Habs. apply list_elem_of_In, filter_In in Habs as [_ H].
    rewrite He in H. discriminate H.
Qed.

(** [checkPublicAccessBlocked], asked with [true]: the condition holds
    exactly when none of [public], [publicly_accessible],
    [public_access_enabled] and [acl] is boolean true or a string that
    contains "public" in any letter case, whatever order the runtime
    ranges over these fields in.  When it fails, exactly one detail is
    appended, and it names a field that shows public access. *)
Theorem checkPublicAccessBlocked_verdict
    (seed : Seed) (resource : gmap string Value) (result : ValidationResult.t) :
  let outcome := rules.checkPublicAccessBlocked seed (VBool true) resource result in
  let fields := ["public"; "publicly_accessible"; "public_access_enabled"; "acl"] in
  (outcome.1 = true <-> forall field, field ∈ fields -> exposes resource field = false) /\
  (outcome.1 = true -> outcome.2 = result) /\
  (outcome.1 = false ->
   exists field, field ∈ fields /\ exposes resource field = true /\
     (outcome.2
      = ValidationResult.appendDetail result
          ("Resource has public access via '" +:+ field +:+ "'")
      \/ exists strVal,
           resource !! field = Some (VStr strVal) /\
           outcome.2
           = ValidationResult.appendDetail result
               ("Resource has public access via '" +:+ field +:+ "': " +:+ strVal))) /\
  (forall seed' result',
     (rules.checkPublicAccessBlocked seed' (VBool true) resource result').1
     = outcome.1).
Proof.
  intros outcome fields. subst outcome.
  change (rules.checkPublicAccessBlocked seed (VBool true) resource result)
    with (rules.publicLoop (rangeMap seed rules.publicFields) resource result).
  assert (forall s field, field ∈ (rangeMap s rules.publicFields).*1
                          <-> field ∈ fields) as Hkeys.
  { intros s field. rewrite list_elem_of_fmap. split.
    - intros ([k b] & -> & Hin). apply elem_of_rangeMap in Hin.
      unfold rules.publicFields in Hin.
      repeat (apply lookup_insert_Some in Hin as [[<- _]|[_ Hin]];
              [set_solver|]).
      by rewrite lookup_empty in Hin.
    - intros Hin. exists (field, false). split; [done|].
      apply elem_of_rangeMap. unfold rules.publicFields, fields in *.
      repeat (apply elem_of_cons in Hin as [->|Hin]; [by vm_compute|]).
      by apply elem_of_nil in Hin. }
  assert (forall s r,
            (rules.publicLoop (rangeMap s rules.publicFields) resource r).1 = true
            <-> forall field, field ∈ fields -> exposes resource field = false)
    as Hiff.
  { intros s r. rewrite publicLoop_fst, forallb_forall. split.
    - intros H field Hin. apply Hkeys with (s := s) in Hin.
      apply list_elem_of_fmap in Hin as ([k b] & -> & Hin).
      apply list_elem_of_In, H in Hin. by apply negb_true_iff in Hin.
    - intros H [k b] Hin. apply negb_true_iff, H, (Hkeys s).
      apply list_elem_of_fmap. exists (k, b). split; [done|].
      by apply list_elem_of_In. }
  split; [apply Hiff|]. split; [|split].
  - destruct (publicLoop_finish (rangeMap seed rules.publicFields) resource)
      as [[d|] Hv]; rewrite Hv; cbn [finish fst snd]; [discriminate|done].
  - intros Hf. apply publicLoop_detail in Hf as (field & b & Hin & He & Hd).
    exists field. split; [|done].
    apply (Hkeys seed), list_elem_of_fmap. by exists (field, b).
  - intros seed' result'.
    change (rules.checkPublicAccessBlocked seed' (VBool true) resource result')
      with (rules.publicLoop (rangeMap seed' rules.publicFields) resource result').
    apply eq_true_iff_eq. by rewrite !Hiff.
Qed.

(** [checkLeastPrivilege] does not read the expected value of the
    policy: whatever it is, [false] included, the condition fails exactly
    when one of [policy], [policy_document] and [policy_arn] holds a string
    that contains [*:*] or a quoted star, with the detail "Policy contains
    wildcard permissions", and passes otherwise, leaving the result as it
    was. *)
Theorem checkLeastPrivilege_reads_no_expected_value
    (expected : Value) (resource : gmap string Value)
    (result : ValidationResult.t) :
  let outcome := rules.checkLeastPrivilege expected resource result in
  let wildcard :=
    exists field strVal,
      field ∈ ["policy"; "policy_document"; "policy_arn"] /\
      resource !! field = Some (VStr strVal) /\
      wildcardPermissions strVal = true in
  (wildcard ->
   outcome = (false, ValidationResult.appendDetail result
                       "Policy contains wildcard permissions")) /\
  (~ wildcard -> outcome = (true, result)) /\
  outcome = rules.checkLeastPrivilege (VBool false) resource result.
Proof.
  intros outcome wildcard. subst outcome wildcard.
  unfold rules.checkLeastPrivilege. rewrite privilegeLoop_verdict.
  split; [|split; [|reflexivity]].
  - intros (field & strVal & Hin & Hf & Hw).
    assert (existsb (fun field =>
                       match asString (resource !! field) with
                       | Some strVal => wildcardPermissions strVal
                       | None => false
                       end) rules.policyFields = true) as ->; [|done].
    apply existsb_exists. exists field. split; [by apply list_elem_of_In|].
    by rewrite Hf.
  - intros Hn.
    destruct (existsb _ rules.policyFields) eqn:He; [|done].
    destruct Hn. apply existsb_exists in He as (field & Hin & Hw).
    destruct (resource !! field) as [[| | | |strVal| |]|] eqn:Hf;
      try discriminate Hw.
    exists field, strVal. split; [by apply list_elem_of_In|done].
Qed.

(** [checkNamingPattern] with a string pattern: the first of [name],
    [id] and [resource_name] that holds a string decides, and the fields
    after it are not read.  The condition passes when the regexp library
    finds a match, fails with "Name '...' does not match pattern '...'"
    when it finds none, and fails with "Invalid regex pattern: ..." when it
    rejects the pattern. *)
Theorem checkNamingPattern_first_name_decides
    (RE : string -> string -> bool * option error)
    (pattern name field : string) (before after : list string)
    (resource : gmap string Value) (result : ValidationResult.t) :
  rules.nameFields = before ++ field :: after ->
  Forall (fun f => asString (resource !! f) = None) before ->
  resource !! field = Some (VStr name) ->
  rules.checkNamingPattern RE (VStr pattern) resource result
  = match RE pattern name with
    | (_, Some err) =>
        (false, ValidationResult.appendDetail result
                  ("Invalid regex pattern: " +:+ Error err))
    | (false, None) =>
        (false, ValidationResult.appendDetail result
                  ("Name '" +:+ name +:+ "' does not match pattern '"
                   +:+ pattern +:+ "'"))
    | (true, None) => (true, result)
    end.
Proof.
  intros Hfields Hb Hf. unfold rules.checkNamingPattern. cbn [asString].
  rewrite Hfields. by apply namingLoop_first.
Qed.

(** At a resource that has no [name] but an [id]: the [id] is matched. *)
Lemma checkNamingPattern_first_name_decides_witness :
  rules.checkNamingPattern regexp.MatchString (VStr "^logs$")
    (terraform.Resource.Values examples.bucket) blankResult
  = (true, blankResult).
Proof.
  rewrite (checkNamingPattern_first_name_decides regexp.MatchString "^logs$"
             "logs" "id" ["name"] ["resource_name"]
             (terraform.Resource.Values examples.bucket) blankResult).
  - reflexivity.
  - reflexivity.
  - repeat constructor.
  - reflexivity.
Defined.

(** A condition under a key without a checker of its own is read as a
    dotted path into the attributes: it holds exactly when every part but
    the last names a nested mapping, the last part is present, and the
    value there prints like the expected value.  The comparison is on the
    printed forms, so the boolean [true] meets the string "true". *)
Theorem checkProperty_follows_path
    (RE : string -> string -> bool * option error) (seed : Seed)
    (condition : string) (expected : Value)
    (resource : gmap string Value) (result : ValidationResult.t) :
  condition ∉ namedConditions ->
  let outcome := rules.evaluateCondition RE seed condition expected resource result in
  outcome = rules.checkProperty condition expected resource result /\
  (outcome.1 = true <->
   exists value,
     lookupPath (GoStrings.Split condition ".") resource = Some value /\
     GoFmt.Sprint value = GoFmt.Sprint expected).
Proof.
  intros Hn outcome. subst outcome.
  assert (rules.evaluateCondition RE seed condition expected resource result
          = rules.checkProperty condition expected resource result) as ->.
  { unfold namedConditions in Hn. unfold rules.evaluateCondition.
    repeat match goal with
      | |- context [String.eqb condition ?k] =>
          destruct (String.eqb_spec condition k) as [->|_];
          [exfalso; apply Hn; set_solver|]
      end.
    reflexivity. }
  split; [reflexivity|].
  unfold rules.checkProperty. rewrite navigate_lookupPath.
  destruct (splitFrom_cons 0 "" condition ".") as (part & parts & Hs).
  unfold GoStrings.Split. rewrite Hs.
  split; [intros [H|H]; [discriminate|done]|by right].
Qed.

(** A nested property, written as a boolean in the plan and as a string
    in the policy. *)
Lemma checkProperty_follows_path_witness :
  (rules.evaluateCondition regexp.MatchString [] "tags.Environment"
     (VStr "prod") examples.taggedEnvironment blankResult).1 = true /\
  (rules.evaluateCondition regexp.MatchString [] "monitoring"
     (VStr "true") (<["monitoring" := VBool true]> ∅) blankResult).1 = true.
Proof.
  split.
  - apply (checkProperty_follows_path regexp.MatchString [] "tags.Environment"
             (VStr "prod") examples.taggedEnvironment blankResult).
    + unfold namedConditions. intros Hin.
      repeat (apply elem_of_cons in Hin as [Hin|Hin]; [discriminate Hin|]).
      by apply elem_of_nil in Hin.
    + exists (VStr "prod"). split; vm_compute; reflexivity.
  - apply (checkProperty_follows_path regexp.MatchString [] "monitoring"
             (VStr "true") (<["monitoring" := VBool true]> ∅) blankResult).
    + unfold namedConditions. intros Hin.
      repeat (apply elem_of_cons in Hin as [Hin|Hin]; [discriminate Hin|]).
      by apply elem_of_nil in Hin.
    + exists (VBool true). split; vm_compute; reflexivity.
Defined.

(** Every condition, under every key: it passes and leaves the result
    as it was, or it fails and appends exactly one detail; and whether it
    passes depends neither on the result it is given nor on the order the
    runtime ranges over maps in. *)
Theorem evaluateCondition_appends_one_detail_on_failure
    (RE : string -> string -> bool * option error) (seed : Seed)
    (condition : string) (expected : Value)
    (resource : gmap string Value) (result : ValidationResult.t) :
  let outcome := rules.evaluateCondition RE seed condition expected resource result in
  (outcome.1 = true -> outcome.2 = result) /\
  (outcome.1 = false ->
   exists detail,
     outcome.2 = ValidationResult.appendDetail result detail /\
     ValidationResult.Details outcome.2
     = ValidationResult.Details result ++ [detail]) /\
  (forall seed' result',
     (rules.evaluateCondition RE seed' condition expected resource result').1
     = outcome.1).
Proof.
  intros outcome. subst outcome.
  destruct (evaluateCondition_finish RE seed condition expected resource)
    as [[d|] Hv].
  - rewrite Hv. cbn [finish fst snd]. split; [discriminate|]. split.
    + intros _. by exists d.
    + intros seed' result'.
      rewrite evaluateCondition_holds,
        <- (evaluateCondition_holds RE seed condition expected resource result).
      by rewrite Hv.
  - rewrite Hv. cbn [finish fst snd]. split; [done|]. split; [discriminate|].
    intros seed' result'.
    rewrite evaluateCondition_holds,
      <- (evaluateCondition_holds RE seed condition expected resource result).
    by rewrite Hv.
Qed.

(** The result of [EvaluateRule] carries the name, severity, message and
    remediation of the rule and no resource id; it has no detail when the
    rule passed, and exactly one when it failed; and a rule without
    conditions passes on every resource. *)
Theorem EvaluateRule_result_shape
    (RE : string -> string -> bool * option error) (seed : rules.RuleSeed)
    (rule : ValidationRule.t) (resource : gmap string Value) :
  let result := rules.EvaluateRule RE seed rule resource in
  ValidationResult.RuleName result = ValidationRule.Name rule /\
  ValidationResult.Severity result = ValidationRule.Severity rule /\
  ValidationResult.Message result = ValidationRule.Message rule /\
  ValidationResult.Remediation result = ValidationRule.Remediation rule /\
  ValidationResult.ResourceID result = EmptyString /\
  (ValidationResult.Passed result = true -> ValidationResult.Details result = []) /\
  (ValidationResult.Passed result = false ->
   exists detail, ValidationResult.Details result = [detail]) /\
  (ValidationRule.Conditions rule = ∅ -> ValidationResult.Passed result = true).
Proof.
  intros result. subst result.
  destruct (EvaluateRule_cases RE seed rule resource)
    as [[_ ->]|(b & c & e & a & d & Hsplit & _ & _ & _ & ->)].
  - repeat split; try done; discriminate.
  - do 6 (split; [done|]). split; [by exists d|].
    intros Hempty. rewrite Hempty in Hsplit. unfold rangeMap in Hsplit.
    rewrite map_to_list_empty in Hsplit. cbn [shuffle] in Hsplit.
    by destruct b.
Qed.

(** * Further properties of the orchestrator *)

Section ValidatorFacts.
Import core ValidationReport.

Lemma nonEmptyString_Some v s :
  nonEmptyString v = Some s <-> v = Some (VStr s) /\ s <> EmptyString.
Proof.
  unfold nonEmptyString. destruct v as [[| | | |s'| |]|]; cbn [asString];
    try (split; [discriminate|intros [H _]; discriminate H]).
  destruct (String.eqb_spec s' "") as [->|Hne].
  - split; [discriminate|]. intros [[= <-] H]. by destruct H.
  - split; [by intros [= <-]|]. by intros [[= <-] _].
Qed.

Lemma nonEmptyString_None v :
  nonEmptyString v = None <-> ~ exists s, v = Some (VStr s) /\ s <> EmptyString.
Proof.
  destruct (nonEmptyString v) as [s|] eqn:H.
  - apply nonEmptyString_Some in H. split; [discriminate|]. intros Hn.
    destruct Hn. by exists s.
  - split; [|done]. intros _ (s & Hs). apply nonEmptyString_Some in Hs. congruence.
Qed.

Lemma evaluateRules_results env seeds j applicableRules resource report :
  RuleResults (evaluateRules env seeds j applicableRules resource report)
  = RuleResults report
    ++ imap (fun k rule =>
               ValidationResult.setResourceID
                 (rules.EvaluateRule (regexp_MatchString env) (seeds (j + k)%nat)
                    rule (terraform.Resource.Values resource))
                 (terraform.Resource.Address resource))
         applicableRules /\
  Errors (evaluateRules env seeds j applicableRules resource report)
  = Errors report /\
  DriftStatus (evaluateRules env seeds j applicableRules resource report)
  = DriftStatus report.
Proof.
  revert j report.
  induction applicableRules as [|rule rest IH]; intros j report.
  - cbn [evaluateRules imap]. by rewrite app_nil_r.
  - cbn [evaluateRules]. cbv zeta.
    match goal with
    | |- context [escalate (appendRuleResult report ?r) ?r] =>
        destruct (IH (S j) (escalate (appendRuleResult report r) r))
          as (-> & -> & ->);
        assert (RuleResults (escalate (appendRuleResult report r) r)
                = RuleResults report ++ [r]
                /\ Errors (escalate (appendRuleResult report r) r) = Errors report
                /\ DriftStatus (escalate (appendRuleResult report r) r)
                   = DriftStatus report) as (-> & -> & ->)
    end.
    { unfold escalate.
      destruct (negb _); [|done].
      destruct (String.eqb _ "error"); [done|].
      by destruct (_ && _). }
    split; [|done].
    rewrite <- app_assoc, imap_cons, Nat.add_0_r. cbn [app]. do 2 f_equal.
    apply imap_ext. intros k r _. cbn. by rewrite <- Nat.add_succ_comm.
Qed.

Lemma checkDrift_outcomes v seed resource report :
  DriftStatus report = None ->
  let report' := checkDrift v seed resource report in
  let checked adapter :=
    Validator.cloudAdapter v = Some adapter /\
    Mode (Validator.config v) = ModeValidateExisting /\
    extractResourceID resource <> EmptyString in
  RuleResults report' = RuleResults report /\
  ((~ exists adapter, checked adapter) ->
   report' = report) /\
  (forall adapter,
     checked adapter ->
     match cloud.AdapterDetectDrift adapter seed
             (terraform.Resource.Values resource)
             (terraform.Resource.Type_ resource) (extractResourceID resource) with
     | inr err =>
         report' = appendError report ("Drift detection failed: " +:+ Error err)
     | inl driftStatus =>
         DriftStatus report' = Some driftStatus /\
         Errors report' = Errors report
     end).
Proof.
  intros Hd report' checked. subst report' checked. unfold checkDrift.
  destruct (Validator.cloudAdapter v) as [adapter|].
  2:{ split; [done|]. split; [done|]. by intros adapter [H _]. }
  destruct (String.eqb_spec (Mode (Validator.config v)) ModeValidateExisting)
    as [Hm|Hm].
  2:{ split; [done|]. split; [done|]. by intros a (_ & H & _). }
  destruct (String.eqb_spec (extractResourceID resource) "") as [He|He];
    cbn [negb].
  { split; [done|]. split; [done|]. by intros a (_ & _ & H). }
  split; [|split].
  - destruct (cloud.AdapterDetectDrift _ _ _ _ _) as [d|err]; [|done].
    by destruct (_ && _).
  - intros Hn. destruct Hn. by exists adapter.
  - intros a ([= <-] & _ & _).
    destruct (cloud.AdapterDetectDrift _ _ _ _ _) as [d|err]; [|done].
    by destruct (_ && _).
Qed.

Lemma foldl_countReport reports summary :
  let summary' := foldl countReport summary reports in
  Summary.PassedResources summary'
  = (Summary.PassedResources summary + withStatus "pass" reports)%nat /\
  Summary.FailedResources summary'
  = (Summary.FailedResources summary + withStatus "fail" reports)%nat /\
  Summary.WarningResources summary'
  = (Summary.WarningResources summary + withStatus "warning" reports)%nat /\
  Summary.ErrorResources summary'
  = (Summary.ErrorResources summary + withStatus "error" reports)%nat /\
  Summary.DriftDetected summary'
  = (Summary.DriftDetected summary + withDrift reports)%nat.
Proof.
  revert summary. induction reports as [|report rest IH]; intros summary.
  - unfold withStatus, withDrift. cbn [foldl List.filter length].
    rewrite !Nat.add_0_r. done.
  - cbn [foldl]. cbv zeta.
    destruct (IH (countReport summary report)) as (-> & -> & -> & -> & ->).
    unfold withStatus, withDrift, countReport, spec.driftDetected.
    cbn [List.filter Summary.PassedResources Summary.FailedResources
         Summary.WarningResources Summary.ErrorResources Summary.DriftDetected].
    destruct (String.eqb (Status report) "pass"),
      (String.eqb (Status report) "fail"),
      (String.eqb (Status report) "warning"),
      (String.eqb (Status report) "error"),
      (DriftStatus report) as [[? ? ? ? ? ? [] ?]|];
      cbn [length ResourceStatus.DriftDetected]; repeat split; lia.
Qed.

Lemma deriveStatus_values results drift :
  spec.deriveStatus results drift ∈ ["pass"; "fail"; "warning"].
Proof.
  unfold spec.deriveStatus.
  destruct (existsb _ results); [set_solver|].
  destruct (_ || _); set_solver.
Qed.

(** Reports whose status is derived: the three counters add up, and a
    report with drift is not a passing one. *)
Lemma derived_reports_counts reports :
  Forall (fun report =>
            Status report
            = spec.deriveStatus (RuleResults report) (DriftStatus report))
    reports ->
  (withStatus "pass" reports + withStatus "fail" reports
   + withStatus "warning" reports = length reports)%nat /\
  withStatus "error" reports = 0%nat /\
  (withDrift reports <= withStatus "fail" reports + withStatus "warning" reports)%nat.
Proof.
  unfold withStatus, withDrift.
  induction 1 as [|report rest Hs _ IH]; [done|].
  cbn [List.filter]. rewrite Hs. unfold spec.deriveStatus.
  destruct (existsb (spec.failedWith "error") (RuleResults report)),
    (existsb (spec.failedWith "warning") (RuleResults report)),
    (spec.driftDetected (DriftStatus report));
    cbn [orb String.eqb Ascii.eqb Bool.eqb length]; lia.
Qed.

Lemma withStatus_pos status reports :
  (0 < withStatus status reports)%nat
  <-> exists report, report ∈ reports /\ Status report = status.
Proof.
  unfold withStatus. induction reports as [|report rest IH]; cbn [List.filter].
  - cbn [length]. split; [lia|]. intros (r & Hin & _). by apply elem_of_nil in Hin.
  - destruct (String.eqb_spec (Status report) status) as [Heq|Hne].
    + cbn [length]. split; [|lia]. intros _. exists report. split; [by left|done].
    + rewrite IH. split.
      * intros (r & Hin & Hr). exists r. split; [by right|done].
      * intros (r & Hin & Hr). apply elem_of_cons in Hin as [->|Hin]; [done|].
        by exists r.
Qed.

Lemma initializeCloudAdapter_run env provider s :
  let config := cloud.mkCloudConfig provider "" "" "" "" "" "" "" "" "" "" "" in
  let run adapter :=
    (match cloud.Initialize adapter config with
     | Some err =>
         inr (Errorf_w ("failed to initialize " +:+ provider +:+ " adapter: ") err)
     | None =>
         match cloud.ValidateCredentials adapter with
         | Some err => inr (Errorf_w "cloud credentials validation failed: " err)
         | None => inl tt
         end
     end,
     mkState
       (match cloud.Initialize adapter config, cloud.ValidateCredentials adapter with
        | None, None => Validator.setCloudAdapter (validator s) adapter
        | _, _ => validator s
        end)
       (calls s ++ adapterInitialize provider ::
          match cloud.Initialize adapter config with
          | None => [adapterValidateCredentials provider]
          | Some _ => []
          end)
       (stderr s)) in
  initializeCloudAdapter env provider s
  = if String.eqb provider "aws" then run (aws.NewAdapter (awsSDK env))
    else if String.eqb provider "azure" then run (azure.NewAdapter (azureSDK env))
    else if String.eqb provider "gcp" then run (gcp.NewAdapter (gcpSDK env))
    else (inr (errorString ("unsupported cloud provider: " +:+ provider)), s).
Proof.
  intros config run. subst config run. destruct s as [v cs es].
  unfold initializeCloudAdapter, bind, orWrap, external, getValidator,
    setValidator, outcomeOf, ret, throw.
  cbn [validator calls stderr].
  destruct (String.eqb provider "aws").
  { destruct (cloud.Initialize _ _); [done|].
    destruct (cloud.ValidateCredentials _); cbn [validator calls stderr];
      by rewrite <- app_assoc. }
  destruct (String.eqb provider "azure").
  { destruct (cloud.Initialize _ _); [done|].
    destruct (cloud.ValidateCredentials _); cbn [validator calls stderr];
      by rewrite <- app_assoc. }
  destruct (String.eqb provider "gcp"); [|done].
  destruct (cloud.Initialize _ _); [done|].
  destruct (cloud.ValidateCredentials _); cbn [validator calls stderr];
    by rewrite <- app_assoc.
Qed.

End ValidatorFacts.

(** [extractResourceID] takes the first of [id], [name] and [arn] that
    holds a non-empty string, in this order, and is empty exactly when
    none of them does. *)
Theorem extractResourceID_priority (resource : terraform.Resource.t) :
  let values := terraform.Resource.Values resource in
  let resourceID := core.extractResourceID resource in
  let usable := fun key =>
    exists s, values !! key = Some (VStr s) /\ s <> EmptyString in
  (usable "id" -> values !! "id" = Some (VStr resourceID)) /\
  (~ usable "id" -> usable "name" -> values !! "name" = Some (VStr resourceID)) /\
  (~ usable "id" -> ~ usable "name" -> usable "arn" ->
   values !! "arn" = Some (VStr resourceID)) /\
  (resourceID = EmptyString
   <-> ~ usable "id" /\ ~ usable "name" /\ ~ usable "arn").
Proof.
  intros values resourceID usable. subst resourceID usable.
  unfold core.extractResourceID. fold values.
  destruct (core.nonEmptyString (values !! "id")) as [id|] eqn:Hid.
  { apply nonEmptyString_Some in Hid as [Hid Hne].
    split; [done|]. split; [intros Hn; destruct Hn; by exists id|].
    split; [intros Hn; destruct Hn; by exists id|].
    split; [done|]. intros (Hn & _). destruct Hn. by exists id. }
  apply nonEmptyString_None in Hid.
  split; [done|].
  destruct (core.nonEmptyString (values !! "name")) as [name|] eqn:Hname.
  { apply nonEmptyString_Some in Hname as [Hname Hne].
    split; [done|]. split; [intros _ Hn; destruct Hn; by exists name|].
    split; [done|]. intros (_ & Hn & _). destruct Hn. by exists name. }
  apply nonEmptyString_None in Hname.
  split; [done|].
  destruct (core.nonEmptyString (values !! "arn")) as [arn|] eqn:Harn.
  { apply nonEmptyString_Some in Harn as [Harn Hne].
    split; [done|]. split; [done|]. intros (_ & _ & Hn). destruct Hn. by exists arn. }
  apply nonEmptyString_None in Harn.
  split; [done|]. done.
Qed.

(** The report of [validateResource] holds one result per applicable
    rule, in the order [GetRulesForResource] returns them: the result of
    [EvaluateRule] on the resource's values, with [ResourceID] set to the
    address of the resource. *)
Theorem validateResource_results_follow_rules
    (env : core.Env) (v : core.Validator.t) (i : nat)
    (resource : terraform.Resource.t) :
  let report := core.validateResource env v i resource in
  let applicableRules :=
    rules.GetRulesForResource (core.regexp_MatchString env)
      (core.Validator.rulesEngine v) (terraform.Resource.Type_ resource) in
  core.ValidationReport.RuleResults report
  = imap (fun j rule =>
            ValidationResult.setResourceID
              (rules.EvaluateRule (core.regexp_MatchString env)
                 (core.ruleSeeds env i j) rule
                 (terraform.Resource.Values resource))
              (terraform.Resource.Address resource))
      applicableRules /\
  map ValidationResult.RuleName (core.ValidationReport.RuleResults report)
  = map ValidationRule.Name applicableRules /\
  Forall (fun result =>
            ValidationResult.ResourceID result
            = terraform.Resource.Address resource)
    (core.ValidationReport.RuleResults report).
Proof.
  intros report applicableRules. subst report.
  unfold core.validateResource. cbv zeta. fold applicableRules.
  match goal with
  | |- context [core.checkDrift v ?seed resource ?r] =>
      destruct (checkDrift_outcomes v seed resource r) as (-> & _)
  end.
  { by destruct (evaluateRules_results env (core.ruleSeeds env i) 0
                   applicableRules resource
                   (core.ValidationReport.mk
                      (terraform.Resource.Address resource)
                      (terraform.Resource.Type_ resource)
                      (terraform.Resource.ProviderName resource)
                      "pass" [] None [])) as (_ & _ & ->). }
  destruct (evaluateRules_results env (core.ruleSeeds env i) 0
              applicableRules resource
              (core.ValidationReport.mk
                 (terraform.Resource.Address resource)
                 (terraform.Resource.Type_ resource)
                 (terraform.Resource.ProviderName resource)
                 "pass" [] None [])) as (-> & _ & _).
  cbn [core.ValidationReport.RuleResults app Nat.add].
  split; [reflexivity|]. split.
  - apply list_eq. intros j. rewrite !list_lookup_fmap, list_lookup_imap.
    destruct (applicableRules !! j) as [rule|]; [|done].
    cbn. f_equal.
    apply EvaluateRule_RuleName.
  - apply Forall_forall. intros result Hin.
    apply elem_of_lookup_imap in Hin as (j & rule & -> & _). reflexivity.
Qed.

(** The drift check of [validateResource].  It is made only in
    validate-existing mode, with an adapter, for a resource that has an
    id: otherwise the report has no drift status and no error.  When
    [DetectDrift] fails, the report records "Drift detection failed: ..."
    as its only error, keeps no drift status, and its status stays the
    one the rule results give: a failed drift check never changes it.
    When [DetectDrift] answers, the report holds that answer and no
    error. *)
Theorem validateResource_drift_check
    (env : core.Env) (v : core.Validator.t) (i : nat)
    (resource : terraform.Resource.t) :
  let report := core.validateResource env v i resource in
  let checked := fun adapter =>
    core.Validator.cloudAdapter v = Some adapter /\
    core.Mode (core.Validator.config v) = core.ModeValidateExisting /\
    core.extractResourceID resource <> EmptyString in
  ((~ exists adapter, checked adapter) ->
   core.ValidationReport.DriftStatus report = None /\
   core.ValidationReport.Errors report = []) /\
  (forall adapter,
     checked adapter ->
     match cloud.AdapterDetectDrift adapter (core.driftSeeds env i)
             (terraform.Resource.Values resource)
             (terraform.Resource.Type_ resource)
             (core.extractResourceID resource) with
     | inr err =>
         core.ValidationReport.DriftStatus report = None /\
         core.ValidationReport.Errors report
         = ["Drift detection failed: " +:+ Error err] /\
         core.ValidationReport.Status report
         = spec.deriveStatus (core.ValidationReport.RuleResults report) None
     | inl driftStatus =>
         core.ValidationReport.DriftStatus report = Some driftStatus /\
         core.ValidationReport.Errors report = []
     end).
Proof.
  intros report checked.
  pose proof (validateResource_report env v i resource) as (Hstatus & _).
  fold report in Hstatus. subst report checked.
  unfold core.validateResource in *. cbv zeta in *.
  match goal with
  | |- context [core.checkDrift v ?seed resource ?r] =>
      destruct (evaluateRules_results env (core.ruleSeeds env i) 0
                  (rules.GetRulesForResource (core.regexp_MatchString env)
                     (core.Validator.rulesEngine v)
                     (terraform.Resource.Type_ resource))
                  resource
                  (core.ValidationReport.mk
                     (terraform.Resource.Address resource)
                     (terraform.Resource.Type_ resource)
                     (terraform.Resource.ProviderName resource)
                     "pass" [] None [])) as (_ & He & Hd);
      cbn [core.ValidationReport.Errors core.ValidationReport.DriftStatus]
        in He, Hd;
      destruct (checkDrift_outcomes v seed resource r Hd) as (Hr & Hskip & Hrun);
      set (before := r) in *;
      set (after := core.checkDrift v seed resource before) in *
  end.
  split.
  - intros Hn. rewrite (Hskip Hn). by split.
  - intros adapter Hc. specialize (Hrun adapter Hc).
    destruct (cloud.AdapterDetectDrift adapter _ _ _ _) as [driftStatus|err].
    + destruct Hrun as [-> ->]. by split.
    + rewrite Hrun in Hstatus |- *.
      cbn [core.ValidationReport.appendError core.ValidationReport.DriftStatus
           core.ValidationReport.Errors core.ValidationReport.Status
           core.ValidationReport.RuleResults] in *.
      rewrite He, Hd in *. by repeat split.
Qed.

(** [generateSummary] counts every report once: [TotalResources] is the
    number of reports, which are returned as they are; each of the four
    status counters is the number of reports with that status, and
    [DriftDetected] the number of reports whose drift status says so.  A
    report with any other status is counted in the total only. *)
Theorem generateSummary_counts (v : core.Validator.t) :
  let summary := core.generateSummary v in
  let reports := core.Validator.results v in
  core.Summary.Reports summary = reports /\
  core.Summary.TotalResources summary = length reports /\
  core.Summary.PassedResources summary = withStatus "pass" reports /\
  core.Summary.FailedResources summary = withStatus "fail" reports /\
  core.Summary.WarningResources summary = withStatus "warning" reports /\
  core.Summary.ErrorResources summary = withStatus "error" reports /\
  core.Summary.DriftDetected summary = withDrift reports /\
  (core.Summary.PassedResources summary + core.Summary.FailedResources summary
   + core.Summary.WarningResources summary + core.Summary.ErrorResources summary
   <= core.Summary.TotalResources summary)%nat.
Proof.
  intros summary reports. subst summary.
  destruct (generateSummary_reports v) as [HR HT].
  unfold core.generateSummary in *. cbv zeta in *. fold reports in HR, HT |- *.
  destruct (foldl_countReport reports
              (core.Summary.mk (length reports) 0 0 0 0 0 reports))
    as (Hp & Hf & Hw & He & Hd).
  cbn [core.Summary.PassedResources core.Summary.FailedResources
       core.Summary.WarningResources core.Summary.ErrorResources
       core.Summary.DriftDetected Nat.add] in Hp, Hf, Hw, He, Hd.
  rewrite HR, HT, Hp, Hf, Hw, He, Hd.
  do 7 (split; [reflexivity|]).
  unfold withStatus. clear.
  induction reports as [|report rest IH]; [done|].
  cbn [List.filter].
  destruct (String.eqb_spec (core.ValidationReport.Status report) "pass") as [->|_];
    cbn [String.eqb Ascii.eqb Bool.eqb length]; [lia|].
  destruct (String.eqb_spec (core.ValidationReport.Status report) "fail") as [->|_];
    cbn [String.eqb Ascii.eqb Bool.eqb length]; [lia|].
  destruct (String.eqb_spec (core.ValidationReport.Status report) "warning")
    as [->|_]; cbn [String.eqb Ascii.eqb Bool.eqb length]; [lia|].
  destruct (String.eqb (core.ValidationReport.Status report) "error");
    cbn [length]; lia.
Qed.

(** The summary of a run of a fresh validator: the passed, failed and
    warning counters add up to [TotalResources]; [ErrorResources] is
    zero, no report ever has the status "error"; a report with drift is
    counted as failed or warning.  The [validate] command, which leaves
    with a failure when [FailedResources] or [ErrorResources] is
    positive, does so exactly when some rule of severity "error" failed
    on some resource: warnings, drift and failed drift checks do not make
    it fail. *)
Theorem run_summary_counts
    (env : core.Env) (s : core.State) (summary : core.Summary.t) :
  core.Validator.results (core.validator s) = [] ->
  (core.Validate env s).1 = inl summary ->
  (core.Summary.PassedResources summary + core.Summary.FailedResources summary
   + core.Summary.WarningResources summary
   = core.Summary.TotalResources summary)%nat /\
  core.Summary.ErrorResources summary = 0%nat /\
  (core.Summary.DriftDetected summary
   <= core.Summary.FailedResources summary
      + core.Summary.WarningResources summary)%nat /\
  (commands.exitsWithFailure summary = true
   <-> exists report result,
         report ∈ core.Summary.Reports summary /\
         result ∈ core.ValidationReport.RuleResults report /\
         ValidationResult.Passed result = false /\
         ValidationResult.Severity result = "error").
Proof.
  intros Hfresh Hrun.
  destruct (core.Validate env s) as [r s_end] eqn:Hv. cbn [fst] in Hrun. subst r.
  apply Validate_inl in Hv as (plan & planned & root & adapter & _ & _ & _ & ->).
  set (v := core.resourcesLoop env 0 (core.collectResources root)
              (core.Validator.setCloudAdapter (core.validator s) adapter)).
  destruct (generateSummary_reports v) as [HR HT].
  assert (Forall (fun report =>
                    core.ValidationReport.Status report
                    = spec.deriveStatus (core.ValidationReport.RuleResults report)
                        (core.ValidationReport.DriftStatus report))
            (core.Validator.results v)) as Hderived.
  { subst v.
    destruct (resourcesLoop_results env 0 (core.collectResources root)
                (core.Validator.setCloudAdapter (core.validator s) adapter))
      as (-> & _).
    cbn [core.Validator.setCloudAdapter core.Validator.results].
    rewrite Hfresh. cbn [app].
    apply Forall_forall. intros report Hin.
    apply elem_of_lookup_imap in Hin as (k & resource & -> & _).
    by destruct (validateResource_report env
                   (core.Validator.setCloudAdapter (core.validator s) adapter)
                   (0 + k) resource) as (Hs & _). }
  destruct (derived_reports_counts _ Hderived) as (Hsum & Herr & Hdrift).
  unfold commands.exitsWithFailure.
  unfold core.generateSummary in *. cbv zeta in *.
  destruct (foldl_countReport (core.Validator.results v)
              (core.Summary.mk (length (core.Validator.results v)) 0 0 0 0 0
                 (core.Validator.results v)))
    as (Hp & Hf & Hw & He & Hd).
  cbn [core.Summary.PassedResources core.Summary.FailedResources
       core.Summary.WarningResources core.Summary.ErrorResources
       core.Summary.DriftDetected Nat.add] in Hp, Hf, Hw, He, Hd.
  rewrite HR, HT, Hp, Hf, Hw, He, Hd, Herr.
  split; [exact Hsum|]. split; [reflexivity|]. split; [exact Hdrift|].
  change (0 <? 0)%nat with false. rewrite orb_false_r, Nat.ltb_lt, withStatus_pos.
  split.
  - intros (report & Hin & Hs).
    rewrite Forall_forall in Hderived. rewrite (Hderived report Hin) in Hs.
    unfold spec.deriveStatus in Hs.
    destruct (existsb (spec.failedWith "error")
                (core.ValidationReport.RuleResults report)) eqn:Hex.
    + apply existsb_failedWith in Hex as (result & Hr & Hpass & Hsev).
      by exists report, result.
    + by destruct (_ || _).
  - intros (report & result & Hin & Hr & Hpass & Hsev).
    exists report. split; [exact Hin|].
    rewrite Forall_forall in Hderived. rewrite (Hderived report Hin).
    unfold spec.deriveStatus.
    assert (existsb (spec.failedWith "error")
              (core.ValidationReport.RuleResults report) = true) as ->; [|done].
    apply existsb_failedWith. by exists result.
Qed.

(** On the sample plan in validate-existing mode: the bucket lacks a
    required tag, so the command fails. *)
Lemma run_summary_counts_witness :
  let s :=
    core.start
      (core.NewValidator (examples.config core.ModeValidateExisting false)
         (examples.client None None) examples.policy) in
  exists summary,
    (core.Validate examples.env s).1 = inl summary /\
    core.Summary.ErrorResources summary = 0%nat /\
    (core.Summary.PassedResources summary + core.Summary.FailedResources summary
     + core.Summary.WarningResources summary
     = core.Summary.TotalResources summary)%nat.
Proof.
  intros s.
  destruct ((core.Validate examples.env s).1) as [summary|err] eqn:Hrun;
    [|vm_compute in Hrun; discriminate Hrun].
  exists summary. split; [reflexivity|].
  destruct (run_summary_counts examples.env s summary eq_refl Hrun)
    as (Hsum & Herr & _).
  by split.
Defined.

(** With [NoDestroy] set, [runEphemeralMode] calls [Apply] and nothing
    else: [Destroy] is never called, whatever [Apply] returned, nothing is
    written to standard error, and the outcome is that of [Apply]. *)
Theorem no_destroy_skips_destroy (planFile : string) (s : core.State) :
  core.NoDestroy (core.Validator.config (core.validator s)) = true ->
  let outcome := core.runEphemeralMode planFile s in
  core.calls outcome.2 = core.calls s ++ [core.tfApply planFile] /\
  core.stderr outcome.2 = core.stderr s /\
  core.validator outcome.2 = core.validator s /\
  outcome.1
  = match terraform.Apply (core.Validator.tfClient (core.validator s)) planFile with
    | Some applyErr => inr (Errorf_w "terraform apply failed: " applyErr)
    | None => inl tt
    end.
Proof.
  intros Hn outcome. subst outcome.
  rewrite (runEphemeralMode_no_destroy planFile s Hn). by repeat split.
Qed.

Lemma no_destroy_skips_destroy_witness :
  let s :=
    core.start
      (core.NewValidator
         (core.mkValidatorConfig core.ModeEphemeralSandbox "." "policy.yaml"
            "aws" "human" "" true false)
         (examples.client None (Some examples.destroyFailure))
         examples.policy) in
  core.calls (core.runEphemeralMode "/tmp/terraship-plan.tfplan" s).2
  = [core.tfApply "/tmp/terraship-plan.tfplan"].
Proof.
  intros s.
  by destruct (no_destroy_skips_destroy "/tmp/terraship-plan.tfplan" s eq_refl)
    as (H & _).
Defined.

(** [validateResources]: without planned values or without a root
    module it fails with "no resources found in plan" and leaves the state
    as it was.  Otherwise it succeeds, and appends to the reports the
    validator already holds one report per collected resource, in order;
    it never removes or replaces a report, so a second run on the same
    validator adds to the reports of the first. *)
Theorem validateResources_appends_reports
    (env : core.Env) (plan : terraform.PlanOutput) (s : core.State) :
  let outcome := core.validateResources env plan s in
  let root :=
    match terraform.PlannedValues plan with
    | Some planned => terraform.RootModule planned
    | None => None
    end in
  match root with
  | None =>
      outcome = (inr (errorString "no resources found in plan"), s)
  | Some root =>
      outcome.1 = inl tt /\
      core.Validator.results (core.validator outcome.2)
      = core.Validator.results (core.validator s)
        ++ imap (fun i resource =>
                   core.validateResource env (core.validator s) i resource)
             (core.collectResources root) /\
      core.Validator.config (core.validator outcome.2)
      = core.Validator.config (core.validator s) /\
      core.Validator.cloudAdapter (core.validator outcome.2)
      = core.Validator.cloudAdapter (core.validator s) /\
      core.calls outcome.2 = core.calls s /\
      core.stderr outcome.2 = core.stderr s
  end.
Proof.
  intros outcome root. subst outcome root. unfold core.validateResources.
  destruct (terraform.PlannedValues plan) as [planned|]; [|reflexivity].
  destruct (terraform.RootModule planned) as [root|]; [|reflexivity].
  cbv zeta. unfold core.bind, core.getValidator, core.setValidator.
  cbn [fst snd core.validator core.calls core.stderr].
  destruct (resourcesLoop_results env 0 (core.collectResources root)
              (core.validator s)) as (Hr & Hc & _ & Ha & _).
  cbn [Nat.add] in Hr. by rewrite Hr, Hc, Ha.
Qed.

(** [initializeCloudAdapter], outcome by outcome.  For a provider other
    than "aws", "azure" and "gcp" it fails with "unsupported cloud
    provider: ..." and makes no call.  Otherwise it calls [Initialize] on
    the adapter of the provider.  If that fails, the error is wrapped
    behind "failed to initialize ... adapter: ", [ValidateCredentials] is
    not called and the validator is left as it was.  If it succeeds,
    [ValidateCredentials] is called; if that fails, the error is wrapped
    behind "cloud credentials validation failed: " and the validator is
    left as it was.  Only when both succeed is the adapter stored in the
    validator.  Nothing is written to standard error. *)
Theorem initializeCloudAdapter_outcomes
    (env : core.Env) (provider : string) (s : core.State) :
  let outcome := core.initializeCloudAdapter env provider s in
  let config := cloud.mkCloudConfig provider "" "" "" "" "" "" "" "" "" "" "" in
  let after := fun v trace =>
    core.mkState v (core.calls s ++ trace) (core.stderr s) in
  (provider ∉ ["aws"; "azure"; "gcp"] ->
   outcome
   = (inr (errorString ("unsupported cloud provider: " +:+ provider)), s)) /\
  (forall adapter,
     (provider, adapter) ∈ [("aws", aws.NewAdapter (core.awsSDK env));
                            ("azure", azure.NewAdapter (core.azureSDK env));
                            ("gcp", gcp.NewAdapter (core.gcpSDK env))] ->
     match cloud.Initialize adapter config with
     | Some err =>
         outcome
         = (inr (Errorf_w ("failed to initialize " +:+ provider +:+ " adapter: ")
                   err),
            after (core.validator s) [core.adapterInitialize provider])
     | None =>
         match cloud.ValidateCredentials adapter with
         | Some err =>
             outcome
             = (inr (Errorf_w "cloud credentials validation failed: " err),
                after (core.validator s)
                  [core.adapterInitialize provider;
                   core.adapterValidateCredentials provider])
         | None =>
             outcome
             = (inl tt,
                after (core.Validator.setCloudAdapter (core.validator s) adapter)
                  [core.adapterInitialize provider;
                   core.adapterValidateCredentials provider])
         end
     end).
Proof.
  intros outcome config after. subst outcome config after. cbv beta.
  rewrite initializeCloudAdapter_run. cbv zeta.
  split.
  - intros Hn.
    destruct (String.eqb_spec provider "aws") as [->|_];
      [destruct Hn; by left|].
    destruct (String.eqb_spec provider "azure") as [->|_];
      [destruct Hn; right; by left|].
    destruct (String.eqb_spec provider "gcp") as [->|_];
      [destruct Hn; right; right; by left|].
    reflexivity.
  - intros adapter Hin.
    apply elem_of_cons in Hin as [[= -> ->]|Hin];
      [|apply elem_of_cons in Hin as [[= -> ->]|Hin];
        [|apply elem_of_cons in Hin as [[= -> ->]|Hin];
          [|by apply elem_of_nil in Hin]]].
    all: cbn [String.eqb Ascii.eqb Bool.eqb].
    all: destruct (cloud.Initialize _ _) as [e1|]; [reflexivity|].
    all: destruct (cloud.ValidateCredentials _) as [e2|]; reflexivity.
Qed.

(** * The paths of a run *)

Section Paths.
Import core.

Lemma preparation_changes c :
  preparation c = true -> changesInfrastructure c = false.
Proof. by destruct c. Qed.

Lemma initializeCloudAdapter_trace env provider s :
  let outcome := initializeCloudAdapter env provider s in
  exists trace,
    Forall (fun c => preparation c = true) trace /\
    calls outcome.2 = calls s ++ trace /\
    stderr outcome.2 = stderr s /\
    Validator.config (validator outcome.2) = Validator.config (validator s) /\
    Validator.tfClient (validator outcome.2) = Validator.tfClient (validator s).
Proof.
  cbv zeta. rewrite initializeCloudAdapter_run. cbv zeta.
  destruct (String.eqb provider "aws");
    [|destruct (String.eqb provider "azure");
      [|destruct (String.eqb provider "gcp")]].
  4:{ exists []. rewrite app_nil_r. by repeat split. }
  all: destruct (cloud.Initialize _ _) as [e1|];
    [|destruct (cloud.ValidateCredentials _) as [e2|]];
    cbn [fst snd validator calls stderr];
    eexists; (split; [|split; [reflexivity|by repeat split]]);
    by repeat constructor.
Qed.

Lemma validateResources_frame env plan s :
  let outcome := validateResources env plan s in
  calls outcome.2 = calls s /\
  stderr outcome.2 = stderr s /\
  Validator.config (validator outcome.2) = Validator.config (validator s) /\
  Validator.tfClient (validator outcome.2) = Validator.tfClient (validator s).
Proof.
  cbv zeta. unfold validateResources.
  destruct (terraform.PlannedValues plan) as [planned|]; [|done].
  destruct (terraform.RootModule planned) as [root|]; [|done].
  cbv zeta. unfold bind, getValidator, setValidator.
  cbn [fst snd validator calls stderr].
  by destruct (resourcesLoop_results env 0 (collectResources root) (validator s))
    as (_ & -> & -> & _).
Qed.

Lemma runEphemeralMode_trace planFile s :
  let outcome := runEphemeralMode planFile s in
  let config := Validator.config (validator s) in
  outcome.1
  = match terraform.Apply (Validator.tfClient (validator s)) planFile with
    | Some applyErr => inr (Errorf_w "terraform apply failed: " applyErr)
    | None => inl tt
    end /\
  calls outcome.2
  = calls s ++ tfApply planFile ::
      (if NoDestroy config then [] else [tfDestroy true]) /\
  validator outcome.2 = validator s.
Proof.
  cbv zeta. destruct (NoDestroy (Validator.config (validator s))) eqn:Hn.
  - by rewrite (runEphemeralMode_no_destroy planFile s Hn).
  - by rewrite (runEphemeralMode_run planFile s Hn).
Qed.

(** The four ways a run goes: it fails while preparing; it fails
    between the plan and the validation of the resources; it ends with a
    summary outside the sandbox; or it reaches the sandbox. *)
Lemma Validate_paths env s :
  let config := Validator.config (validator s) in
  let tf := Validator.tfClient (validator s) in
  let planFile := planFilePath env in
  let outcome := Validate env s in
  exists pre,
    ((exists prefix cause,
        outcome.1 = inr (Errorf_w prefix cause) /\
        prefix ∈ ["terraform init failed: "; "terraform validate failed: ";
                  "failed to detect cloud provider: ";
                  "failed to initialize cloud adapter: "] /\
        calls outcome.2 = calls s ++ pre)
     \/
     (exists prefix cause mid,
        outcome.1 = inr (Errorf_w prefix cause) /\
        prefix ∈ ["terraform plan failed: "; "failed to parse plan: ";
                  "resource validation failed: "] /\
        (mid = [] \/ mid = [tfShowJSON planFile]) /\
        calls outcome.2
        = calls s ++ pre ++ tfPlan planFile :: mid ++ [osRemove planFile])
     \/
     (String.eqb (Mode config) ModeEphemeralSandbox = false /\
      (exists summary, outcome.1 = inl summary) /\
      calls outcome.2
      = calls s ++ pre ++ [tfPlan planFile; tfShowJSON planFile;
                           osRemove planFile])
     \/
     (String.eqb (Mode config) ModeEphemeralSandbox = true /\
      (forall applyErr,
         terraform.Apply tf planFile = Some applyErr ->
         outcome.1
         = inr (Errorf_w "ephemeral mode failed: "
                  (Errorf_w "terraform apply failed: " applyErr))) /\
      (terraform.Apply tf planFile = None ->
       exists summary, outcome.1 = inl summary) /\
      calls outcome.2
      = calls s ++ pre
        ++ [tfPlan planFile; tfShowJSON planFile; tfApply planFile]
        ++ (if NoDestroy config then [] else [tfDestroy true])
        ++ [osRemove planFile]))
    /\ Forall (fun c => preparation c = true) pre.
Proof.
  intros config tf planFile outcome. subst config tf planFile outcome.
  destruct s as [v cs es]. cbn [validator calls stderr].
  cbv [Validate bind getValidator orWrap external defer ret outcomeOf].
  cbn [validator calls stderr].
  destruct (terraform.Init (Validator.tfClient v) false) as [e|].
  { exists [tfInit false]. split; [|by repeat constructor]. left.
    exists "terraform init failed: ", e. cbn [fst snd calls].
    split; [done|]. split; [set_solver|done]. }
  destruct (terraform.Validate (Validator.tfClient v)) as [e|].
  { exists [tfInit false; tfValidate]. split; [|by repeat constructor]. left.
    exists "terraform validate failed: ", e. cbn [fst snd calls].
    split; [done|]. split; [set_solver|by rewrite <- app_assoc]. }
  destruct (String.eqb (CloudProvider (Validator.config v)) "");
    [destruct (terraform.GetProvider (Validator.tfClient v)) as [provider|e];
     [|exists [tfInit false; tfValidate; tfGetProvider];
       split; [|by repeat constructor]; left;
       exists "failed to detect cloud provider: ", e; cbn [fst snd calls];
       split; [done|]; split; [set_solver|by rewrite <- !app_assoc]]|];
  (cbn [validator calls stderr]; rewrite <- !app_assoc; cbn [app];
   match goal with
   | |- context [initializeCloudAdapter env ?p
                   {| validator := v; calls := cs ++ ?pre0; stderr := es |}] =>
       assert (Forall (fun c => preparation c = true) pre0) as Hpre0
         by (by repeat constructor);
       revert Hpre0; generalize pre0; generalize p
   end;
   clear; intros provider' pre0 Hpre0;
   destruct (initializeCloudAdapter_trace env provider'
               {| validator := v; calls := cs ++ pre0; stderr := es |})
     as (t & Ht & Hc1 & He1 & Hcfg1 & Htf1);
   cbn [validator calls stderr] in Hc1, He1, Hcfg1, Htf1;
   destruct (initializeCloudAdapter env provider'
               {| validator := v; calls := cs ++ pre0; stderr := es |})
     as [[[]|e] s1]; cbn [fst snd] in Hc1, He1, Hcfg1, Htf1;
   [|exists (pre0 ++ t); (split; [|by apply Forall_app]); left;
     exists "failed to initialize cloud adapter: ", e; cbn [fst snd];
     (split; [done|]); (split; [set_solver|]);
     by rewrite Hc1, <- app_assoc];
   exists (pre0 ++ t); (split; [|by apply Forall_app]); right;
   destruct (terraform.Plan (Validator.tfClient v) (planFilePath env)) as [e|];
   [left; exists "terraform plan failed: ", e, []; cbn [fst snd calls];
    (split; [done|]); (split; [set_solver|]); (split; [by left|]);
    rewrite Hc1; repeat rewrite <- app_assoc; reflexivity|];
   destruct (terraform.ShowJSON (Validator.tfClient v) (planFilePath env))
     as [plan|e]; cbn [validator calls stderr];
   [|left; exists "failed to parse plan: ", e, [tfShowJSON (planFilePath env)];
     cbn [fst snd calls];
     (split; [done|]); (split; [set_solver|]); (split; [by right|]);
     rewrite Hc1; repeat rewrite <- app_assoc; reflexivity];
   match goal with
   | |- context [validateResources env plan ?st] =>
       destruct (validateResources_frame env plan st)
         as (Hc2 & He2 & Hcfg2 & Htf2);
       cbn [validator calls stderr] in Hc2, He2, Hcfg2, Htf2;
       destruct (validateResources env plan st) as [[[]|e] s2];
       cbn [fst snd] in Hc2, He2, Hcfg2, Htf2
   end;
   [|left; exists "resource validation failed: ", e,
       [tfShowJSON (planFilePath env)];
     cbn [fst snd calls];
     (split; [done|]); (split; [set_solver|]); (split; [by right|]);
     rewrite Hc2, Hc1; repeat rewrite <- app_assoc; reflexivity];
   right;
   destruct (String.eqb (Mode (Validator.config v)) ModeEphemeralSandbox);
   [|left; cbn [fst snd calls]; (split; [done|]); (split; [by eexists|]);
     rewrite Hc2, Hc1; repeat rewrite <- app_assoc; reflexivity];
   right; (split; [done|]);
   destruct (runEphemeralMode_trace (planFilePath env) s2) as (Hr3 & Hc3 & Hv3);
   rewrite Hcfg2, Hcfg1 in Hc3; rewrite Htf2, Htf1 in Hr3;
   destruct (runEphemeralMode (planFilePath env) s2) as [[[]|e] s3];
   cbn [fst snd] in Hr3, Hc3, Hv3; cbn [fst snd calls];
   destruct (terraform.Apply (Validator.tfClient v) (planFilePath env))
     as [applyErr|]; try discriminate Hr3;
   [split; [intros ? ?; discriminate|];
    split; [intros _; by eexists|];
    rewrite Hc3, Hc2, Hc1; repeat rewrite <- app_assoc; reflexivity
   |split; [intros ? [= <-]; by injection Hr3 as ->|];
    split; [intros ?; discriminate|];
    rewrite Hc3, Hc2, Hc1; repeat rewrite <- app_assoc; reflexivity]).
Qed.

End Paths.

Lemma preparation_not_in (pre : list core.Call) (c : core.Call) :
  Forall (fun c => preparation c = true) pre -> preparation c = false -> c ∉ pre.
Proof.
  intros Hpre Hc Hin. rewrite Forall_forall in Hpre.
  apply Hpre in Hin. congruence.
Qed.

(** A trace made of preparation calls, then calls that remove no file
    and plan once, then the removal of the plan file. *)
Lemma cleanup_shape (pre body : list core.Call) (planFile : string) :
  Forall (fun c => preparation c = true) pre ->
  Forall (fun c => forall file, c <> core.osRemove file) body ->
  core.tfPlan planFile ∈ body ->
  let trace := pre ++ body ++ [core.osRemove planFile] in
  (core.osRemove planFile ∈ trace <-> core.tfPlan planFile ∈ trace) /\
  (core.tfPlan planFile ∈ trace -> last trace = Some (core.osRemove planFile)) /\
  (forall file, core.osRemove file ∈ trace -> file = planFile).
Proof.
  intros Hpre Hbody Hplan trace. subst trace.
  split; [|split].
  - split; intros _.
    + apply elem_of_app. right. apply elem_of_app. by left.
    + apply elem_of_app. right. apply elem_of_app. right. by left.
  - intros _. by rewrite !app_assoc, last_snoc.
  - intros file Hin. apply elem_of_app in Hin as [Hin|Hin].
    { by apply (preparation_not_in pre (core.osRemove file)) in Hin. }
    apply elem_of_app in Hin as [Hin|Hin].
    { rewrite Forall_forall in Hbody. by destruct (Hbody _ Hin file). }
    apply elem_of_cons in Hin as [[= ->]|Hin]; [done|].
    by apply elem_of_nil in Hin.
Qed.

(** The plan file.  In every run, the plan file is removed exactly when
    the plan step was reached, whatever happened after it (a failed plan,
    a plan that does not parse, a failed apply); the removal is then the
    last call of the run, and no other file is removed. *)
Theorem Validate_removes_plan_file (env : core.Env) (s : core.State) :
  let planFile := core.planFilePath env in
  let outcome := core.Validate env s in
  exists trace,
    core.calls outcome.2 = core.calls s ++ trace /\
    (core.osRemove planFile ∈ trace <-> core.tfPlan planFile ∈ trace) /\
    (core.tfPlan planFile ∈ trace -> last trace = Some (core.osRemove planFile)) /\
    (forall file, core.osRemove file ∈ trace -> file = planFile).
Proof.
  intros planFile outcome. subst outcome.
  destruct (Validate_paths env s) as (pre & Hcases & Hpre). cbv zeta in Hcases.
  fold planFile in Hcases.
  destruct Hcases as [(prefix & cause & _ & _ & Hc)
                     |[(prefix & cause & mid & _ & _ & Hmid & Hc)
                      |[(_ & _ & Hc)|(_ & _ & _ & Hc)]]].
  - exists pre. split; [exact Hc|]. split; [|split].
    + split; intros Hin.
      * by apply (preparation_not_in pre (core.osRemove planFile)) in Hin.
      * by apply (preparation_not_in pre (core.tfPlan planFile)) in Hin.
    + intros Hin. by apply (preparation_not_in pre (core.tfPlan planFile)) in Hin.
    + intros file Hin.
      by apply (preparation_not_in pre (core.osRemove file)) in Hin.
  - exists (pre ++ (core.tfPlan planFile :: mid) ++ [core.osRemove planFile]).
    split; [exact Hc|]. apply cleanup_shape; [exact Hpre| |by left].
    destruct Hmid as [->| ->]; repeat constructor; discriminate.
  - exists (pre ++ [core.tfPlan planFile; core.tfShowJSON planFile]
              ++ [core.osRemove planFile]).
    split; [exact Hc|]. apply cleanup_shape; [exact Hpre| |by left].
    repeat constructor; discriminate.
  - exists (pre ++ ([core.tfPlan planFile; core.tfShowJSON planFile;
                     core.tfApply planFile]
                    ++ (if core.NoDestroy (core.Validator.config (core.validator s))
                        then [] else [core.tfDestroy true]))
              ++ [core.osRemove planFile]).
    split; [by rewrite Hc, <- !app_assoc|].
    apply cleanup_shape; [exact Hpre| |by left].
    destruct (core.NoDestroy _); repeat constructor; discriminate.
Qed.

(** Outside the sandbox mode, a run never calls [Apply] nor [Destroy],
    whatever its steps return. *)
Theorem validate_existing_changes_nothing (env : core.Env) (s : core.State) :
  core.Mode (core.Validator.config (core.validator s))
  <> core.ModeEphemeralSandbox ->
  exists trace,
    core.calls (core.Validate env s).2 = core.calls s ++ trace /\
    Forall (fun c => changesInfrastructure c = false) trace.
Proof.
  intros Hmode.
  destruct (Validate_paths env s) as (pre & Hcases & Hpre). cbv zeta in Hcases.
  assert (Forall (fun c => changesInfrastructure c = false) pre) as Hpre'.
  { eapply Forall_impl; [exact Hpre|]. apply preparation_changes. }
  destruct Hcases as [(prefix & cause & _ & _ & Hc)
                     |[(prefix & cause & mid & _ & _ & Hmid & Hc)
                      |[(_ & _ & Hc)|(Heq & _)]]].
  - by exists pre.
  - eexists. split; [exact Hc|]. apply Forall_app. split; [exact Hpre'|].
    destruct Hmid as [->| ->]; by repeat constructor.
  - eexists. split; [exact Hc|]. apply Forall_app. split; [exact Hpre'|].
    by repeat constructor.
  - apply String.eqb_eq in Heq. by destruct Hmode.
Qed.

Lemma validate_existing_changes_nothing_witness :
  exists trace,
    core.calls
      (core.Validate examples.env
         (core.start
            (core.NewValidator (examples.config core.ModeValidateExisting false)
               (examples.client (Some examples.applyFailure)
                  (Some examples.destroyFailure))
               examples.policy))).2 = trace /\
    Forall (fun c => changesInfrastructure c = false) trace.
Proof.
  destruct (validate_existing_changes_nothing examples.env
              (core.start
                 (core.NewValidator
                    (examples.config core.ModeValidateExisting false)
                    (examples.client (Some examples.applyFailure)
                       (Some examples.destroyFailure))
                    examples.policy)))
    as (trace & Hc & Hf).
  - discriminate.
  - exists trace. split; [exact Hc|exact Hf].
Defined.

(** A failed apply ends the run.  When the terraform binary fails
    [Apply] on the plan file and a run gets to call it, the run returns
    the error "ephemeral mode failed: terraform apply failed: ...", which
    wraps the failure of [Apply]; no summary is returned.  The run is in
    sandbox mode, it still removes the plan file last, and unless
    [NoDestroy] is set it calls [Destroy] between the two.  A run that
    does not get to call [Apply] calls neither [Apply] nor [Destroy]. *)
Theorem apply_failure_ends_the_run
    (env : core.Env) (s : core.State) (applyErr : error) :
  let config := core.Validator.config (core.validator s) in
  let planFile := core.planFilePath env in
  let outcome := core.Validate env s in
  let failure :=
    Errorf_w "ephemeral mode failed: "
      (Errorf_w "terraform apply failed: " applyErr) in
  terraform.Apply (core.Validator.tfClient (core.validator s)) planFile
  = Some applyErr ->
  exists trace,
    core.calls outcome.2 = core.calls s ++ trace /\
    (core.tfApply planFile ∈ trace ->
     outcome.1 = inr failure /\
     wraps failure applyErr /\
     core.Mode config = core.ModeEphemeralSandbox /\
     last trace = Some (core.osRemove planFile) /\
     (core.NoDestroy config = false ->
      exists before,
        trace = before ++ [core.tfApply planFile; core.tfDestroy true;
                           core.osRemove planFile])) /\
    (core.tfApply planFile ∉ trace ->
     Forall (fun c => changesInfrastructure c = false) trace).
Proof.
  intros config planFile outcome failure Happly. subst outcome failure.
  destruct (Validate_paths env s) as (pre & Hcases & Hpre). cbv zeta in Hcases.
  fold planFile config in Hcases.
  assert (Forall (fun c => changesInfrastructure c = false) pre) as Hpre'.
  { eapply Forall_impl; [exact Hpre|]. apply preparation_changes. }
  assert (core.tfApply planFile ∉ pre) as Hnot
    by by apply preparation_not_in.
  destruct Hcases as [(prefix & cause & _ & _ & Hc)
                     |[(prefix & cause & mid & _ & _ & Hmid & Hc)
                      |[(_ & _ & Hc)|(Heq & Hfail & _ & Hc)]]].
  - exists pre. split; [exact Hc|]. split; [done|done].
  - eexists. split; [exact Hc|]. split.
    + intros Hin. exfalso. apply elem_of_app in Hin as [Hin|Hin]; [done|].
      apply elem_of_cons in Hin as [Hin|Hin]; [discriminate Hin|].
      apply elem_of_app in Hin as [Hin|Hin].
      * destruct Hmid as [->| ->]; [by apply elem_of_nil in Hin|].
        apply elem_of_cons in Hin as [Hin|Hin]; [discriminate Hin|].
        by apply elem_of_nil in Hin.
      * apply elem_of_cons in Hin as [Hin|Hin]; [discriminate Hin|].
        by apply elem_of_nil in Hin.
    + intros _. apply Forall_app. split; [exact Hpre'|].
      destruct Hmid as [->| ->]; by repeat constructor.
  - eexists. split; [exact Hc|]. split.
    + intros Hin. exfalso. apply elem_of_app in Hin as [Hin|Hin]; [done|].
      repeat (apply elem_of_cons in Hin as [Hin|Hin]; [discriminate Hin|]).
      by apply elem_of_nil in Hin.
    + intros _. apply Forall_app. split; [exact Hpre'|]. by repeat constructor.
  - eexists. split; [exact Hc|]. split.
    + intros _. split; [by apply Hfail|].
      split; [right; apply wraps_Errorf_w|].
      split; [by apply String.eqb_eq|]. split.
      * destruct (core.NoDestroy config); cbn [app]; rewrite last_app; reflexivity.
      * intros ->. exists (pre ++ [core.tfPlan planFile; core.tfShowJSON planFile]).
        cbn [app]. by rewrite <- app_assoc.
    + intros Hn. destruct Hn. apply elem_of_app. right.
      apply elem_of_app. left. set_solver.
Qed.

Lemma apply_failure_ends_the_run_witness :
  let s :=
    core.start
      (core.NewValidator (examples.config core.ModeEphemeralSandbox false)
         (examples.client (Some examples.applyFailure) None) examples.policy) in
  exists trace,
    core.calls (core.Validate examples.env s).2 = trace /\
    (core.tfApply "/tmp/terraship-plan.tfplan" ∈ trace ->
     (core.Validate examples.env s).1
     = inr (Errorf_w "ephemeral mode failed: "
              (Errorf_w "terraform apply failed: " examples.applyFailure))).
Proof.
  intros s.
  destruct (apply_failure_ends_the_run examples.env s examples.applyFailure
              eq_refl) as (trace & Hc & Hrun & _).
  exists trace. split; [exact Hc|]. intros Hin. by apply Hrun.
Defined.

Section FirstFailure.
Import core.

(** Whether [initializeCloudAdapter] and [validateResources] succeed
    does not depend on the state they start from. *)
Lemma initializeCloudAdapter_fst env provider s s' :
  (initializeCloudAdapter env provider s).1
  = (initializeCloudAdapter env provider s').1.
Proof.
  rewrite !initializeCloudAdapter_run. cbv zeta.
  destruct (String.eqb provider "aws"); [reflexivity|].
  destruct (String.eqb provider "azure"); [reflexivity|].
  destruct (String.eqb provider "gcp"); reflexivity.
Qed.

Lemma validateResources_fst env plan s s' :
  (validateResources env plan s).1 = (validateResources env plan s').1.
Proof.
  unfold validateResources.
  destruct (terraform.PlannedValues plan) as [planned|]; [|reflexivity].
  destruct (terraform.RootModule planned) as [root|]; reflexivity.
Qed.

Lemma Validate_result env s :
  let config := Validator.config (validator s) in
  let tf := Validator.tfClient (validator s) in
  let planFile := planFilePath env in
  let result := (Validate env s).1 in
  match terraform.Init tf false with
  | Some err => result = inr (Errorf_w "terraform init failed: " err)
  | None =>
  match terraform.Validate tf with
  | Some err => result = inr (Errorf_w "terraform validate failed: " err)
  | None =>
  match (if String.eqb (CloudProvider config) ""
         then terraform.GetProvider tf
         else inl (CloudProvider config)) with
  | inr err => result = inr (Errorf_w "failed to detect cloud provider: " err)
  | inl provider =>
  match (initializeCloudAdapter env provider s).1 with
  | inr err => result = inr (Errorf_w "failed to initialize cloud adapter: " err)
  | inl _ =>
  match terraform.Plan tf planFile with
  | Some err => result = inr (Errorf_w "terraform plan failed: " err)
  | None =>
  match terraform.ShowJSON tf planFile with
  | inr err => result = inr (Errorf_w "failed to parse plan: " err)
  | inl plan =>
  match (validateResources env plan s).1 with
  | inr err => result = inr (Errorf_w "resource validation failed: " err)
  | inl _ =>
  match (if String.eqb (Mode config) ModeEphemeralSandbox
         then terraform.Apply tf planFile
         else None) with
  | Some err =>
      result = inr (Errorf_w "ephemeral mode failed: "
                      (Errorf_w "terraform apply failed: " err))
  | None => exists summary, result = inl summary
  end end end end end end end end.
Proof.
  intros config tf planFile result. subst config tf planFile result.
  destruct s as [v cs es]. cbn [validator calls stderr].
  cbv [Validate bind getValidator orWrap external defer ret outcomeOf].
  cbn [validator calls stderr].
  destruct (terraform.Init (Validator.tfClient v) false) as [e|]; [reflexivity|].
  destruct (terraform.Validate (Validator.tfClient v)) as [e|]; [reflexivity|].
  destruct (String.eqb (CloudProvider (Validator.config v)) "");
    [destruct (terraform.GetProvider (Validator.tfClient v)) as [provider|e];
     [|reflexivity]|];
  (cbn [validator calls stderr];
   match goal with
   | |- context [initializeCloudAdapter env ?p
                   {| validator := v; calls := ?cs1; stderr := es |}] =>
       rewrite (initializeCloudAdapter_fst env p
                  {| validator := v; calls := cs; stderr := es |}
                  {| validator := v; calls := cs1; stderr := es |});
       destruct (initializeCloudAdapter_trace env p
                   {| validator := v; calls := cs1; stderr := es |})
         as (t & _ & _ & _ & Hcfg1 & Htf1);
       cbn [validator] in Hcfg1, Htf1;
       destruct (initializeCloudAdapter env p
                   {| validator := v; calls := cs1; stderr := es |})
         as [[[]|e] s1]; cbn [fst snd] in Hcfg1, Htf1 |- *; [|reflexivity]
   end;
   destruct (terraform.Plan (Validator.tfClient v) (planFilePath env)) as [e|];
   [reflexivity|];
   destruct (terraform.ShowJSON (Validator.tfClient v) (planFilePath env))
     as [plan|e]; [|reflexivity];
   cbn [validator calls stderr];
   match goal with
   | |- context [validateResources env plan
                   {| validator := ?v2; calls := ?cs2; stderr := ?es2 |}] =>
       rewrite (validateResources_fst env plan
                  {| validator := v; calls := cs; stderr := es |}
                  {| validator := v2; calls := cs2; stderr := es2 |});
       destruct (validateResources_frame env plan
                   {| validator := v2; calls := cs2; stderr := es2 |})
         as (_ & _ & Hcfg2 & Htf2);
       cbn [validator] in Hcfg2, Htf2;
       destruct (validateResources env plan
                   {| validator := v2; calls := cs2; stderr := es2 |})
         as [[[]|e] s2]; cbn [fst snd] in Hcfg2, Htf2 |- *; [|reflexivity]
   end;
   destruct (String.eqb (Mode (Validator.config v)) ModeEphemeralSandbox);
   [|by eexists];
   destruct (runEphemeralMode_trace (planFilePath env) s2) as (Hr3 & _ & _);
   rewrite Htf2, Htf1 in Hr3;
   destruct (runEphemeralMode (planFilePath env) s2) as [[[]|e] s3];
   cbn [fst snd] in Hr3 |- *;
   destruct (terraform.Apply (Validator.tfClient v) (planFilePath env))
     as [applyErr|]; try discriminate Hr3;
   [by eexists|by injection Hr3 as ->]).
Qed.

End FirstFailure.

(** What [Validate] returns, step by step.  The steps are tried in
    order: init, validate, detection of the provider (only when the
    configuration names none), initialization of the cloud adapter, plan,
    reading of the plan, validation of the resources, and, in sandbox
    mode, the sandbox.  The first step that fails ends the run, and
    [Validate] returns the error of that very step behind the prefix of
    that step; when no step fails it returns a summary.  The error of the
    adapter step and of the resource step is the one that
    [initializeCloudAdapter] and [validateResources] return, and the
    error of the sandbox is the failure of [Apply] behind "terraform apply
    failed: ". *)
Theorem Validate_errors_name_their_step (env : core.Env) (s : core.State) :
  let config := core.Validator.config (core.validator s) in
  let tf := core.Validator.tfClient (core.validator s) in
  let planFile := core.planFilePath env in
  let result := (core.Validate env s).1 in
  match terraform.Init tf false with
  | Some err => result = inr (Errorf_w "terraform init failed: " err)
  | None =>
  match terraform.Validate tf with
  | Some err => result = inr (Errorf_w "terraform validate failed: " err)
  | None =>
  match (if String.eqb (core.CloudProvider config) ""
         then terraform.GetProvider tf
         else inl (core.CloudProvider config)) with
  | inr err => result = inr (Errorf_w "failed to detect cloud provider: " err)
  | inl provider =>
  match (core.initializeCloudAdapter env provider s).1 with
  | inr err => result = inr (Errorf_w "failed to initialize cloud adapter: " err)
  | inl _ =>
  match terraform.Plan tf planFile with
  | Some err => result = inr (Errorf_w "terraform plan failed: " err)
  | None =>
  match terraform.ShowJSON tf planFile with
  | inr err => result = inr (Errorf_w "failed to parse plan: " err)
  | inl plan =>
  match (core.validateResources env plan s).1 with
  | inr err => result = inr (Errorf_w "resource validation failed: " err)
  | inl _ =>
  match (if String.eqb (core.Mode config) core.ModeEphemeralSandbox
         then terraform.Apply tf planFile
         else None) with
  | Some err =>
      result = inr (Errorf_w "ephemeral mode failed: "
                      (Errorf_w "terraform apply failed: " err)) /\
      wraps (Errorf_w "ephemeral mode failed: "
               (Errorf_w "terraform apply failed: " err)) err
  | None => exists summary, result = inl summary
  end end end end end end end end.
Proof.
  intros config tf planFile result.
  pose proof (Validate_result env s) as H. cbv zeta in H.
  fold config tf planFile result in H.
  destruct (terraform.Init tf false); [exact H|].
  destruct (terraform.Validate tf); [exact H|].
  destruct (if String.eqb (core.CloudProvider config) ""
            then terraform.GetProvider tf
            else inl (core.CloudProvider config)) as [provider|]; [|exact H].
  destruct (core.initializeCloudAdapter env provider s).1; [|exact H].
  destruct (terraform.Plan tf planFile); [exact H|].
  destruct (terraform.ShowJSON tf planFile) as [plan|]; [|exact H].
  destruct (core.validateResources env plan s).1; [|exact H].
  destruct (if String.eqb (core.Mode config) core.ModeEphemeralSandbox
            then terraform.Apply tf planFile
            else None) as [err|]; [|exact H].
  split; [exact H|]. right. apply wraps_Errorf_w.
Qed.
